(** * Cus_onboard: the authentication orchestrator and its configuration gate

    A shallow embedding of
      - [src/lib/supabase.ts] (module initialisation) together with the
        configuration validator it imports, and
      - [src/utils/network-diagnostic.ts] ([formatNetworkError]),
      - [src/hooks/useAuth.tsx] (the [AuthProvider] operations),
    followed by the properties the specification states about them.

    JavaScript strings are modelled as [string], holding the UTF-8 encoding
    of the text (every literal the code compares against is ASCII, so
    [includes] and the regular expressions see the same matches on bytes as
    on UTF-16 units; [length] counts UTF-16 units). Timestamps are [Z]
    milliseconds since the epoch ([toISOString] is an order-preserving
    rendering of them). The numbers of the one-time-code computation are
    IEEE 754 doubles, taken from the standard library's [SpecFloat].

    The hosted service is not part of the repository. It is modelled as an
    in-memory store (three tables and the auth endpoints) that carries out
    each request faithfully unless a script of replies says otherwise: a
    reply can take time, answer without data, answer with an error, or
    reject. Asynchronous functions are state transformers over this world
    that resolve, throw or stay pending; [try]/[catch]/[finally] are
    combinators on them. React state setters are applied at once. *)

From Stdlib Require Import String Ascii List ZArith Bool Lia Arith SpecFloat.
Import ListNotations.
Open Scope string_scope.
Open Scope Z_scope.

(* ================================================================== *)
(** ** JavaScript string primitives used by the code                    *)
(* ================================================================== *)

Module Js.

(** [s.startsWith(p)] *)
Fixpoint startsWith (p s : string) : bool :=
  match p, s with
  | EmptyString, _ => true
  | String a p', String b s' => Ascii.eqb a b && startsWith p' s'
  | String _ _, EmptyString => false
  end.

(** [hay.includes(needle)] *)
Fixpoint includes (needle hay : string) : bool :=
  startsWith needle hay ||
  match hay with
  | EmptyString => false
  | String _ hay' => includes needle hay'
  end.

(** Truthiness of a string: only the empty string is falsy. *)
Definition truthy (s : string) : bool :=
  match s with EmptyString => false | _ => true end.

(** [a || b] on strings. *)
Definition orElse (a b : string) : string := if truthy a then a else b.

(** UTF-16 units a byte of the encoding accounts for: one for an ASCII
    byte and for the lead byte of a two- or three-byte sequence, two for
    the lead byte of a four-byte sequence (a surrogate pair), none for a
    continuation byte. *)
Definition units (c : ascii) : Z :=
  let n := Z.of_nat (nat_of_ascii c) in
  if n <? 128 then 1
  else if n <? 192 then 0
  else if n <? 240 then 1
  else 2.

(** [s.length] *)
Fixpoint strlen (s : string) : Z :=
  match s with
  | EmptyString => 0
  | String c s' => units c + strlen s'
  end.

(** [arr.join(', ')] *)
Fixpoint join (sep : string) (l : list string) : string :=
  match l with
  | [] => ""
  | [x] => x
  | x :: tl => x ++ sep ++ join sep tl
  end.

Definition code (c : ascii) : nat := nat_of_ascii c.

Definition isLower (c : ascii) : bool :=
  (97 <=? code c)%nat && (code c <=? 122)%nat.
Definition isUpper (c : ascii) : bool :=
  (65 <=? code c)%nat && (code c <=? 90)%nat.
Definition isDigit (c : ascii) : bool :=
  (48 <=? code c)%nat && (code c <=? 57)%nat.

(** Canonicalisation of the [i] flag (non-unicode mode): ASCII letters
    fold to upper case, nothing else is touched. *)
Definition upcase (c : ascii) : ascii :=
  if isLower c then ascii_of_nat (code c - 32) else c.

Definition eqb_ci (a b : ascii) : bool := Ascii.eqb (upcase a) (upcase b).

(** Consume a literal prefix, comparing under the [i] flag. *)
Fixpoint stripPrefix_ci (p s : string) : option string :=
  match p, s with
  | EmptyString, _ => Some s
  | String a p', String b s' =>
      if eqb_ci a b then stripPrefix_ci p' s' else None
  | String _ _, EmptyString => None
  end.

(** Exact, whole-string comparison under the [i] flag. *)
Fixpoint equal_ci (p s : string) : bool :=
  match p, s with
  | EmptyString, EmptyString => true
  | String a p', String b s' => eqb_ci a b && equal_ci p' s'
  | _, _ => false
  end.

(** Longest prefix of [s] made of characters in the class [cls], and
    what follows it. *)
Fixpoint span (cls : ascii -> bool) (s : string) : string * string :=
  match s with
  | EmptyString => (EmptyString, EmptyString)
  | String c s' =>
      if cls c
      then let (run, rest) := span cls s' in (String c run, rest)
      else (EmptyString, s)
  end.

End Js.

(* ================================================================== *)
(** ** Configuration validator and client construction                  *)
(* ================================================================== *)

Module Config.

Record SupabaseConfig := mkConfig { url : string; anonKey : string }.

Record ConfigValidationResult := mkResult {
  isValid  : bool;
  errors   : list string;
  warnings : list string
}.

Definition placeholder : string := "obbycwigtdzgnyapbdjl".

Definition MSG_URL_MISSING : string := "Supabase URL is missing".
Definition MSG_KEY_MISSING : string := "Supabase anon key is missing".
Definition MSG_URL_FORMAT : string :=
  "Invalid Supabase URL format. Expected format: https://your-project.supabase.co".
Definition MSG_PLACEHOLDER : string :=
  "Using placeholder Supabase URL. Please update with your actual Supabase project URL.".
Definition MSG_KEY_JWT : string :=
  "Supabase anon key does not appear to be a valid JWT token format".
Definition MSG_KEY_SHORT : string :=
  "Supabase anon key seems unusually short".

(** The class [[a-z0-9-]] under the [i] flag. *)
Definition hostChar (c : ascii) : bool :=
  Js.isLower c || Js.isUpper c || Js.isDigit c || Ascii.eqb c "-"%char.

(** [/^https:\/\/[a-z0-9-]+\.supabase\.co$/i]. The class excludes the dot,
    so the run of class characters is forced and no backtracking occurs. *)
Definition matchesUrl (s : string) : bool :=
  match Js.stripPrefix_ci "https://" s with
  | None => false
  | Some rest =>
      let (sub, tail) := Js.span hostChar rest in
      Js.truthy sub && Js.equal_ci ".supabase.co" tail
  end.

(** The class [[A-Za-z0-9-_]]. *)
Definition jwtChar (c : ascii) : bool :=
  Js.isLower c || Js.isUpper c || Js.isDigit c
  || Ascii.eqb c "-"%char || Ascii.eqb c "_"%char.

(** [/^[A-Za-z0-9-_]+\.[A-Za-z0-9-_]+\.[A-Za-z0-9-_]*$/]: three dot-separated
    segments of class characters, the first two non-empty. *)
Definition matchesJwt (s : string) : bool :=
  let (h, r1) := Js.span jwtChar s in
  match r1 with
  | String "."%char r1' =>
      let (p, r2) := Js.span jwtChar r1' in
      match r2 with
      | String "."%char r2' =>
          let (g, r3) := Js.span jwtChar r2' in
          Js.truthy h && Js.truthy p
          && match r3 with EmptyString => true | _ => false end
      | _ => false
      end
  | _ => false
  end.

(** The validator accumulates into one mutable result object. *)
Definition pushError (m : string) (r : ConfigValidationResult) :=
  mkResult false (errors r ++ [m]) (warnings r).
Definition pushWarning (m : string) (r : ConfigValidationResult) :=
  mkResult (isValid r) (errors r) (warnings r ++ [m]).
Definition when (b : bool) (f : ConfigValidationResult -> ConfigValidationResult)
           (r : ConfigValidationResult) := if b then f r else r.

Definition validateSupabaseConfig (config : SupabaseConfig)
  : ConfigValidationResult :=
  let r0 := mkResult true [] [] in
  let r1 := when (negb (Js.truthy (url config))) (pushError MSG_URL_MISSING) r0 in
  let r2 := when (negb (Js.truthy (anonKey config))) (pushError MSG_KEY_MISSING) r1 in
  let r3 := when (Js.truthy (url config) && negb (matchesUrl (url config)))
                 (pushError MSG_URL_FORMAT) r2 in
  let r4 := when (Js.truthy (url config) && Js.includes placeholder (url config))
                 (pushError MSG_PLACEHOLDER) r3 in
  let r5 := when (Js.truthy (anonKey config) && negb (matchesJwt (anonKey config)))
                 (pushWarning MSG_KEY_JWT) r4 in
  let r6 := when (Js.truthy (anonKey config) && (Js.strlen (anonKey config) <? 50))
                 (pushWarning MSG_KEY_SHORT) r5 in
  r6.

(** Module initialisation of [src/lib/supabase.ts]: validate, throw on an
    invalid configuration, warn, and only then construct the client. *)
Inductive Startup :=
| ConfigError (message : string)
| ClientCreated (clientUrl clientKey : string) (warned : list string).

Definition initSupabase (config : SupabaseConfig) : Startup :=
  let validation := validateSupabaseConfig config in
  if negb (isValid validation)
  then ConfigError ("Invalid Supabase configuration: "
                    ++ Js.join ", " (errors validation))
  else ClientCreated (url config) (anonKey config) (warnings validation).

Definition clientConstructed (s : Startup) : bool :=
  match s with ClientCreated _ _ _ => true | ConfigError _ => false end.

End Config.

(* ================================================================== *)
(** ** Values, rows and the world the provider runs in                  *)
(* ================================================================== *)

(** An error object: [message], the PostgREST [code] when there is one,
    and whether it is an instance of [Error]. *)
Record JsError := mkErr {
  message : string;
  code : option string;
  instanceOfError : bool
}.

(** [new Error(msg)] *)
Definition newError (msg : string) : JsError := mkErr msg None true.

(** What a [catch] clause can receive. *)
Inductive JsValue :=
| ErrVal (e : JsError)
| OtherVal.

Record User := mkUser { u_id : string; u_email : option string }.
Record Session := mkSession { s_token : string; s_user : option User }.

(** The columns of [Profile] the provider reads or writes. *)
Record Profile := mkProfile {
  p_id : nat;
  p_user_id : string;
  p_email : string;
  p_full_name : option string;
  p_phone : option string;
  p_created_at : Z;
  p_updated_at : Z
}.

Inductive Channel := Phone | Email.

Definition channel_eqb (a b : Channel) : bool :=
  match a, b with Phone, Phone | Email, Email => true | _, _ => false end.

Record OtpVerification := mkOtp {
  o_id : nat;
  o_user_id : string;
  o_phone : option string;
  o_email : option string;
  otp_code : string;
  otp_type : Channel;
  expires_at : Z;
  is_verified : bool;
  verified_at : option Z;
  o_created_at : Z
}.

Record Notification := mkNotification {
  n_user_id : string;
  n_title : string;
  n_message : string;
  n_type : string;
  n_category : string
}.

(** [Partial<Profile>] over the modelled columns: every key may be present,
    the identifying ones included. *)
Record ProfilePatch := mkPatch {
  set_id : option nat;
  set_user_id : option string;
  set_email : option string;
  set_full_name : option string;
  set_phone : option string;
  set_created_at : option Z;
  set_updated_at : option Z
}.

(** The provider's React state. *)
Record AuthState := mkAuth {
  user : option User;
  session : option Session;
  profile : option Profile;
  loading : bool;
  error : option string
}.

(** The hosted service: its tables and what its auth endpoints know. *)
Record Store := mkStore {
  profiles : list Profile;
  otp_verifications : list OtpVerification;
  notifications : list Notification;
  next_id : nat
}.

Record Service := mkService {
  db : Store;
  authSession : option Session;
  authUser : option User;
  issuing : string   (* identifier given to the next account created *)
}.

(** How the service treats one request. [Served]: carried out and answered.
    [Quiet]: carried out, but the answer carries no data. [Failed e]: not
    carried out, answered with [{ data: null, error: e }]. [Rejected v]: not
    carried out, the promise rejects with [v]. *)
Inductive Outcome :=
| Served
| Quiet
| Failed (e : JsError)
| Rejected (v : JsValue).

Record Reply := mkReply { elapsed : N; outcome : Outcome }.

(** One [fetch] of the reachability probe. *)
Inductive Probe := ProbeOk | ProbeNotOk | ProbeAborted.

Record Env := mkEnv {
  clock : Z;               (* Date.now() *)
  replies : list Reply;    (* script for the coming service requests;
                              once exhausted every request is [Served] *)
  probes : list Probe;     (* script for the coming fetches; default ProbeOk *)
  entropy : list Z;        (* coming Math.random() draws, in units of 2^-53 *)
  onLine : bool            (* navigator.onLine *)
}.

Inductive Request :=
| AuthGetSession
| AuthGetUser
| AuthSignUp (email : string)
| AuthSignIn (email : string)
| AuthSignOut
| SelectProfile (userId : string)
| ProbeProfiles
| InsertProfile (userId email : string)
| UpdateProfile (userId : string)
| InsertOtp (userId : string) (ch : Channel)
| SelectOtp (userId : string) (ch : Channel)
| UpdateOtp (rowId : nat)
| InsertNotification (userId : string).

Inductive Task :=
| RefreshAuthState (attempt : Z)   (* () => refreshAuthState(attempt) *)
| LoadingTimeout (loading : bool) (user : option User).
    (* the 10 second loading guard, a closure over the [loading] and
       [user] of the render in which the effect ran *)
Record Timer := mkTimer { delay : Z; task : Task }.

(** Console output: errors, warnings, the attempts of a refresh, and every
    [console.log] line of the two one-time-code operations. The progress
    tracing of the other functions through [console.log] is left out. *)
Inductive Log :=
| LogRefresh (attempt : Z)
| LogSending (phone email : string) (ch : Channel)
| LogSendResult (error : option JsError)
| LogOtp (ch : Channel) (otp : string)
| LogVerifying (otp : string) (ch : Channel)
| LogOtpResult (data : option OtpVerification) (error : option JsError)
| LogWarn (tag : string) (v : option JsValue)
| LogError (tag : string) (v : option JsValue)
| LogDebug (tag : string).

Record Effects := mkEffects {
  console : list Log;
  timers : list Timer;
  requests : list Request
}.

Record World := mkWorld {
  ui : AuthState;
  svc : Service;
  env : Env;
  out : Effects
}.

(* ------------------------------------------------------------------ *)
(** *** Promises                                                        *)
(* ------------------------------------------------------------------ *)

(** How an [async] function ends: it resolves, it rejects, or it never
    settles ([Pending], the exhaustion of the recursion budget). *)
Inductive Completion (A : Type) :=
| Resolved (a : A)
| Threw (v : JsValue)
| Pending.
Arguments Resolved {A} a.
Arguments Threw {A} v.
Arguments Pending {A}.

Definition Async (A : Type) : Type := World -> Completion A * World.

Definition ret {A} (a : A) : Async A := fun w => (Resolved a, w).

Definition bind {A B} (m : Async A) (k : A -> Async B) : Async B :=
  fun w =>
    match m w with
    | (Resolved a, w') => k a w'
    | (Threw v, w') => (Threw v, w')
    | (Pending, w') => (Pending, w')
    end.

Definition throw {A} (v : JsValue) : Async A := fun w => (Threw v, w).
Definition throwError {A} (msg : string) : Async A := throw (ErrVal (newError msg)).
Definition pending {A} : Async A := fun w => (Pending, w).

(** [try { body } catch (v) { handler v }] *)
Definition tryCatch {A} (body : Async A) (handler : JsValue -> Async A) : Async A :=
  fun w =>
    match body w with
    | (Threw v, w') => handler v w'
    | r => r
    end.

(** [try { body } finally { fin }] *)
Definition tryFinally {A} (body : Async A) (fin : Async unit) : Async A :=
  fun w =>
    match body w with
    | (Pending, w') => (Pending, w')
    | (c, w') =>
        match fin w' with
        | (Resolved _, w'') => (c, w'')
        | (Threw v, w'') => (Threw v, w'')
        | (Pending, w'') => (Pending, w'')
        end
    end.

Declare Scope async_scope.
Delimit Scope async_scope with async.
Notation "x <- m ;; k" := (bind m (fun x => k))
  (at level 61, m at next level, right associativity) : async_scope.
Notation "m ;;; k" := (bind m (fun _ => k))
  (at level 61, right associativity) : async_scope.
Open Scope async_scope.

Definition get : Async World := fun w => (Resolved w, w).
Definition modify (f : World -> World) : Async unit := fun w => (Resolved tt, f w).

(* ------------------------------------------------------------------ *)
(** *** State setters and effects                                       *)
(* ------------------------------------------------------------------ *)

Definition with_ui (f : AuthState -> AuthState) (w : World) : World :=
  mkWorld (f (ui w)) (svc w) (env w) (out w).
Definition with_svc (f : Service -> Service) (w : World) : World :=
  mkWorld (ui w) (f (svc w)) (env w) (out w).
Definition with_env (f : Env -> Env) (w : World) : World :=
  mkWorld (ui w) (svc w) (f (env w)) (out w).
Definition with_out (f : Effects -> Effects) (w : World) : World :=
  mkWorld (ui w) (svc w) (env w) (f (out w)).
Definition with_db (f : Store -> Store) : World -> World :=
  with_svc (fun s => mkService (f (db s)) (authSession s) (authUser s) (issuing s)).

Definition setUser (u : option User) : Async unit :=
  modify (with_ui (fun a => mkAuth u (session a) (profile a) (loading a) (error a))).
Definition setSession (s : option Session) : Async unit :=
  modify (with_ui (fun a => mkAuth (user a) s (profile a) (loading a) (error a))).
Definition setProfile (p : option Profile) : Async unit :=
  modify (with_ui (fun a => mkAuth (user a) (session a) p (loading a) (error a))).
Definition setLoading (b : bool) : Async unit :=
  modify (with_ui (fun a => mkAuth (user a) (session a) (profile a) b (error a))).
Definition setError (e : option string) : Async unit :=
  modify (with_ui (fun a => mkAuth (user a) (session a) (profile a) (loading a) e)).

Definition log (l : Log) : Async unit :=
  modify (with_out (fun o => mkEffects (console o ++ [l]) (timers o) (requests o))).

(** [setTimeout(() => task, delay)] *)
Definition setTimeout (t : Task) (ms : Z) : Async unit :=
  modify (with_out (fun o =>
    mkEffects (console o) (timers o ++ [mkTimer ms t]) (requests o))).

(** [Date.now()] *)
Definition now : Async Z := fun w => (Resolved (clock (env w)), w).

Definition two53 : Z := 2 ^ 53.

(** The draw [Math.random()] makes from the entropy left: the numerator of
    a fraction over [2^53], so a number in [[0, 1)]. *)
Definition draw (entropy : list Z) : Z := hd 0 entropy mod two53.

(** [Math.random()] *)
Definition random : Async Z := fun w =>
  let e := env w in
  (Resolved (draw (entropy e)),
   with_env (fun _ => mkEnv (clock e) (replies e) (probes e) (tl (entropy e)) (onLine e)) w).

(** One answer of the service to a request that does not reject. *)
Inductive Answer := Full | Empty | Err (e : JsError).

(** Send one request: it is recorded, the next scripted reply is consumed,
    and the clock advances by the time the reply took. *)
Definition ask (rq : Request) : Async Answer := fun w =>
  let e := env w in
  let r := hd (mkReply 0 Served) (replies e) in
  let w1 := with_env (fun _ =>
              mkEnv (clock e + Z.of_N (elapsed r)) (tl (replies e))
                    (probes e) (entropy e) (onLine e)) w in
  let w2 := with_out (fun o =>
              mkEffects (console o) (timers o) (requests o ++ [rq])) w1 in
  match outcome r with
  | Served => (Resolved Full, w2)
  | Quiet => (Resolved Empty, w2)
  | Failed err => (Resolved (Err err), w2)
  | Rejected v => (Threw v, w2)
  end.

(** One [fetch] of the reachability probe: [Some ok], or [None] when the
    fetch rejects (network failure or the 3 second abort). *)
Definition fetchProbe : Async (option bool) := fun w =>
  let e := env w in
  let w1 := with_env (fun _ =>
              mkEnv (clock e) (replies e) (tl (probes e)) (entropy e) (onLine e)) w in
  match hd ProbeOk (probes e) with
  | ProbeOk => (Resolved (Some true), w1)
  | ProbeNotOk => (Resolved (Some false), w1)
  | ProbeAborted => (Resolved None, w1)
  end.

Notation "' pat <- m ;; k" :=
  (bind m (fun x => match x with pat => k end))
  (at level 61, pat pattern, m at next level, right associativity) : async_scope.

(** [await new Promise(resolve => setTimeout(resolve, ms))] *)
Definition sleep (ms : Z) : Async unit :=
  modify (with_env (fun e =>
    mkEnv (clock e + ms) (replies e) (probes e) (entropy e) (onLine e))).

(** [n.toString()] for a non-negative integer: decimal digits, most
    significant first, no padding. *)
Definition digitChar (d : Z) : ascii := ascii_of_nat (48 + Z.to_nat d).

Fixpoint digitsInto (fuel : nat) (n : Z) (acc : string) : string :=
  match fuel with
  | O => acc
  | S fuel' =>
      if n <? 10 then String (digitChar n) acc
      else digitsInto fuel' (n / 10) (String (digitChar (n mod 10)) acc)
  end.

Definition toString (n : Z) : string :=
  digitsInto (S (Z.to_nat (Z.log2 n))) n "".

(** IEEE 754 binary64 numbers, as far as the code computes with them. *)
Module F64.

Definition prec : Z := 53.
Definition emax : Z := 1024.

(** The double nearest to [m * 2^e]. *)
Definition ofZ (m e : Z) : spec_float := binary_normalize prec emax m e false.

Definition mul : spec_float -> spec_float -> spec_float := SFmul prec emax.
Definition add : spec_float -> spec_float -> spec_float := SFadd prec emax.

(** [Math.floor(x)] of a finite number; [None] stands for [NaN] and the
    infinities, which [Math.floor] returns unchanged. *)
Definition floor (x : spec_float) : option Z :=
  match x with
  | S754_zero _ => Some 0
  | S754_finite s m e => Some (Z.shiftl (cond_Zopp s (Zpos m)) e)
  | _ => None
  end.

End F64.

(* ================================================================== *)
(** ** [formatNetworkError] (src/utils/network-diagnostic.ts)           *)
(* ================================================================== *)

Definition formatNetworkError (error : JsValue) : string :=
  match error with
  | ErrVal e =>
      let message := message e in
      if Js.includes "ERR_CONNECTION_CLOSED" message then
        "Connection was closed unexpectedly. This might be due to network issues or Supabase service problems."
      else if Js.includes "ERR_CONNECTION_REFUSED" message then
        "Connection was refused. Please check if the Supabase URL is correct."
      else if Js.includes "ERR_NETWORK_CHANGED" message then
        "Network connection changed. Please try again."
      else if Js.includes "timeout" message then
        "Request timed out. Please check your network connection."
      else if Js.includes "404" message then
        "The requested resource was not found. Please check your Supabase URL configuration."
      else message
  | OtherVal => "An unknown network error occurred"
  end.

(* ================================================================== *)
(** ** The client calls the provider makes                              *)
(* ================================================================== *)

Module Supabase.

(** Error produced by [.single()] / [.maybeSingle()] when the number of
    rows does not fit. *)
Definition PGRST116 : JsError :=
  mkErr "JSON object requested, multiple (or no) rows returned"
        (Some "PGRST116") false.

Definition maybeSingle {A} (rows : list A) : option A * option JsError :=
  match rows with
  | [] => (None, None)
  | [r] => (Some r, None)
  | _ => (None, Some PGRST116)
  end.

Definition single {A} (rows : list A) : option A * option JsError :=
  match rows with
  | [r] => (Some r, None)
  | _ => (None, Some PGRST116)
  end.

(** [supabase.auth.getSession()] *)
Definition getSession : Async (option Session * option JsError) :=
  a <- ask AuthGetSession ;;
  w <- get ;;
  ret match a with
      | Full => (authSession (svc w), None)
      | Empty => (None, None)
      | Err e => (None, Some e)
      end.

(** [supabase.auth.getUser()] *)
Definition getUser : Async (option User * option JsError) :=
  a <- ask AuthGetUser ;;
  w <- get ;;
  ret match a with
      | Full => (authUser (svc w), None)
      | Empty => (None, None)
      | Err e => (None, Some e)
      end.

(** [supabase.auth.signUp({ email, password, options })]: the account is
    created under the identifier the service issues and signed in. *)
Definition signUp (email password fullName : string)
  : Async (option User * option JsError) :=
  a <- ask (AuthSignUp email) ;;
  match a with
  | Err e => ret (None, Some e)
  | _ =>
      w <- get ;;
      let u := mkUser (issuing (svc w)) (Some email) in
      modify (with_svc (fun s =>
        mkService (db s) (Some (mkSession (issuing s) (Some u))) (Some u)
                  (issuing s))) ;;;
      ret (match a with Full => Some u | _ => None end, None)
  end.

(** [supabase.auth.signInWithPassword(...)] and [supabase.auth.signOut()]
    as far as the provider looks at them: the error. *)
Definition signInWithPassword (email password : string) : Async (option JsError) :=
  a <- ask (AuthSignIn email) ;;
  ret match a with Err e => Some e | _ => None end.

Definition signOut : Async (option JsError) :=
  a <- ask AuthSignOut ;;
  match a with
  | Err e => ret (Some e)
  | _ =>
      modify (with_svc (fun s => mkService (db s) None None (issuing s))) ;;;
      ret None
  end.

Definition ownedBy (userId : string) (p : Profile) : bool :=
  String.eqb (p_user_id p) userId.

(** [from('profiles').select('*').eq('user_id', userId).maybeSingle()] *)
Definition selectProfile (userId : string)
  : Async (option Profile * option JsError) :=
  a <- ask (SelectProfile userId) ;;
  w <- get ;;
  ret match a with
      | Full => maybeSingle (filter (ownedBy userId) (profiles (db (svc w))))
      | Empty => (None, None)
      | Err e => (None, Some e)
      end.

(** [from('profiles').select('id').limit(1)]: only the error is read. *)
Definition probeProfiles : Async (option JsError) :=
  a <- ask ProbeProfiles ;;
  ret match a with Err e => Some e | _ => None end.

(** [from('profiles').insert({ user_id, email }).select().maybeSingle()] *)
Definition insertProfile (userId email : string)
  : Async (option Profile * option JsError) :=
  a <- ask (InsertProfile userId email) ;;
  match a with
  | Err e => ret (None, Some e)
  | _ =>
      w <- get ;;
      let t := clock (env w) in
      let row := mkProfile (next_id (db (svc w))) userId email None None t t in
      modify (with_db (fun d =>
        mkStore (profiles d ++ [row]) (otp_verifications d)
                (notifications d) (S (next_id d)))) ;;;
      ret (match a with Full => Some row | _ => None end, None)
  end.

Definition orKeep {A} (o : option A) (old : option A) : option A :=
  match o with Some _ => o | None => old end.

Definition orOld {A} (o : option A) (old : A) : A :=
  match o with Some a => a | None => old end.

(** The row after [update({ ...updates, updated_at })]: every key of the
    patch is written; an [updated_at] of the patch is overridden by the
    explicit one. *)
Definition applyPatch (u : ProfilePatch) (updated_at : Z) (p : Profile) : Profile :=
  mkProfile (orOld (set_id u) (p_id p))
            (orOld (set_user_id u) (p_user_id p))
            (orOld (set_email u) (p_email p))
            (orKeep (set_full_name u) (p_full_name p))
            (orKeep (set_phone u) (p_phone p))
            (orOld (set_created_at u) (p_created_at p))
            updated_at.

(** [from('profiles').update({ ...updates, updated_at }).eq('user_id', userId)] *)
Definition updateProfiles (userId : string) (updates : ProfilePatch)
           (updated_at : Z) : Async (option JsError) :=
  a <- ask (UpdateProfile userId) ;;
  match a with
  | Err e => ret (Some e)
  | _ =>
      modify (with_db (fun d =>
        mkStore (map (fun p => if ownedBy userId p
                               then applyPatch updates updated_at p else p)
                     (profiles d))
                (otp_verifications d) (notifications d) (next_id d))) ;;;
      ret None
  end.

(** [from('otp_verifications').insert({ ... })]; [is_verified],
    [verified_at] and [created_at] take their column defaults. *)
Definition insertOtp (userId : string) (phone email : option string)
           (otp : string) (type : Channel) (expiresAt : Z)
  : Async (option JsError) :=
  a <- ask (InsertOtp userId type) ;;
  match a with
  | Err e => ret (Some e)
  | _ =>
      w <- get ;;
      let row := mkOtp (next_id (db (svc w))) userId phone email otp type
                       expiresAt false None (clock (env w)) in
      modify (with_db (fun d =>
        mkStore (profiles d) (otp_verifications d ++ [row])
                (notifications d) (S (next_id d)))) ;;;
      ret None
  end.

(** The filters of the verification query. *)
Definition eligible (userId : string) (type : Channel) (nowIso : Z)
           (o : OtpVerification) : bool :=
  String.eqb (o_user_id o) userId
  && channel_eqb (otp_type o) type
  && (nowIso <? expires_at o)
  && negb (is_verified o).

(** [.order('created_at', { ascending: false })]: an insertion sort by
    decreasing [created_at]. Among rows created at the same instant the
    service is free to choose; this one puts the later row first. *)
Fixpoint insertDesc (x : OtpVerification) (l : list OtpVerification)
  : list OtpVerification :=
  match l with
  | [] => [x]
  | y :: tl =>
      if o_created_at y <? o_created_at x then x :: y :: tl
      else y :: insertDesc x tl
  end.

Definition orderDesc (l : list OtpVerification) : list OtpVerification :=
  fold_right insertDesc [] l.

Definition lookupOtp (userId : string) (type : Channel) (nowIso : Z)
           (table : list OtpVerification) : list OtpVerification :=
  firstn 1 (orderDesc (filter (eligible userId type nowIso) table)).

(** [from('otp_verifications').select('*').eq('user_id', ..).eq('otp_type', ..)
     .gt('expires_at', nowIso).eq('is_verified', false)
     .order('created_at', { ascending: false }).limit(1).single()] *)
Definition selectLatestOtp (userId : string) (type : Channel) (nowIso : Z)
  : Async (option OtpVerification * option JsError) :=
  a <- ask (SelectOtp userId type) ;;
  w <- get ;;
  ret match a with
      | Full => single (lookupOtp userId type nowIso
                          (otp_verifications (db (svc w))))
      | Empty => (None, None)
      | Err e => (None, Some e)
      end.

Definition markVerified (rowId : nat) (verifiedAt : Z) (o : OtpVerification)
  : OtpVerification :=
  if Nat.eqb (o_id o) rowId
  then mkOtp (o_id o) (o_user_id o) (o_phone o) (o_email o) (otp_code o)
             (otp_type o) (expires_at o) true (Some verifiedAt) (o_created_at o)
  else o.

(** [from('otp_verifications').update({ is_verified: true, verified_at })
     .eq('id', rowId)] *)
Definition updateOtpVerified (rowId : nat) (verifiedAt : Z)
  : Async (option JsError) :=
  a <- ask (UpdateOtp rowId) ;;
  match a with
  | Err e => ret (Some e)
  | _ =>
      modify (with_db (fun d =>
        mkStore (profiles d)
                (map (markVerified rowId verifiedAt) (otp_verifications d))
                (notifications d) (next_id d))) ;;;
      ret None
  end.

(** [from('notifications').insert({ ... })] *)
Definition insertNotification (n : Notification) : Async (option JsError) :=
  a <- ask (InsertNotification (n_user_id n)) ;;
  match a with
  | Err e => ret (Some e)
  | _ =>
      modify (with_db (fun d =>
        mkStore (profiles d) (otp_verifications d)
                (notifications d ++ [n]) (next_id d))) ;;;
      ret None
  end.

End Supabase.

(* ================================================================== *)
(** ** The provider (src/hooks/useAuth.tsx)                             *)
(* ================================================================== *)

Definition sessionUser (s : option Session) : option User :=
  match s with Some s' => s_user s' | None => None end.

(** [checkConnectivity]: advisory; every failure ends in [false]. *)
Definition checkConnectivity : Async bool :=
  w <- get ;;
  if negb (onLine (env w)) then ret false
  else
    r1 <- fetchProbe ;;
    match r1 with
    | Some true => ret true
    | _ =>
        r2 <- fetchProbe ;;
        match r2 with
        | Some ok => ret ok
        | None =>
            r3 <- fetchProbe ;;
            match r3 with
            | Some _ => ret true
            | None =>
                log (LogDebug "General connectivity check failed:") ;;;
                ret false
            end
        end
    end.

Definition MSG_TABLE_UNREACHABLE : string :=
  "Cannot access user profiles. Please check your Supabase table policies.".
Definition MSG_ROW_DENIED : string :=
  "Access denied to your profile. Please contact support.".
Definition MSG_NO_USER : string := "No user logged in".
Definition MSG_NO_OTP : string := "No valid OTP found".
Definition MSG_AUTH_TIMEOUT : string :=
  "Authentication timeout - please check your internet connection and Supabase configuration".

Definition isNoRowsCode (c : option string) : bool :=
  match c with Some s => String.eqb s "PGRST116" | None => false end.

(** [createProfile], with the function it calls back into passed in. *)
Definition createProfileWith (refetch : string -> Async unit) (userId : string)
  : Async unit :=
  tryFinally
    (tryCatch
       ('(userData, userError) <- Supabase.getUser ;;
        match userError with
        | Some e => throw (ErrVal e)
        | None =>
            let email :=
              match userData with
              | Some u => match u_email u with
                          | Some m => Js.orElse m ""
                          | None => ""
                          end
              | None => ""
              end in
            '(profileData, profileError) <- Supabase.insertProfile userId email ;;
            match profileError with
            | Some e =>
                log (LogError "AuthProvider: Profile creation failed:"
                              (Some (ErrVal e))) ;;;
                throwError ("Failed to create user profile: " ++ message e)
            | None =>
                match profileData with
                | Some p => setProfile (Some p)
                | None =>
                    log (LogWarn "AuthProvider: Profile creation succeeded but no data returned" None) ;;;
                    refetch userId
                end
            end
        end)
       (fun err =>
          log (LogError "AuthProvider: Error creating profile:" (Some err)) ;;;
          throw err))
    (setLoading false).

(** [fetchProfile]; [fuel] bounds the depth of the
    fetch / create / fetch-again recursion. *)
Fixpoint fetchProfileN (fuel : nat) (userId : string) : Async unit :=
  match fuel with
  | O => pending
  | S fuel' =>
      tryFinally
        (tryCatch
           ('(data, error) <- Supabase.selectProfile userId ;;
            match error with
            | Some e =>
                if Js.includes "406" (message e)
                   || Js.includes "Not Acceptable" (message e)
                then
                  log (LogError "AuthProvider: 406 Not Acceptable error - this might be due to RLS policies" None) ;;;
                  testError <- Supabase.probeProfiles ;;
                  match testError with
                  | Some te =>
                      log (LogError "AuthProvider: Cannot access profiles table at all:"
                                    (Some (ErrVal te))) ;;;
                      throwError MSG_TABLE_UNREACHABLE
                  | None => throwError MSG_ROW_DENIED
                  end
                else if negb (isNoRowsCode (code e)) then throw (ErrVal e)
                else ret tt
            | None => ret tt
            end ;;;
            match data with
            | Some d => setProfile (Some d)
            | None => createProfileWith (fetchProfileN fuel') userId
            end)
           (fun err =>
              log (LogError "AuthProvider: Error fetching profile:" (Some err)) ;;;
              throw err))
        (setLoading false)
  end.

(** The source puts no bound on the recursion. The service of this model
    disturbs finitely many requests and serves the rest, and every further
    round needs a scripted [Quiet] insert, so here one more than the length
    of the script is always enough. What the code does for a recursion of
    any depth is stated over [fetchProfileN]. *)
Definition budget (w : World) : nat := S (List.length (replies (env w))).

Definition fetchProfile (userId : string) : Async unit :=
  fun w => fetchProfileN (budget w) userId w.

Definition createProfile (userId : string) : Async unit :=
  fun w => createProfileWith (fetchProfileN (budget w)) userId w.

Definition welcomeNotification (userId : string) : Notification :=
  mkNotification userId
    "🎉 Welcome to Our Investment Platform!"
    "We're excited to have you on board. Let's get you set up with a quick onboarding process to start your wealth journey."
    "success" "onboarding".

Definition sendWelcomeNotification (userId : string) : Async unit :=
  tryCatch
    ('(session, sessionError) <- Supabase.getSession ;;
     match sessionError with
     | Some e =>
         log (LogError "Cannot send notification: Auth session error:"
                       (Some (ErrVal e)))
     | None =>
         match sessionUser session with
         | None => log (LogError "Cannot send notification: User not authenticated" None)
         | Some _ =>
             error <- Supabase.insertNotification (welcomeNotification userId) ;;
             match error with
             | Some e => log (LogError "Error sending welcome notification:"
                                       (Some (ErrVal e)))
             | None => ret tt
             end
         end
     end)
    (fun err => log (LogError "Error sending welcome notification:" (Some err))).

Definition signUp (email password fullName : string) : Async unit :=
  tryCatch
    ('(dataUser, error) <- Supabase.signUp email password fullName ;;
     match error with
     | Some e =>
         log (LogError "Sign up error details:" (Some (ErrVal e))) ;;;
         throw (ErrVal e)
     | None =>
         match dataUser with
         | None => ret tt
         | Some u =>
             sleep 1000 ;;;
             tryCatch
               ('(existingProfile, _) <- Supabase.selectProfile (u_id u) ;;
                match existingProfile with
                | Some _ =>
                    t <- now ;;
                    updateError <- Supabase.updateProfiles (u_id u)
                                     (mkPatch None None None (Some fullName) None None None) t ;;
                    match updateError with
                    | Some e => log (LogError "Profile update error:" (Some (ErrVal e)))
                    | None => ret tt
                    end
                | None => ret tt
                end)
               (fun err => log (LogWarn "Error updating profile after signup:" (Some err))) ;;;
             tryCatch
               (sendWelcomeNotification (u_id u))
               (fun err => log (LogWarn "Could not send welcome notification:" (Some err)))
         end
     end)
    (fun err =>
       log (LogError "Error signing up:" (Some err)) ;;;
       throw err).

Definition signIn (email password : string) : Async unit :=
  tryCatch
    (error <- Supabase.signInWithPassword email password ;;
     match error with
     | Some e =>
         log (LogError "Sign in error details:" (Some (ErrVal e))) ;;;
         throw (ErrVal e)
     | None => ret tt
     end)
    (fun err => log (LogError "Error signing in:" (Some err)) ;;; throw err).

Definition signOut : Async unit :=
  tryCatch
    (error <- Supabase.signOut ;;
     match error with
     | Some e =>
         log (LogError "Sign out error details:" (Some (ErrVal e))) ;;;
         throw (ErrVal e)
     | None => ret tt
     end)
    (fun err => log (LogError "Error signing out:" (Some err)) ;;; throw err).

Definition updateProfile (updates : ProfilePatch) : Async unit :=
  w <- get ;;
  match user (ui w) with
  | None => throwError MSG_NO_USER
  | Some u =>
      tryCatch
        (t <- now ;;
         error <- Supabase.updateProfiles (u_id u) updates t ;;
         match error with
         | Some e =>
             log (LogError "Profile update error details:" (Some (ErrVal e))) ;;;
             throw (ErrVal e)
         | None => fetchProfile (u_id u)
         end)
        (fun err => log (LogError "Error updating profile:" (Some err)) ;;; throw err)
  end.

(** [Math.floor(100000 + Math.random() * 900000)] for the draw [k / 2^53]:
    the product and then the sum are each rounded to a double. *)
Definition otpNumber (k : Z) : option Z :=
  F64.floor (F64.add (F64.ofZ 100000 0)
                     (F64.mul (F64.ofZ k (-53)) (F64.ofZ 900000 0))).

(** [Math.floor(100000 + Math.random() * 900000).toString()] *)
Definition generateOtp (k : Z) : string :=
  match otpNumber k with
  | Some n => toString n
  | None => "NaN"
  end.

Definition sendOtp (phone email : string) (type : Channel) : Async bool :=
  w <- get ;;
  match user (ui w) with
  | None => throwError MSG_NO_USER
  | Some u =>
      tryCatch
        (log (LogSending phone email type) ;;;
         k <- random ;;
         let otp := generateOtp k in
         t <- now ;;
         let expiresAt := t + 10 * 60 * 1000 in
         error <- Supabase.insertOtp (u_id u)
                    (match type with Phone => Some phone | Email => None end)
                    (match type with Email => Some email | Phone => None end)
                    otp type expiresAt ;;
         log (LogSendResult error) ;;;
         match error with
         | Some e =>
             log (LogError "OTP send error details:" (Some (ErrVal e))) ;;;
             throw (ErrVal e)
         | None =>
             log (LogOtp type otp) ;;;
             ret true
         end)
        (fun err => log (LogError "Error sending OTP:" (Some err)) ;;; ret false)
  end.

Definition verifyOtp (otp : string) (type : Channel) : Async bool :=
  w <- get ;;
  match user (ui w) with
  | None => throwError MSG_NO_USER
  | Some u =>
      tryCatch
        (log (LogVerifying otp type) ;;;
         t <- now ;;
         '(data, error) <- Supabase.selectLatestOtp (u_id u) type t ;;
         log (LogOtpResult data error) ;;;
         match error, data with
         | None, Some d =>
             if String.eqb (otp_code d) otp then
               t' <- now ;;
               updateError <- Supabase.updateOtpVerified (o_id d) t' ;;
               match updateError with
               | Some e =>
                   log (LogError "OTP verification update error details:"
                                 (Some (ErrVal e))) ;;;
                   throw (ErrVal e)
               | None => ret true
               end
             else ret false
         | _, _ =>
             log (LogError "OTP verification error details:"
                           (option_map ErrVal error)) ;;;
             throwError MSG_NO_OTP
         end)
        (fun err => log (LogError "Error verifying OTP:" (Some err)) ;;; ret false)
  end.

Definition maxRetries : Z := 3.

(** The signatures a session error is matched against before a retry. *)
Definition networkShaped (m : string) : bool :=
  Js.includes "Network" m
  || Js.includes "fetch" m
  || Js.includes "connection" m
  || Js.includes "ERR_CONNECTION_CLOSED" m.

(** The test that decides whether the final failure is shown. *)
Definition looksNetworkRelated (formatted : string) : bool :=
  Js.includes "Network" formatted || Js.includes "connection" formatted.

(** The [try] block of [refreshAuthState]. *)
Definition refreshAttempt (attempt : Z) : Async unit :=
  log (LogRefresh attempt) ;;;
  _ <- checkConnectivity ;;
  setLoading true ;;;
  setError None ;;;
  '(currentSession, sessionError) <- Supabase.getSession ;;
  retrying <-
    match sessionError with
    | Some e =>
        if (attempt <? maxRetries) && networkShaped (message e) then
          setTimeout (RefreshAuthState (attempt + 1)) (attempt * 2000) ;;;
          ret true
        else
          log (LogWarn "AuthProvider: Session fetch failed, proceeding with current state"
                       (Some (ErrVal e))) ;;;
          ret false
    | None => ret false
    end ;;
  if retrying : bool then ret tt
  else
    setSession currentSession ;;;
    setUser (sessionUser currentSession) ;;;
    match sessionUser currentSession with
    | Some u => fetchProfile (u_id u)
    | None => setProfile None ;;; setLoading false
    end.

(** The [catch] block of [refreshAuthState]. *)
Definition refreshFailed (attempt : Z) (err : JsValue) : Async unit :=
  log (LogError "AuthProvider: Error refreshing auth state:" (Some err)) ;;;
  let formattedError := formatNetworkError err in
  if attempt <? maxRetries then
    setTimeout (RefreshAuthState (attempt + 1)) (attempt * 2000)
  else
    setLoading false ;;;
    if negb (looksNetworkRelated formattedError)
    then setError (Some formattedError)
    else ret tt.

Definition refreshAuthState (attempt : Z) : Async unit :=
  tryCatch (refreshAttempt attempt) (refreshFailed attempt).

Inductive AuthEvent :=
| INITIAL_SESSION
| SIGNED_IN
| SIGNED_OUT
| TOKEN_REFRESHED
| USER_UPDATED
| OtherEvent (name : string).

Definition isLoadingTimeout (t : Timer) : bool :=
  match task t with LoadingTimeout _ _ => true | _ => false end.

(** [if (loadingTimeout) { clearTimeout(loadingTimeout); loadingTimeout = null }] *)
Definition clearLoadingTimeout : Async unit :=
  modify (with_out (fun o =>
    mkEffects (console o)
              (filter (fun t => negb (isLoadingTimeout t)) (timers o))
              (requests o))).

(** The callback registered with [supabase.auth.onAuthStateChange], with
    the [fetchProfile] it calls passed in; [isMounted] is the effect's flag
    at the time the event arrives. *)
Definition onAuthStateChangeWith (fetchProfile : string -> Async unit)
           (isMounted : bool) (event : AuthEvent)
           (session : option Session) : Async unit :=
  clearLoadingTimeout ;;;
  if negb isMounted then ret tt
  else
    setSession session ;;;
    setUser (sessionUser session) ;;;
    match sessionUser session with
    | Some u =>
        tryCatch
          (fetchProfile (u_id u))
          (fun err =>
             log (LogError "AuthProvider: Error fetching profile:" (Some err)) ;;;
             let errorMessage :=
               match err with
               | ErrVal e => if instanceOfError e then message e
                             else "Failed to fetch profile"
               | OtherVal => "Failed to fetch profile"
               end in
             setError (Some errorMessage))
    | None =>
        setProfile None ;;;
        setLoading false ;;;
        setError None
    end.

Definition onAuthStateChange : bool -> AuthEvent -> option Session -> Async unit :=
  onAuthStateChangeWith fetchProfile.

(** The callback of the loading guard (10 seconds after the effect ran).
    [isMounted] is the effect's flag when the timer fires; [loading] and
    [user] are the values of the render in which the effect ran, which
    the closure captured, not the current state. *)
Definition onLoadingTimeout (isMounted : bool) (loading : bool)
           (user : option User) : Async unit :=
  if isMounted && loading then
    log (LogWarn "AuthProvider: Loading timeout reached, forcing loading to false" None) ;;;
    setLoading false ;;;
    match user with
    | None => setError (Some MSG_AUTH_TIMEOUT)
    | Some _ => ret tt
    end
  else ret tt.

(** A timer that fires belongs to a mounted effect: the cleanup clears the
    loading guard, and a retry does not look at the flag. *)
Definition runTask (t : Task) : Async unit :=
  match t with
  | RefreshAuthState attempt => refreshAuthState attempt
  | LoadingTimeout loading user => onLoadingTimeout true loading user
  end.

(** Let the timers that are due fire, oldest first, at most [n] of them. *)
Fixpoint settle (n : nat) : Async unit :=
  match n with
  | O => ret tt
  | S n' =>
      w <- get ;;
      match timers (out w) with
      | [] => ret tt
      | t :: rest =>
          modify (with_out (fun o => mkEffects (console o) rest (requests o))) ;;;
          sleep (delay t) ;;;
          runTask (task t) ;;;
          settle n'
      end
  end.

(** Number of attempts of [refreshAuthState] recorded on the console. *)
Definition countAttempts (con : list Log) : nat :=
  List.length (filter (fun l => match l with LogRefresh _ => true | _ => false end)
                      con).

Definition attemptsLogged (w : World) : nat := countAttempts (console (out w)).

(* ================================================================== *)
(** ** Vocabulary for the statements                                    *)
(* ================================================================== *)

(** The reply the service gives to the next request. *)
Definition nextReply (w : World) : Reply :=
  hd (mkReply 0 Served) (replies (env w)).

(** The request is carried out (it neither fails nor rejects). *)
Definition accepted (o : Outcome) : bool :=
  match o with Served | Quiet => true | _ => false end.

(** The replies to the requests after the next one. *)
Definition outcomeAt (i : nat) (w : World) : Outcome :=
  outcome (nth i (replies (env w)) (mkReply 0 Served)).

Definition elapsedAt (i : nat) (w : World) : Z :=
  Z.of_N (elapsed (nth i (replies (env w)) (mkReply 0 Served))).

(** The email the auth service reports for the signed-in account. *)
Definition authEmail (w : World) : string :=
  match authUser (svc w) with
  | Some au => match u_email au with Some m => m | None => "" end
  | None => ""
  end.

(** What a run that started in [w] has left alone: the pending timers, the
    visible error and the count of refresh attempts; it has only consumed
    replies. *)
Definition settled {A} (w : World) (r : Completion A * World) : Prop :=
  timers (out (snd r)) = timers (out w)
  /\ error (ui (snd r)) = error (ui w)
  /\ attemptsLogged (snd r) = attemptsLogged w
  /\ (List.length (replies (env (snd r))) <= List.length (replies (env w)))%nat.

(** The timer [refreshAuthState attempt] sets when it retries. *)
Definition retryTimer (attempt : Z) : Timer :=
  mkTimer (attempt * 2000) (RefreshAuthState (attempt + 1)).

(** [N / 2^n] rounded to the nearest integer, ties to the even one. *)
Definition rne (N n : Z) : Z :=
  let q := N / 2 ^ n in
  match 2 * (N mod 2 ^ n) ?= 2 ^ n with
  | Lt => q
  | Eq => if Z.even q then q else q + 1
  | Gt => q + 1
  end.

(** The integer [N] rounded to 53 significant bits. *)
Definition round53 (N : Z) : Z :=
  let n := Z.max 0 (Zdigits2 N - 53) in 2 ^ n * rne N n.

(** Doubles are compared as integers after scaling by [2^bias]. *)
Definition bias : Z := 1100.

(** [100000 + k/2^53 * 900000] floored without any rounding. *)
Definition exactOtp (k : Z) : Z := 100000 + 900000 * k / two53.

(** The first draw whose exact floor is the code [c]. *)
Definition firstDraw (c : Z) : Z := ((c - 100000) * two53 + 899999) / 900000.

Definition allDigits (s : string) : bool :=
  forallb Js.isDigit (list_ascii_of_string s).

(** A signed-in user and a world to run examples in: the given React
    user, tables and script of replies, at clock 1000. *)
Definition alice : User := mkUser "user-1" (Some "alice@example.com").

Definition sampleWorld (u : option User) (st : Store) (rp : list Reply)
           (ent : list Z) : World :=
  mkWorld (mkAuth u None None true None)
          (mkService st (option_map (fun x => mkSession "token" (Some x)) u) u "user-2")
          (mkEnv 1000 rp [] ent true)
          (mkEffects [] [] []).

Definition emptyStore : Store := mkStore [] [] [] 0.

(** A reply carrying an API error with the given message. *)
Definition failing (msg : string) : Reply :=
  mkReply 0 (Failed (mkErr msg None false)).

(** A pending phone code of [alice], valid until clock 600500. *)
Definition pendingOtp (rowId : nat) (otp : string) (createdAt : Z)
  : OtpVerification :=
  mkOtp rowId "user-1" (Some "+911234567890") None otp Phone
        600500 false None createdAt.

Definition otpStore (rows : list OtpVerification) : Store :=
  mkStore [] rows [] (List.length rows).

(** Symbolic execution of the promise combinators and of the client calls. *)
Ltac run :=
  cbv beta iota zeta delta
    [bind ret throw throwError pending tryCatch tryFinally get modify
     setUser setSession setProfile setLoading setError log setTimeout now
     random ask sleep fetchProbe clearLoadingTimeout
     with_ui with_svc with_env with_out with_db
     Supabase.getSession Supabase.getUser Supabase.signUp
     Supabase.signInWithPassword Supabase.signOut
     Supabase.selectProfile Supabase.probeProfiles Supabase.insertProfile
     Supabase.updateProfiles Supabase.insertOtp Supabase.selectLatestOtp
     Supabase.updateOtpVerified Supabase.insertNotification
     nextReply accepted hd tl outcome elapsed sessionUser
     s_user s_token
     ui svc env out user session profile loading error
     db authSession authUser issuing
     clock replies probes entropy onLine console timers requests
     profiles otp_verifications notifications next_id fst snd].

Ltac run_in H :=
  cbv beta iota zeta delta
    [nextReply accepted hd tl outcome elapsed sessionUser
     ui svc env out user session profile loading error
     db authSession authUser issuing
     clock replies probes entropy onLine console timers requests
     profiles otp_verifications notifications next_id fst snd] in H.

Ltac open_world w :=
  destruct w as [[?usr ?ses ?prf ?ldg ?err] [[?prs ?ots ?nts ?nid] ?asn ?aus ?iss]
                 [?clk ?rps ?pbs ?ent ?onl] [?con ?tms ?rqs]].

Ltac divlia := Z.div_mod_to_equations; lia.

(* ================================================================== *)
(** ** The rest of the provider's effect (src/hooks/useAuth.tsx)        *)
(* ================================================================== *)

Definition MSG_INVALID_CONFIG : string :=
  "Invalid Supabase configuration. Please check your .env file and ensure the Supabase URL is correct.".

(** [supabaseUrl?.includes('obbycwigtdzgnyapbdjl')] for an environment
    variable that may be undefined. *)
Definition urlHasPlaceholder (supabaseUrl : option string) : bool :=
  match supabaseUrl with
  | Some u => Js.includes Config.placeholder u
  | None => false
  end.

(** [initializeAuth], with the [fetchProfile] it calls passed in;
    [isMounted] is the effect's flag and [supabaseUrl] the value of
    [import.meta.env.VITE_SUPABASE_URL]. *)
Definition initializeAuthWith (fetchProfile : string -> Async unit)
           (isMounted : bool) (supabaseUrl : option string)
  : Async unit :=
  tryCatch
    (_ <- checkConnectivity ;;
     '(session, sessionError) <- Supabase.getSession ;;
     match sessionError with
     | Some e =>
         log (LogError "AuthProvider: Session error details" (Some (ErrVal e))) ;;;
         if Js.includes "404" (message e) && urlHasPlaceholder supabaseUrl then
           log (LogError "AuthProvider: Invalid Supabase URL detected. Please check your .env file." None) ;;;
           throwError MSG_INVALID_CONFIG
         else if networkShaped (message e) then
           log (LogWarn "AuthProvider: Network issue detected, proceeding with no session" None)
         else
           throwError ("Failed to get session: " ++ formatNetworkError (ErrVal e))
     | None => ret tt
     end ;;;
     if isMounted : bool then
       setSession session ;;;
       setUser (sessionUser session) ;;;
       match sessionUser session with
       | Some u => fetchProfile (u_id u)
       | None => setLoading false
       end
     else ret tt)
    (fun error =>
       log (LogError "AuthProvider: Error initializing auth:" (Some error)) ;;;
       let formattedError := formatNetworkError error in
       if isMounted then
         setLoading false ;;;
         if negb (looksNetworkRelated formattedError)
         then setError (Some formattedError)
         else ret tt
       else ret tt).

Definition initializeAuth : bool -> option string -> Async unit :=
  initializeAuthWith fetchProfile.

Definition optionString_eqb (a b : option string) : bool :=
  match a, b with
  | Some x, Some y => String.eqb x y
  | None, None => true
  | _, _ => false
  end.

(** The callback of the 60 second interval: re-read the session and start
    a refresh only when the user identifier differs; failures are ignored.
    [isMounted] is the effect's flag when the interval fires. [loading] and
    [user] are the values of the render in which the effect ran, which the
    closure captured: the effect runs again when [user] changes, not when
    [loading] does. *)
Definition periodicRefresh (isMounted : bool) (loading : bool)
           (user : option User) : Async unit :=
  if negb loading && isMounted then
    tryCatch
      ('(currentSession, error) <- Supabase.getSession ;;
       match error with
       | None =>
           if negb (optionString_eqb
                      (option_map u_id (sessionUser currentSession))
                      (option_map u_id user))
           then refreshAuthState 1
           else ret tt
       | Some _ => ret tt
       end)
      (fun err =>
         log (LogError "AuthProvider: Error in periodic refresh (ignoring):" (Some err)))
  else ret tt.

(* ================================================================== *)
(** ** [diagnoseNetworkConnectivity] (src/utils/network-diagnostic.ts)  *)
(* ================================================================== *)

Record Diagnosis := mkDiagnosis {
  browserOnline : bool;
  supabaseAccessible : bool;
  errorMessage : option string
}.

Definition MSG_OFFLINE : string := "Browser reports offline status".
Definition MSG_DOWN : string := "General internet connectivity appears to be down".

Definition diagnoseNetworkConnectivity : Async Diagnosis :=
  w <- get ;;
  let online := onLine (env w) in
  if negb online then ret (mkDiagnosis online false (Some MSG_OFFLINE))
  else
    r1 <- fetchProbe ;;
    match r1 with
    | Some true => ret (mkDiagnosis online true None)
    | _ =>
        r2 <- fetchProbe ;;
        match r2 with
        | Some true => ret (mkDiagnosis online true None)
        | Some false => ret (mkDiagnosis online false (Some MSG_DOWN))
        | None =>
            log (LogDebug "All connectivity checks failed:") ;;;
            ret (mkDiagnosis online false (Some MSG_DOWN))
        end
    end.

(* ================================================================== *)
(** ** Document step of the wizard
       (src/components/Onboarding/steps/DocumentVerificationStep.tsx)   *)
(* ================================================================== *)

Module Documents.

Record DocumentType := mkDocumentType {
  dt_id : string;
  dt_name : string;
  required : bool
}.

Record Document := mkDocument {
  doc_name : string;
  doc_size : Z;
  doc_type : string
}.

(** [Record<string, Document>]: the own properties of the object, in
    insertion order. Only keys that are not properties of
    [Object.prototype] are meant (the component uses the four ids below). *)
Definition Docs := list (string * Document).

Record FormData := mkFormData {
  documents : Docs;
  agreementAccepted : bool
}.

Definition documentTypes : list DocumentType :=
  [ mkDocumentType "id_verification" "Government ID" true;
    mkDocumentType "business_license" "Business License" false;
    mkDocumentType "tax_document" "Tax Document" false;
    mkDocumentType "proof_of_address" "Proof of Address" true ].

(** [docs[key]] *)
Fixpoint lookup (key : string) (docs : Docs) : option Document :=
  match docs with
  | [] => None
  | (k, d) :: tl => if String.eqb k key then Some d else lookup key tl
  end.

(** [docs[key] = d]: an existing property keeps its place. *)
Fixpoint assign (key : string) (d : Document) (docs : Docs) : Docs :=
  match docs with
  | [] => [(key, d)]
  | (k, old) :: tl =>
      if String.eqb k key then (k, d) :: tl else (k, old) :: assign key d tl
  end.

(** [delete docs[key]] *)
Definition remove (key : string) (docs : Docs) : Docs :=
  filter (fun kd => negb (String.eqb (fst kd) key)) docs.

Definition handleDocumentUpload (documentType : string) (file : Document)
           (formData : FormData) : FormData :=
  let newDocs := assign documentType
                   (mkDocument (doc_name file) (doc_size file) (doc_type file))
                   (documents formData) in
  mkFormData newDocs (agreementAccepted formData).

Definition removeDocument (documentType : string) (formData : FormData)
  : FormData :=
  let newDocs := remove documentType (documents formData) in
  mkFormData newDocs (agreementAccepted formData).

Definition isSome {A} (o : option A) : bool :=
  match o with Some _ => true | None => false end.

Definition isRequiredDocumentsUploaded (formData : FormData) : bool :=
  let requiredTypes := filter required documentTypes in
  forallb (fun doc => isSome (lookup (dt_id doc) (documents formData)))
          requiredTypes.

End Documents.

(* ================================================================== *)
(** ** The application shell (App component)                            *)
(* ================================================================== *)

Module App.

Inductive Screen :=
| LoadingScreen
| TimeoutScreen (message : string)
| ErrorScreen (message : string) (networkHints : bool)
| AuthFormScreen
| OnboardingWizardScreen
| DashboardScreen.

(** The test behind the troubleshooting hints of the error screen. *)
Definition isNetworkError (error : string) : bool :=
  Js.includes "Network" error
  || Js.includes "connection" error
  || Js.includes "timeout" error
  || Js.includes "ERR_CONNECTION_CLOSED" error
  || Js.includes "Supabase" error.

(** A string state that is set: not null and not empty. *)
Definition shown (o : option string) : option string :=
  match o with
  | Some s => if Js.truthy s then Some s else None
  | None => None
  end.

(** What [AppContent] renders; [onboardingCompleted] is
    [profile?.onboarding_completed], absent without a profile. *)
Definition render (loading : bool) (timeoutError error : option string)
           (userPresent : bool) (onboardingCompleted : option bool) : Screen :=
  if loading then LoadingScreen
  else match shown timeoutError with
       | Some t => TimeoutScreen t
       | None =>
           match shown error with
           | Some e => ErrorScreen e (isNetworkError e)
           | None =>
               if negb userPresent then AuthFormScreen
               else match onboardingCompleted with
                    | Some true => DashboardScreen
                    | _ => OnboardingWizardScreen
                    end
           end
       end.

(** The test of the auto-retry effect. *)
Definition retryable (error : string) : bool :=
  Js.includes "Network" error
  || Js.includes "connection" error
  || Js.includes "timeout" error
  || Js.includes "Supabase" error.

(** The auto-retry effect: whether it arms its 5 second timer. *)
Definition autoRetryArmed (error : option string) (retryCount : Z) : bool :=
  match error with
  | Some e => Js.truthy e && (retryCount <? 3) && retryable e
  | None => false
  end.

End App.

(* ================================================================== *)
(** ** Vocabulary for the further statements                            *)
(* ================================================================== *)

(** The answers the coming fetches of the reachability probe will get. *)
Definition probeAt (i : nat) (w : World) : Probe :=
  nth i (probes (env w)) ProbeOk.

Definition isOk (p : Probe) : bool :=
  match p with ProbeOk => true | _ => false end.

Definition isAborted (p : Probe) : bool :=
  match p with ProbeAborted => true | _ => false end.



(** The text the auth-change callback shows for a failed profile fetch:
    [err instanceof Error ? err.message : 'Failed to fetch profile']. *)
Definition fetchFailureText (err : JsValue) : string :=
  match err with
  | ErrVal e => if instanceOfError e then message e else "Failed to fetch profile"
  | OtherVal => "Failed to fetch profile"
  end.

(** The world in which the auth-change callback starts the profile fetch:
    the loading guard cleared, session and user taken over. *)
Definition atFetch (s : option Session) (w : World) : World :=
  snd ((clearLoadingTimeout ;;; setSession s ;;; setUser (sessionUser s)) w).

(** The user identifier of a session, if any: [session?.user?.id]. *)
Definition sessionUserId (s : option Session) : option string :=
  option_map u_id (sessionUser s).

(** The identifiers the document step uses as keys. *)
Definition documentIds : list string :=
  map Documents.dt_id Documents.documentTypes.

Definition stringList_forallb (p : ascii -> bool) (s : string) : bool :=
  forallb p (list_ascii_of_string s).

(* ================================================================== *)
(** * Properties                                                        *)
(* ================================================================== *)

(** ** Configuration gate *)

Section ConfigFacts.
Import Config.

Lemma isValid_error (b : bool) (m : string) (r : ConfigValidationResult) :
  isValid (when b (pushError m) r) = negb b && isValid r.
Proof. destruct b; reflexivity. Qed.

Lemma isValid_warning (b : bool) (m : string) (r : ConfigValidationResult) :
  isValid (when b (pushWarning m) r) = isValid r.
Proof. destruct b; reflexivity. Qed.

Lemma errors_warning (b : bool) (m : string) (r : ConfigValidationResult) :
  errors (when b (pushWarning m) r) = errors r.
Proof. destruct b; reflexivity. Qed.

Lemma errors_error (b : bool) (m : string) (r : ConfigValidationResult) :
  errors (when b (pushError m) r) = (errors r ++ (if b then [m] else []))%list.
Proof. destruct b; cbn [when pushError errors]; [|rewrite app_nil_r]; reflexivity. Qed.

Lemma warnings_error (b : bool) (m : string) (r : ConfigValidationResult) :
  warnings (when b (pushError m) r) = warnings r.
Proof. destruct b; reflexivity. Qed.

Lemma warnings_warning (b : bool) (m : string) (r : ConfigValidationResult) :
  warnings (when b (pushWarning m) r) = (warnings r ++ (if b then [m] else []))%list.
Proof. destruct b; cbn [when pushWarning warnings]; [|rewrite app_nil_r]; reflexivity. Qed.

(** Validity is decided by the presence of both values and by the two URL
    checks; nothing about the shape or length of the key enters. *)
Lemma isValid_characterised (cfg : SupabaseConfig) :
  isValid (validateSupabaseConfig cfg)
  = Js.truthy (url cfg) && Js.truthy (anonKey cfg)
    && matchesUrl (url cfg) && negb (Js.includes placeholder (url cfg)).
Proof.
  unfold validateSupabaseConfig.
  rewrite !isValid_warning, !isValid_error. cbn [isValid].
  destruct (Js.truthy (url cfg)), (Js.truthy (anonKey cfg)),
           (matchesUrl (url cfg)), (Js.includes placeholder (url cfg));
    reflexivity.
Qed.

(** The error list is built from the presence checks and the URL checks. *)
Lemma errors_characterised (cfg : SupabaseConfig) :
  errors (validateSupabaseConfig cfg)
  = ((if negb (Js.truthy (url cfg)) then [MSG_URL_MISSING] else [])
     ++ (if negb (Js.truthy (anonKey cfg)) then [MSG_KEY_MISSING] else [])
     ++ (if Js.truthy (url cfg) && negb (matchesUrl (url cfg))
         then [MSG_URL_FORMAT] else [])
     ++ (if Js.truthy (url cfg) && Js.includes placeholder (url cfg)
         then [MSG_PLACEHOLDER] else []))%list.
Proof.
  unfold validateSupabaseConfig.
  rewrite !errors_warning, !errors_error. cbn [errors app].
  rewrite <- !app_assoc. reflexivity.
Qed.

Lemma warnings_characterised (cfg : SupabaseConfig) :
  warnings (validateSupabaseConfig cfg)
  = ((if Js.truthy (anonKey cfg) && negb (matchesJwt (anonKey cfg))
      then [MSG_KEY_JWT] else [])
     ++ (if Js.truthy (anonKey cfg) && (Js.strlen (anonKey cfg) <? 50)
         then [MSG_KEY_SHORT] else []))%list.
Proof.
  unfold validateSupabaseConfig.
  rewrite !warnings_warning, !warnings_error. cbn [warnings app].
  reflexivity.
Qed.

Lemma errors_ignore_present_key (u k k' : string) :
  Js.truthy k = true -> Js.truthy k' = true ->
  errors (validateSupabaseConfig (mkConfig u k))
  = errors (validateSupabaseConfig (mkConfig u k')).
Proof.
  intros Hk Hk'. rewrite !errors_characterised. cbn [url anonKey].
  rewrite Hk, Hk'. reflexivity.
Qed.

Lemma placeholder_pushes_error (cfg : SupabaseConfig) :
  Js.includes placeholder (url cfg) = true ->
  In MSG_PLACEHOLDER (errors (validateSupabaseConfig cfg)).
Proof.
  intros H.
  assert (Ht : Js.truthy (url cfg) = true).
  { destruct (url cfg); [discriminate H | reflexivity]. }
  rewrite errors_characterised, H, Ht. cbn [andb].
  rewrite !in_app_iff. right; right; right. left. reflexivity.
Qed.

Lemma key_checks_warn (cfg : SupabaseConfig) :
  Js.truthy (anonKey cfg) = true ->
  (matchesJwt (anonKey cfg) = false ->
     In MSG_KEY_JWT (warnings (validateSupabaseConfig cfg)))
  /\ (Js.strlen (anonKey cfg) < 50 ->
     In MSG_KEY_SHORT (warnings (validateSupabaseConfig cfg))).
Proof.
  intros Hk; rewrite warnings_characterised, Hk; split; intros H.
  - rewrite H. apply in_app_iff. left. left. reflexivity.
  - apply Z.ltb_lt in H. rewrite H. apply in_app_iff. right. left. reflexivity.
Qed.

Lemma invalid_never_constructs (cfg : SupabaseConfig) :
  isValid (validateSupabaseConfig cfg) = false ->
  initSupabase cfg
  = ConfigError ("Invalid Supabase configuration: "
                 ++ Js.join ", " (errors (validateSupabaseConfig cfg))).
Proof. intros H; unfold initSupabase; rewrite H; reflexivity. Qed.

End ConfigFacts.

(** C7. A configuration whose endpoint URL carries the known placeholder
    project reference fails validation with the placeholder error, and
    module initialisation then throws the configuration error instead of
    constructing the client (which happens for no invalid configuration at
    all). A key that is present never decides validity: the verdict and the
    error list are the same for any two non-empty keys, and a key failing
    the JWT-shape test or shorter than 50 characters only adds the
    corresponding warning. *)
Theorem config_gate (cfg : Config.SupabaseConfig) :
  (Js.includes Config.placeholder (Config.url cfg) = true ->
     Config.isValid (Config.validateSupabaseConfig cfg) = false
     /\ In Config.MSG_PLACEHOLDER (Config.errors (Config.validateSupabaseConfig cfg))
     /\ Config.initSupabase cfg
        = Config.ConfigError
            ("Invalid Supabase configuration: "
             ++ Js.join ", " (Config.errors (Config.validateSupabaseConfig cfg))))
  /\ (Config.isValid (Config.validateSupabaseConfig cfg) = false ->
        Config.clientConstructed (Config.initSupabase cfg) = false)
  /\ (Js.truthy (Config.anonKey cfg) = true ->
        (forall k', Js.truthy k' = true ->
           Config.isValid (Config.validateSupabaseConfig cfg)
           = Config.isValid (Config.validateSupabaseConfig
                               (Config.mkConfig (Config.url cfg) k'))
           /\ Config.errors (Config.validateSupabaseConfig cfg)
              = Config.errors (Config.validateSupabaseConfig
                                 (Config.mkConfig (Config.url cfg) k')))
        /\ (Config.matchesJwt (Config.anonKey cfg) = false ->
              In Config.MSG_KEY_JWT
                 (Config.warnings (Config.validateSupabaseConfig cfg)))
        /\ (Js.strlen (Config.anonKey cfg) < 50 ->
              In Config.MSG_KEY_SHORT
                 (Config.warnings (Config.validateSupabaseConfig cfg)))).
Proof.
  split; [|split].
  - intros H.
    assert (Hv : Config.isValid (Config.validateSupabaseConfig cfg) = false).
    { rewrite isValid_characterised, H, andb_false_r. reflexivity. }
    split; [exact Hv|]. split.
    + now apply placeholder_pushes_error.
    + now apply invalid_never_constructs.
  - intros H. rewrite (invalid_never_constructs _ H). reflexivity.
  - intros Hk. split; [|now apply key_checks_warn].
    intros k' Hk'. split.
    + rewrite !isValid_characterised. cbn [Config.url Config.anonKey].
      rewrite Hk, Hk'. reflexivity.
    + destruct cfg as [u k]; cbn in *.
      now apply errors_ignore_present_key.
Qed.

(** The placeholder endpoint itself, with a key that is neither JWT-shaped
    nor long enough. *)
Lemma config_gate_witness :
  Config.initSupabase
    (Config.mkConfig "https://obbycwigtdzgnyapbdjl.supabase.co" "short-key")
  = Config.ConfigError
      "Invalid Supabase configuration: Using placeholder Supabase URL. Please update with your actual Supabase project URL."
  /\ Config.clientConstructed
       (Config.initSupabase
          (Config.mkConfig "https://obbycwigtdzgnyapbdjl.supabase.co" "short-key"))
     = false
  /\ In Config.MSG_KEY_SHORT
       (Config.warnings
          (Config.validateSupabaseConfig
             (Config.mkConfig "https://obbycwigtdzgnyapbdjl.supabase.co" "short-key"))).
Proof.
  pose proof (config_gate
    (Config.mkConfig "https://obbycwigtdzgnyapbdjl.supabase.co" "short-key"))
    as [Hp [Hc Hk]].
  split; [|split].
  - destruct (Hp eq_refl) as [_ [_ E]]. exact E.
  - apply Hc. reflexivity.
  - destruct (Hk eq_refl) as [_ [_ Hs]]. apply Hs. vm_compute. reflexivity.
Defined.

(** ** One-time codes: issuance *)

Lemma digitsInto_last (f : nat) (n : Z) (acc : string) :
  n < 10 -> digitsInto (S f) n acc = String (digitChar n) acc.
Proof. intros H. cbn [digitsInto]. apply Z.ltb_lt in H. now rewrite H. Qed.

Lemma digitsInto_step (f : nat) (n : Z) (acc : string) :
  10 <= n ->
  digitsInto (S f) n acc
  = digitsInto f (n / 10) (String (digitChar (n mod 10)) acc).
Proof. intros H. cbn [digitsInto]. apply Z.ltb_ge in H. now rewrite H. Qed.

(** The decimal rendering of a number between 100000 and 999999. *)
Lemma toString_six (n : Z) :
  100000 <= n <= 999999 ->
  toString n =
  String (digitChar (n / 10 / 10 / 10 / 10 / 10))
   (String (digitChar (n / 10 / 10 / 10 / 10 mod 10))
    (String (digitChar (n / 10 / 10 / 10 mod 10))
     (String (digitChar (n / 10 / 10 mod 10))
      (String (digitChar (n / 10 mod 10))
       (String (digitChar (n mod 10)) ""))))).
Proof.
  intros H. unfold toString.
  assert (L : Z.log2 100000 <= Z.log2 n) by (apply Z.log2_le_mono; lia).
  change (Z.log2 100000) with 16 in L.
  assert (E : exists m, Z.to_nat (Z.log2 n) = (5 + m)%nat)
    by (exists (Z.to_nat (Z.log2 n) - 5)%nat; lia).
  destruct E as [m ->]. cbn [Nat.add].
  rewrite !digitsInto_step by divlia.
  rewrite digitsInto_last by divlia.
  reflexivity.
Qed.

Lemma digitChar_cases (d : Z) :
  0 <= d <= 9 ->
  d = 0 \/ d = 1 \/ d = 2 \/ d = 3 \/ d = 4 \/ d = 5 \/ d = 6 \/ d = 7
  \/ d = 8 \/ d = 9.
Proof. lia. Qed.

Lemma digitChar_isDigit (d : Z) :
  0 <= d <= 9 -> Js.isDigit (digitChar d) = true.
Proof.
  intros H. destruct (digitChar_cases d H) as [E|[E|[E|[E|[E|[E|[E|[E|[E|E]]]]]]]]];
    subst d; reflexivity.
Qed.

Lemma digitChar_nonzero (d : Z) :
  1 <= d <= 9 -> digitChar d <> "0"%char.
Proof.
  intros H. assert (H' : 0 <= d <= 9) by lia.
  destruct (digitChar_cases d H') as [E|[E|[E|[E|[E|[E|[E|[E|[E|E]]]]]]]]];
    subst d; try lia; discriminate.
Qed.

Lemma draw_range (es : list Z) : 0 <= draw es < two53.
Proof. unfold draw. apply Z.mod_pos_bound. reflexivity. Qed.

(** *** Rounding to a double, on integers *)

Lemma digits2_size p : digits2_pos p = Pos.size p.
Proof. induction p; simpl; congruence. Qed.

Lemma digits_bounds p :
  2 ^ (Zpos (digits2_pos p) - 1) <= Zpos p < 2 ^ Zpos (digits2_pos p).
Proof.
  rewrite digits2_size.
  pose proof (Pos.size_gt p) as G. pose proof (Pos.size_le p) as L.
  apply Pos2Z.pos_lt_pos in G. apply Pos2Z.pos_le_pos in L.
  rewrite Pos2Z.inj_pow in G, L.
  change (Zpos p~0) with (2 * Zpos p) in L.
  replace (Zpos (Pos.size p)) with (Zpos (Pos.size p) - 1 + 1) in L at 1 by lia.
  rewrite Z.pow_add_r in L by lia. change (2 ^ 1) with 2 in L.
  split; [lia | exact G].
Qed.

Lemma digits_unique (N d : Z) :
  2 ^ (d - 1) <= N < 2 ^ d -> 0 < d -> Zdigits2 N = d.
Proof.
  intros [L U] Hd.
  assert (0 < N) by (pose proof (Z.pow_pos_nonneg 2 (d - 1)); lia).
  destruct N as [|p|p]; try lia. cbn [Zdigits2].
  pose proof (digits_bounds p) as [L' U'].
  set (d' := Zpos (digits2_pos p)) in *.
  assert (0 < d') by (unfold d'; lia).
  destruct (Z.lt_trichotomy d d') as [C|[C|C]]; [|exact (eq_sym C)|].
  - assert (2 ^ d <= 2 ^ (d' - 1)) by (apply Z.pow_le_mono_r; lia). lia.
  - assert (2 ^ d' <= 2 ^ (d - 1)) by (apply Z.pow_le_mono_r; lia). lia.
Qed.

Lemma digits_pos (N : Z) : 0 < N -> 0 < Zdigits2 N /\ 2 ^ (Zdigits2 N - 1) <= N < 2 ^ Zdigits2 N.
Proof.
  intros H. destruct N as [|p|p]; try lia. cbn [Zdigits2].
  split; [lia | apply digits_bounds].
Qed.

Lemma iter_pos_nat {A} (f : A -> A) (p : positive) (x : A) :
  iter_pos f p x = Nat.iter (Pos.to_nat p) f x.
Proof.
  revert x. induction p as [p IH|p IH|]; intros x; cbn [iter_pos].
  - rewrite !IH, Pos2Nat.inj_xI, Nat.iter_succ_r.
    replace (2 * Pos.to_nat p)%nat with (Pos.to_nat p + Pos.to_nat p)%nat by lia.
    now rewrite Nat.iter_add.
  - rewrite !IH, Pos2Nat.inj_xO.
    replace (2 * Pos.to_nat p)%nat with (Pos.to_nat p + Pos.to_nat p)%nat by lia.
    now rewrite Nat.iter_add.
  - reflexivity.
Qed.

Lemma shr_1_nonneg (m : Z) (r s : bool) :
  0 <= m ->
  shr_1 (Build_shr_record m r s) = Build_shr_record (m / 2) (Z.odd m) (r || s).
Proof.
  intros H. rewrite <- Z.div2_div.
  destruct m as [|[p|p|]|]; try lia; reflexivity.
Qed.

Lemma mod_pow_succ (m n : Z) :
  0 <= n ->
  m mod 2 ^ (n + 1) = 2 ^ n * ((m / 2 ^ n) mod 2) + m mod 2 ^ n.
Proof.
  intros Hn. rewrite Z.pow_add_r by lia. change (2 ^ 1) with 2.
  assert (0 < 2 ^ n) by (apply Z.pow_pos_nonneg; lia).
  rewrite Z.rem_mul_r by lia. lia.
Qed.

Lemma shr_iter (n : nat) (m : Z) :
  0 <= m ->
  Nat.iter (S n) shr_1 (Build_shr_record m false false)
  = Build_shr_record (m / 2 ^ Z.of_nat (S n))
                     (Z.odd (m / 2 ^ Z.of_nat n))
                     (negb (m mod 2 ^ Z.of_nat n =? 0)).
Proof.
  intros Hm. induction n as [|n IH].
  - cbn [Nat.iter]. rewrite shr_1_nonneg by exact Hm.
    change (2 ^ Z.of_nat 1) with 2. change (2 ^ Z.of_nat 0) with 1.
    now rewrite Z.div_1_r, Z.mod_1_r.
  - change (Nat.iter (S (S n)) shr_1 ?x) with (shr_1 (Nat.iter (S n) shr_1 x)).
    rewrite IH.
    assert (P : 0 < 2 ^ Z.of_nat n) by (apply Z.pow_pos_nonneg; lia).
    assert (P' : 0 < 2 ^ Z.of_nat (S n)) by (apply Z.pow_pos_nonneg; lia).
    rewrite shr_1_nonneg by (apply Z.div_pos; lia).
    f_equal.
    + rewrite Z.div_div by lia. f_equal.
      rewrite (Nat2Z.inj_succ (S n)), Z.pow_succ_r by lia. lia.
    + rewrite (Nat2Z.inj_succ n). unfold Z.succ.
      rewrite mod_pow_succ by lia.
      rewrite Zmod_odd.
      pose proof (Z.mod_pos_bound m (2 ^ Z.of_nat n) P) as B.
      destruct (Z.odd (m / 2 ^ Z.of_nat n)); cbn [orb].
      * symmetry. apply negb_true_iff, Z.eqb_neq. lia.
      * rewrite Z.mul_0_r, Z.add_0_l. reflexivity.
Qed.

Lemma shr_pos (p : positive) (m : Z) :
  0 <= m ->
  iter_pos shr_1 p (Build_shr_record m false false)
  = Build_shr_record (m / 2 ^ Zpos p)
                     (Z.odd (m / 2 ^ (Zpos p - 1)))
                     (negb (m mod 2 ^ (Zpos p - 1) =? 0)).
Proof.
  intros Hm. rewrite iter_pos_nat.
  destruct (Pos2Nat.is_succ p) as [n E]. rewrite E, shr_iter by exact Hm.
  assert (Z.of_nat (S n) = Zpos p) by lia.
  assert (Z.of_nat n = Zpos p - 1) by lia.
  congruence.
Qed.

Lemma rne_loc (m n : Z) :
  0 <= m -> 0 < n ->
  round_nearest_even (m / 2 ^ n)
    (loc_of_shr_record
       (Build_shr_record (m / 2 ^ n) (Z.odd (m / 2 ^ (n - 1)))
                         (negb (m mod 2 ^ (n - 1) =? 0))))
  = rne m n.
Proof.
  intros Hm Hn. unfold rne.
  pose proof (mod_pow_succ m (n - 1) ltac:(lia)) as E1.
  replace (n - 1 + 1) with n in E1 by lia.
  assert (E2 : 2 ^ n = 2 * 2 ^ (n - 1)).
  { replace n with (Z.succ (n - 1)) at 1 by lia. apply Z.pow_succ_r. lia. }
  assert (P : 0 < 2 ^ (n - 1)) by (apply Z.pow_pos_nonneg; lia).
  pose proof (Z.mod_pos_bound m (2 ^ (n - 1)) P) as B.
  rewrite Zmod_odd in E1.
  set (q := m / 2 ^ n).
  destruct (Z.odd (m / 2 ^ (n - 1)));
    destruct (Z.eqb_spec (m mod 2 ^ (n - 1)) 0) as [E|E];
    cbn [negb loc_of_shr_record round_nearest_even].
  - replace (2 * (m mod 2 ^ n) ?= 2 ^ n) with Eq; [reflexivity|].
    symmetry. apply Z.compare_eq_iff. lia.
  - replace (2 * (m mod 2 ^ n) ?= 2 ^ n) with Gt; [reflexivity|].
    symmetry. apply Z.compare_gt_iff. lia.
  - replace (2 * (m mod 2 ^ n) ?= 2 ^ n) with Lt; [reflexivity|].
    symmetry. apply Z.compare_lt_iff. lia.
  - replace (2 * (m mod 2 ^ n) ?= 2 ^ n) with Lt; [reflexivity|].
    symmetry. apply Z.compare_lt_iff. lia.
Qed.

Lemma rne_exact (N : Z) : rne N 0 = N.
Proof. unfold rne. change (2 ^ 0) with 1. now rewrite Z.mod_1_r, Z.div_1_r. Qed.

Lemma shr_nonpos (mrs : shr_record) (e n : Z) : n <= 0 -> shr mrs e n = (mrs, e).
Proof. intros H. destruct n; try reflexivity. lia. Qed.

Lemma shr_by_pos (m e n : Z) :
  0 <= m -> 0 < n ->
  shr (Build_shr_record m false false) e n
  = (Build_shr_record (m / 2 ^ n) (Z.odd (m / 2 ^ (n - 1)))
                      (negb (m mod 2 ^ (n - 1) =? 0)), e + n).
Proof.
  intros Hm Hn. destruct n as [|p|p]; try lia. cbn [shr].
  now rewrite shr_pos.
Qed.

Lemma rne_between (N n : Z) :
  0 <= n -> N / 2 ^ n <= rne N n <= N / 2 ^ n + 1.
Proof.
  intros Hn. unfold rne.
  destruct (2 * (N mod 2 ^ n) ?= 2 ^ n); [destruct (Z.even _)| |]; lia.
Qed.

(** Rounding a positive integer with exponent [e] to a double. *)
Lemma round_aux_value (m : positive) (e : Z) :
  -1000 <= e <= 900 -> e + Zpos (digits2_pos m) <= 1000 ->
  exists m' e',
    binary_round_aux 53 1024 false (Zpos m) e loc_Exact = S754_finite false m' e'
    /\ e <= e' <= Z.max e (e + Zpos (digits2_pos m) - 52)
    /\ Zpos (digits2_pos m') <= 53
    /\ Zpos m' * 2 ^ (e' - e) = round53 (Zpos m).
Proof.
  intros He Hd.
  pose proof (digits_bounds m) as Hb.
  unfold binary_round_aux, shr_fexp, fexp, emin. cbn [Zdigits2 shr_record_of_loc].
  set (d := Zpos (digits2_pos m)) in *.
  assert (Hd0 : 0 < d) by (unfold d; lia).
  replace (Z.max (d + e - 53) (3 - 1024 - 53) - e) with (d - 53) by lia.
  unfold round53. cbn [Zdigits2]. fold d.
  destruct (Z_le_gt_dec d 53) as [C|C].
  - rewrite shr_nonpos by lia.
    cbn [shr_m loc_of_shr_record round_nearest_even Zdigits2 shr_record_of_loc]. fold d.
    replace (Z.max (d + e - 53) (3 - 1024 - 53) - e) with (d - 53) by lia.
    rewrite shr_nonpos by lia. cbn [shr_m].
    replace (e <=? 1024 - 53) with true by (symmetry; apply Z.leb_le; lia).
    exists m, e. split; [reflexivity|]. split; [lia|]. split; [fold d; lia|].
    replace (Z.max 0 (d - 53)) with 0 by lia.
    rewrite rne_exact, Z.sub_diag. lia.
  - rewrite shr_by_pos by lia. cbn [shr_m].
    rewrite rne_loc by lia.
    replace (Z.max 0 (d - 53)) with (d - 53) by lia.
    set (n := d - 53) in *.
    assert (Pn : 0 < 2 ^ n) by (apply Z.pow_pos_nonneg; lia).
    assert (Q : 2 ^ 52 <= Zpos m / 2 ^ n < 2 ^ 53).
    { replace (d - 1) with (52 + n) in Hb by lia.
      replace d with (53 + n) in Hb by lia.
      rewrite !Z.pow_add_r in Hb by lia.
      split.
      - apply Z.div_le_lower_bound; lia.
      - apply Z.div_lt_upper_bound; lia. }
    pose proof (rne_between (Zpos m) n ltac:(lia)) as R.
    set (q := rne (Zpos m) n) in *.
    destruct (Z_lt_ge_dec q (2 ^ 53)) as [S|S].
    + assert (Dq : Zdigits2 q = 53) by (apply digits_unique; [change (53 - 1) with 52|]; lia).
      rewrite Dq.
      replace (Z.max (53 + (e + n) - 53) (3 - 1024 - 53) - (e + n)) with 0 by lia.
      rewrite shr_nonpos by lia.
      destruct q as [|q'|q'] eqn:Eq; try lia. cbn [shr_record_of_loc shr_m].
      replace (e + n <=? 1024 - 53) with true by (symmetry; apply Z.leb_le; lia).
      exists q', (e + n). split; [reflexivity|]. split; [lia|].
      split; [cbn [Zdigits2] in Dq; lia|].
      replace (e + n - e) with n by lia. lia.
    + assert (Eq : q = 2 ^ 53) by lia. rewrite Eq.
      change (Zdigits2 (2 ^ 53)) with 54.
      replace (Z.max (54 + (e + n) - 53) (3 - 1024 - 53) - (e + n)) with 1 by lia.
      cbn [shr_record_of_loc].
      rewrite shr_by_pos by lia.
      change (2 ^ 53 / 2 ^ 1) with (Zpos (2 ^ 52)%positive). cbn [shr_m].
      replace (e + n + 1 <=? 1024 - 53) with true by (symmetry; apply Z.leb_le; lia).
      exists (2 ^ 52)%positive, (e + n + 1). split; [reflexivity|]. split; [lia|].
      split; [vm_compute; discriminate|].
      replace (e + n + 1 - e) with (n + 1) by lia.
      rewrite Z.pow_add_r by lia. change (Zpos (2 ^ 52)) with (2 ^ 52).
      change (2 ^ 53) with (2 ^ 52 * 2 ^ 1). lia.
Qed.

(** *** Arithmetic of the rounding *)

Lemma rne_multiple (x n : Z) : 0 <= n -> rne (x * 2 ^ n) n = x.
Proof.
  intros Hn. unfold rne.
  assert (P : 0 < 2 ^ n) by (apply Z.pow_pos_nonneg; lia).
  rewrite Z.mod_mul, Z.div_mul by lia.
  rewrite Z.mul_0_r.
  destruct (Z.compare_spec 0 (2 ^ n)); [lia|reflexivity|lia].
Qed.

Lemma compare_scale (a b p : Z) : 0 < p -> (a * p ?= b * p) = (a ?= b).
Proof.
  intros Hp.
  destruct (Z.compare_spec a b);
    [apply Z.compare_eq_iff | apply Z.compare_lt_iff | apply Z.compare_gt_iff]; nia.
Qed.

Lemma rne_scale (N n j : Z) :
  0 <= n -> 0 <= j -> rne (N * 2 ^ j) (n + j) = rne N n.
Proof.
  intros Hn Hj. unfold rne.
  assert (Pn : 0 < 2 ^ n) by (apply Z.pow_pos_nonneg; lia).
  assert (Pj : 0 < 2 ^ j) by (apply Z.pow_pos_nonneg; lia).
  rewrite Z.pow_add_r by lia.
  rewrite Z.div_mul_cancel_r by lia.
  rewrite Z.mul_mod_distr_r by lia.
  rewrite Z.mul_assoc, compare_scale by lia.
  reflexivity.
Qed.

(** The rounded value is at most half a unit of [2^n] away, and rounding
    never crosses a multiple of [2^n]. *)
Lemma rne_spec (N n : Z) :
  0 <= n ->
  - 2 ^ n <= 2 * (2 ^ n * rne N n - N) <= 2 ^ n
  /\ (forall x, x * 2 ^ n <= N -> x <= rne N n)
  /\ (forall x, N <= x * 2 ^ n -> rne N n <= x).
Proof.
  intros Hn. unfold rne.
  assert (P : 0 < 2 ^ n) by (apply Z.pow_pos_nonneg; lia).
  pose proof (Z.div_mod N (2 ^ n) ltac:(lia)) as D.
  pose proof (Z.mod_pos_bound N (2 ^ n) P) as B.
  set (T := 2 ^ n) in *. set (q := N / T) in *. set (r := N mod T) in *.
  destruct (Z.compare_spec (2 * r) T) as [C|C|C];
    try destruct (Z.even q); (split; [nia|]); split; intros x Hx; nia.
Qed.

Lemma digits_mul_pow2 (N j : Z) :
  0 < N -> 0 <= j -> Zdigits2 (N * 2 ^ j) = Zdigits2 N + j.
Proof.
  intros HN Hj. destruct (digits_pos N HN) as [Hd [L U]].
  assert (Pj : 0 < 2 ^ j) by (apply Z.pow_pos_nonneg; lia).
  apply digits_unique; [|lia].
  replace (Zdigits2 N + j - 1) with (Zdigits2 N - 1 + j) by lia.
  rewrite !Z.pow_add_r by lia. nia.
Qed.

Lemma digits_le (N D : Z) : 0 < N -> N < 2 ^ D -> Zdigits2 N <= D.
Proof.
  intros HN HD. destruct (digits_pos N HN) as [Hd [L U]].
  destruct (Z_le_gt_dec (Zdigits2 N) D) as [C|C]; [exact C|].
  assert (2 ^ D <= 2 ^ (Zdigits2 N - 1)).
  { apply Z.pow_le_mono_r; [lia|].
    destruct (Z_le_gt_dec 0 D); [lia|].
    rewrite Z.pow_neg_r in HD by lia. lia. }
  lia.
Qed.

Lemma round53_exact (N : Z) : Zdigits2 N <= 53 -> round53 N = N.
Proof.
  intros H. unfold round53. replace (Z.max 0 (Zdigits2 N - 53)) with 0 by lia.
  rewrite rne_exact. lia.
Qed.

Lemma round53_scale (N j : Z) :
  0 < N -> 0 <= j -> round53 (N * 2 ^ j) = round53 N * 2 ^ j.
Proof.
  intros HN Hj. unfold round53. rewrite digits_mul_pow2 by lia.
  destruct (digits_pos N HN) as [Hd _].
  destruct (Z_le_gt_dec 53 (Zdigits2 N)) as [C|C].
  - replace (Z.max 0 (Zdigits2 N + j - 53)) with (Z.max 0 (Zdigits2 N - 53) + j) by lia.
    rewrite rne_scale by lia. rewrite Z.pow_add_r by lia. lia.
  - replace (Z.max 0 (Zdigits2 N - 53)) with 0 by lia. rewrite rne_exact.
    set (n' := Z.max 0 (Zdigits2 N + j - 53)).
    assert (Hn' : 0 <= n' <= j) by lia.
    assert (E : 2 ^ j = 2 ^ (j - n') * 2 ^ n').
    { rewrite <- Z.pow_add_r by lia. f_equal. lia. }
    replace (N * 2 ^ j) with ((N * 2 ^ (j - n')) * 2 ^ n') by (rewrite E; lia).
    rewrite rne_multiple by lia. change (2 ^ 0) with 1. rewrite E. lia.
Qed.

Lemma round53_nonneg (N : Z) : 0 <= N -> 0 <= round53 N.
Proof.
  intros H. unfold round53.
  set (n := Z.max 0 (Zdigits2 N - 53)).
  assert (P : 0 < 2 ^ n) by (apply Z.pow_pos_nonneg; lia).
  pose proof (rne_between N n ltac:(lia)).
  assert (0 <= N / 2 ^ n) by (apply Z.div_pos; lia).
  nia.
Qed.

(** Below [2^73] a double is a multiple of [2^20] at the coarsest. *)
Lemma round53_below_2_73 (N : Z) :
  0 <= N < 2 ^ 73 ->
  - 2 ^ 19 <= round53 N - N <= 2 ^ 19
  /\ (forall x, x * 2 ^ 20 <= N -> x * 2 ^ 20 <= round53 N)
  /\ (forall x, N <= x * 2 ^ 20 -> round53 N <= x * 2 ^ 20).
Proof.
  intros [HN HU]. unfold round53.
  assert (Hd : Zdigits2 N <= 73).
  { destruct (Z.eq_dec N 0) as [->|]; [cbn; lia | apply digits_le; lia]. }
  set (n := Z.max 0 (Zdigits2 N - 53)).
  assert (Hn : 0 <= n <= 20) by lia.
  destruct (rne_spec N n ltac:(lia)) as [E [G L]].
  assert (P : 0 < 2 ^ n) by (apply Z.pow_pos_nonneg; lia).
  assert (M : 2 ^ 20 = 2 ^ (20 - n) * 2 ^ n).
  { rewrite <- Z.pow_add_r by lia. f_equal. lia. }
  assert (P' : 0 < 2 ^ (20 - n)) by (apply Z.pow_pos_nonneg; lia).
  split; [|split].
  - assert (2 ^ n <= 2 ^ 20) by (apply Z.pow_le_mono_r; lia).
    change (2 ^ 19) with (2 ^ 20 / 2). change (2 ^ 20) with 1048576 in *.
    change (1048576 / 2) with 524288. lia.
  - intros x Hx. rewrite M in *.
    specialize (G (x * 2 ^ (20 - n))). nia.
  - intros x Hx. rewrite M in *.
    specialize (L (x * 2 ^ (20 - n))). nia.
Qed.

(** In the binade of [2^72] the doubles are the multiples of [2^20]. *)
Lemma round53_top (N x : Z) :
  2 ^ 72 <= N < 2 ^ 73 -> N < x * 2 ^ 20 - 2 ^ 19 ->
  round53 N <= (x - 1) * 2 ^ 20.
Proof.
  intros HN Hx. unfold round53.
  rewrite (digits_unique N 73) by (change (73 - 1) with 72; lia).
  change (Z.max 0 (73 - 53)) with 20.
  destruct (rne_spec N 20 ltac:(lia)) as [E _].
  change (2 ^ 20) with 1048576 in *. change (2 ^ 19) with 524288 in *. lia.
Qed.

(** *** The operations on doubles, as integers *)

Lemma iter_xO (m d : positive) : Zpos (Pos.iter xO m d) = Zpos m * 2 ^ Zpos d.
Proof.
  induction d as [|d IH] using Pos.peano_ind.
  - cbn [Pos.iter]. change (2 ^ 1) with 2. lia.
  - rewrite Pos.iter_succ, Pos2Z.inj_succ, Z.pow_succ_r by lia.
    change (Zpos (Pos.iter xO m d)~0) with (2 * Zpos (Pos.iter xO m d)).
    rewrite IH. lia.
Qed.

Lemma shl_align_le (mx : positive) (ex ez : Z) :
  ez <= ex ->
  exists mz, shl_align mx ex ez = (mz, ez) /\ Zpos mz = Zpos mx * 2 ^ (ex - ez).
Proof.
  intros H. unfold shl_align. destruct (ez - ex) as [|d|d] eqn:E; try lia.
  - assert (ez = ex) by lia. subst ez. exists mx. rewrite Z.sub_diag. split; [reflexivity|lia].
  - exists (Pos.iter xO mx d). split; [reflexivity|].
    rewrite iter_xO. f_equal. f_equal. lia.
Qed.

Lemma shl_align_ge (mx : positive) (ex ez : Z) :
  ex <= ez -> shl_align mx ex ez = (mx, ex).
Proof.
  intros H. unfold shl_align. destruct (ez - ex) as [|d|d] eqn:E; try reflexivity. lia.
Qed.

Lemma round_value (m : positive) (e : Z) :
  -900 <= e <= 900 -> e + Zpos (digits2_pos m) <= 1000 ->
  exists m' e',
    binary_round 53 1024 false m e = S754_finite false m' e'
    /\ e - 53 <= e' <= Z.max e (e + Zpos (digits2_pos m) - 52)
    /\ Zpos (digits2_pos m') <= 53
    /\ Zpos m' * 2 ^ (e' + bias) = round53 (Zpos m) * 2 ^ (e + bias).
Proof.
  intros He Hd. unfold binary_round, fexp, emin, bias.
  set (d := Zpos (digits2_pos m)) in *.
  assert (Hd0 : 0 < d) by (unfold d; lia).
  replace (Z.max (d + e - 53) (3 - 1024 - 53)) with (d + e - 53) by lia.
  destruct (Z_le_gt_dec d 53) as [C|C].
  - destruct (shl_align_le m e (d + e - 53) ltac:(lia)) as [mz [-> Hz]].
    replace (e - (d + e - 53)) with (53 - d) in Hz by lia.
    assert (Dz : Zpos (digits2_pos mz) = 53).
    { change (Zpos (digits2_pos mz)) with (Zdigits2 (Zpos mz)).
      rewrite Hz, digits_mul_pow2 by lia. cbn [Zdigits2]. fold d. lia. }
    destruct (round_aux_value mz (d + e - 53) ltac:(lia) ltac:(lia))
      as [m' [e' [-> [B1 [B2 V]]]]].
    exists m', e'. split; [reflexivity|]. split; [lia|]. split; [exact B2|].
    rewrite round53_exact in V by (cbn [Zdigits2]; lia).
    rewrite round53_exact by (cbn [Zdigits2]; fold d; lia).
    replace (e' + 1100) with ((e' - (d + e - 53)) + (d + e - 53 + 1100)) by lia.
    rewrite Z.pow_add_r, Z.mul_assoc, V, Hz by lia.
    rewrite <- Z.mul_assoc, <- Z.pow_add_r by lia. do 2 f_equal. lia.
  - rewrite shl_align_ge by lia.
    destruct (round_aux_value m e ltac:(lia) ltac:(fold d; lia))
      as [m' [e' [-> [B1 [B2 V]]]]]. fold d in B1.
    exists m', e'. split; [reflexivity|]. split; [lia|]. split; [exact B2|].
    rewrite <- V.
    rewrite <- Z.mul_assoc, <- Z.pow_add_r by lia. do 2 f_equal. lia.
Qed.

Lemma mul_value (mx my : positive) (ex ey : Z) :
  -400 <= ex <= 400 -> -400 <= ey <= 400 ->
  Zpos (digits2_pos mx) <= 53 -> Zpos (digits2_pos my) <= 53 ->
  exists m' e',
    SFmul 53 1024 (S754_finite false mx ex) (S754_finite false my ey)
    = S754_finite false m' e'
    /\ ex + ey <= e' <= ex + ey + 54
    /\ Zpos (digits2_pos m') <= 53
    /\ Zpos m' * 2 ^ (e' + bias) * 2 ^ bias
       = round53 ((Zpos mx * 2 ^ (ex + bias)) * (Zpos my * 2 ^ (ey + bias))).
Proof.
  intros Hx Hy Dx Dy. cbn [SFmul xorb]. unfold bias.
  pose proof (digits_bounds mx) as [_ Ux]. pose proof (digits_bounds my) as [_ Uy].
  assert (D : Zpos (digits2_pos (mx * my)) <= 106).
  { change (Zpos (digits2_pos (mx * my))) with (Zdigits2 (Zpos (mx * my))).
    apply digits_le; [lia|]. rewrite Pos2Z.inj_mul.
    assert (2 ^ Zpos (digits2_pos mx) <= 2 ^ 53) by (apply Z.pow_le_mono_r; lia).
    assert (2 ^ Zpos (digits2_pos my) <= 2 ^ 53) by (apply Z.pow_le_mono_r; lia).
    change (2 ^ 106) with (2 ^ 53 * 2 ^ 53). nia. }
  destruct (round_aux_value (mx * my) (ex + ey) ltac:(lia) ltac:(lia))
    as [m' [e' [-> [B1 [B2 V]]]]].
  exists m', e'. split; [reflexivity|]. split; [lia|]. split; [exact B2|].
  replace (Zpos mx * 2 ^ (ex + 1100) * (Zpos my * 2 ^ (ey + 1100)))
    with (Zpos (mx * my) * 2 ^ (ex + ey + 2200)).
  - rewrite round53_scale by lia. rewrite <- V.
    rewrite <- !Z.mul_assoc, <- !Z.pow_add_r by lia. do 2 f_equal. lia.
  - rewrite Pos2Z.inj_mul.
    replace (ex + ey + 2200) with ((ex + 1100) + (ey + 1100)) by lia.
    rewrite Z.pow_add_r by lia. lia.
Qed.

Lemma add_value (mx my : positive) (ex ey : Z) :
  -400 <= ex <= 400 -> -400 <= ey <= 400 ->
  Zpos (digits2_pos mx) <= 53 -> Zpos (digits2_pos my) <= 53 ->
  exists m' e',
    SFadd 53 1024 (S754_finite false mx ex) (S754_finite false my ey)
    = S754_finite false m' e'
    /\ Z.min ex ey - 53 <= e'
    /\ Zpos m' * 2 ^ (e' + bias)
       = round53 (Zpos mx * 2 ^ (ex + bias) + Zpos my * 2 ^ (ey + bias)).
Proof.
  intros Hx Hy Dx Dy. cbn [SFadd cond_Zopp]. unfold bias.
  set (ez := Z.min ex ey).
  destruct (shl_align_le mx ex ez ltac:(lia)) as [a [-> Ha]].
  destruct (shl_align_le my ey ez ltac:(lia)) as [b [-> Hb]].
  cbn [fst Z.add binary_normalize].
  pose proof (digits_bounds mx) as [_ Ux]. pose proof (digits_bounds my) as [_ Uy].
  assert (Ux' : Zpos mx < 2 ^ 53).
  { assert (2 ^ Zpos (digits2_pos mx) <= 2 ^ 53) by (apply Z.pow_le_mono_r; lia). lia. }
  assert (Uy' : Zpos my < 2 ^ 53).
  { assert (2 ^ Zpos (digits2_pos my) <= 2 ^ 53) by (apply Z.pow_le_mono_r; lia). lia. }
  assert (D : Zpos (digits2_pos (a + b)) <= 54 + Z.max ex ey - ez).
  { change (Zpos (digits2_pos (a + b))) with (Zdigits2 (Zpos (a + b))).
    apply digits_le; [lia|]. rewrite Pos2Z.inj_add, Ha, Hb.
    assert (2 ^ (ex - ez) <= 2 ^ (Z.max ex ey - ez)) by (apply Z.pow_le_mono_r; lia).
    assert (2 ^ (ey - ez) <= 2 ^ (Z.max ex ey - ez)) by (apply Z.pow_le_mono_r; lia).
    assert (0 < 2 ^ (Z.max ex ey - ez)) by (apply Z.pow_pos_nonneg; lia).
    replace (54 + Z.max ex ey - ez) with (54 + (Z.max ex ey - ez)) by lia.
    rewrite Z.pow_add_r by lia. change (2 ^ 54) with (2 * 2 ^ 53). nia. }
  destruct (round_value (a + b) ez ltac:(lia) ltac:(lia))
    as [m' [e' [-> [B1 [B2 V]]]]].
  exists m', e'. split; [reflexivity|]. split; [lia|].
  unfold bias in V. rewrite V.
  rewrite <- round53_scale by lia. f_equal.
  rewrite Pos2Z.inj_add, Ha, Hb, Z.mul_add_distr_r.
  rewrite <- !Z.mul_assoc, <- !Z.pow_add_r by lia.
  f_equal; do 2 f_equal; lia.
Qed.

Lemma floor_value (m : positive) (e : Z) :
  - bias <= e ->
  Z.shiftl (Zpos m) e = Zpos m * 2 ^ (e + bias) / 2 ^ bias.
Proof.
  unfold bias. intros He.
  destruct (Z_le_gt_dec 0 e) as [C|C].
  - rewrite Z.shiftl_mul_pow2 by lia.
    rewrite Z.pow_add_r, Z.mul_assoc by lia.
    rewrite Z.div_mul; [reflexivity|]. apply Z.pow_nonzero; lia.
  - rewrite Z.shiftl_div_pow2 by lia.
    replace 1100 with (- e + (e + 1100)) at 2 by lia.
    rewrite (Z.pow_add_r 2 (- e) (e + 1100)) by lia.
    rewrite Z.div_mul_cancel_r; [reflexivity| |]; apply Z.pow_nonzero; lia.
Qed.

(** *** The number behind the code *)

Lemma otpNumber_value (k : Z) :
  0 <= k < two53 ->
  otpNumber k
  = Some (round53 (100000 * two53 + round53 (900000 * k)) / two53).
Proof.
  unfold two53. intros Hk.
  destruct (Z.eq_dec k 0) as [->|Hk0]; [vm_compute; reflexivity|].
  destruct k as [|kp|kp]; try lia.
  unfold otpNumber, F64.mul, F64.add, F64.ofZ, F64.prec, F64.emax.
  change (binary_normalize 53 1024 900000 0 false)
    with (S754_finite false 7730941132800000 (-33)).
  change (binary_normalize 53 1024 100000 0 false)
    with (S754_finite false 6871947673600000 (-36)).
  cbn [binary_normalize].
  assert (Dk : Zpos (digits2_pos kp) <= 53).
  { change (Zpos (digits2_pos kp)) with (Zdigits2 (Zpos kp)). apply digits_le; lia. }
  destruct (round_value kp (-53) ltac:(lia) ltac:(lia))
    as [m1 [e1 [-> [B1 [D1 V1]]]]].
  rewrite round53_exact in V1 by (cbn [Zdigits2]; lia).
  destruct (mul_value m1 7730941132800000 e1 (-33) ltac:(lia) ltac:(lia) D1
              ltac:(vm_compute; discriminate))
    as [m2 [e2 [-> [B2 [D2 V2]]]]].
  destruct (add_value 6871947673600000 m2 (-36) e2 ltac:(lia) ltac:(lia)
              ltac:(vm_compute; discriminate) D2)
    as [m3 [e3 [-> [B3 V3]]]].
  unfold F64.floor. cbn [cond_Zopp]. f_equal.
  assert (P53 : 2 ^ (bias - 53) * 2 ^ 53 = 2 ^ bias) by (vm_compute; reflexivity).
  assert (Ppos : 0 < 2 ^ (bias - 53)) by (vm_compute; reflexivity).
  assert (Pb : 0 < 2 ^ bias) by (vm_compute; reflexivity).
  (* the product *)
  assert (W2 : Zpos m2 * 2 ^ (e2 + bias) = round53 (900000 * Zpos kp) * 2 ^ (bias - 53)).
  { rewrite V1 in V2.
    replace (Zpos kp * 2 ^ (-53 + bias) * (7730941132800000 * 2 ^ (-33 + bias)))
      with ((900000 * Zpos kp) * 2 ^ (bias - 53 + bias)) in V2.
    - rewrite round53_scale in V2 by (unfold bias; lia).
      rewrite (Z.pow_add_r 2 (bias - 53) bias) in V2 by (unfold bias; lia).
      rewrite Z.mul_assoc in V2. apply Z.mul_reg_r in V2; [exact V2|lia].
    - rewrite (Z.pow_add_r 2 (bias - 53) bias) by (unfold bias; lia).
      replace (-53 + bias) with (bias - 53) by lia.
      assert (F : 2 ^ bias = 2 ^ 33 * 2 ^ (-33 + bias)) by (vm_compute; reflexivity).
      rewrite F. change 7730941132800000 with (900000 * 2 ^ 33).
      set (A := 2 ^ (bias - 53)). set (C := 2 ^ (-33 + bias)). set (D := 2 ^ 33).
      ring. }
  (* the sum *)
  assert (W3 : Zpos m3 * 2 ^ (e3 + bias)
               = round53 (100000 * 2 ^ 53 + round53 (900000 * Zpos kp)) * 2 ^ (bias - 53)).
  { rewrite V3, W2.
    replace (6871947673600000 * 2 ^ (-36 + bias)) with (100000 * 2 ^ 53 * 2 ^ (bias - 53))
      by (vm_compute; reflexivity).
    rewrite <- Z.mul_add_distr_r.
    pose proof (round53_nonneg (900000 * Zpos kp) ltac:(lia)).
    apply round53_scale; [lia | unfold bias; lia]. }
  assert (E3 : - bias <= e3) by (unfold bias; lia).
  rewrite floor_value by exact E3. rewrite W3, <- P53.
  rewrite (Z.mul_comm (2 ^ (bias - 53))).
  rewrite Z.div_mul_cancel_r by lia. reflexivity.
Qed.

(** The two roundings of [100000 + k/2^53 * 900000], in units of [2^-53]:
    neither crosses an integer, and the product stays one unit in the last
    place below 900000. *)
Lemma otp_rounding (k : Z) :
  0 <= k < two53 ->
  let V := round53 (100000 * two53 + round53 (900000 * k)) in
  100000 * two53 <= V <= 1000000 * two53 - 2 ^ 20
  /\ (forall c, (c - 100000) * two53 <= 900000 * k -> c * two53 <= V)
  /\ (forall c, 900000 * k <= (c - 100000) * two53 - 2 ^ 20 ->
                V <= c * two53 - 2 ^ 20).
Proof.
  intros Hk V. subst V. unfold two53 in *.
  change (2 ^ 53) with (2 ^ 33 * 2 ^ 20) in *.
  destruct (round53_below_2_73 (900000 * k)) as [E1 [G1 L1]].
  { change (2 ^ 73) with (2 ^ 53 * 2 ^ 20). change (2 ^ 33 * 2 ^ 20) with (2 ^ 53) in Hk.
    change (2 ^ 53) with 9007199254740992 in *. change (2 ^ 20) with 1048576. lia. }
  set (P := round53 (900000 * k)) in *.
  assert (P0 : 0 <= P) by (apply round53_nonneg; lia).
  assert (P1 : P <= (900000 * 2 ^ 33 - 1) * 2 ^ 20).
  { destruct (Z_lt_ge_dec (900000 * k) (2 ^ 72)) as [C|C].
    - change (2 ^ 72) with 4722366482869645213696 in C.
      change (2 ^ 19) with 524288 in E1.
      change (2 ^ 33) with 8589934592 in *. change (2 ^ 20) with 1048576 in *. lia.
    - replace (900000 * 2 ^ 33 - 1) with (900000 * 2 ^ 33 - 1 + 1 - 1) by lia.
      apply round53_top.
      + change (2 ^ 73) with 9444732965739290427392.
        change (2 ^ 33) with 8589934592 in *. change (2 ^ 20) with 1048576 in *. lia.
      + change (2 ^ 19) with 524288.
        change (2 ^ 33) with 8589934592 in *. change (2 ^ 20) with 1048576 in *. lia. }
  destruct (round53_below_2_73 (100000 * (2 ^ 33 * 2 ^ 20) + P)) as [_ [G2 L2]].
  { change (2 ^ 73) with 9444732965739290427392.
    change (2 ^ 33) with 8589934592 in *. change (2 ^ 20) with 1048576 in *. lia. }
  set (V := round53 (100000 * (2 ^ 33 * 2 ^ 20) + P)) in *.
  split; [split|split].
  - specialize (G2 (100000 * 2 ^ 33)). lia.
  - specialize (L2 (1000000 * 2 ^ 33 - 1)).
    change (2 ^ 33) with 8589934592 in *. change (2 ^ 20) with 1048576 in *. lia.
  - intros c Hc. specialize (G1 ((c - 100000) * 2 ^ 33)).
    specialize (G2 (c * 2 ^ 33)).
    change (2 ^ 33) with 8589934592 in *. change (2 ^ 20) with 1048576 in *. lia.
  - intros c Hc. specialize (L1 ((c - 100000) * 2 ^ 33 - 1)).
    specialize (L2 (c * 2 ^ 33 - 1)).
    change (2 ^ 33) with 8589934592 in *. change (2 ^ 20) with 1048576 in *. lia.
Qed.

(** The code is a number of six digits; it is the exact floor or, for
    the last draws before the next code begins, one more. *)
Lemma otpNumber_spec (k : Z) :
  0 <= k < two53 ->
  exists n, otpNumber k = Some n
            /\ 100000 <= n <= 999999
            /\ exactOtp k <= n <= exactOtp (k + 2).
Proof.
  intros Hk. rewrite (otpNumber_value k Hk).
  destruct (otp_rounding k Hk) as [[R1 R2] [G L]].
  set (V := round53 (100000 * two53 + round53 (900000 * k))) in *.
  eexists. split; [reflexivity|].
  specialize (G (exactOtp k)). specialize (L (exactOtp (k + 2) + 1)).
  unfold exactOtp, two53 in *.
  change (2 ^ 53) with 9007199254740992 in *. change (2 ^ 20) with 1048576 in *.
  split; [divlia|]. split.
  - assert (exactOtp_le : (100000 + 900000 * k / 9007199254740992) * 9007199254740992 <= V)
      by (apply G; divlia).
    divlia.
  - assert (V <= (100000 + 900000 * (k + 2) / 9007199254740992 + 1) * 9007199254740992 - 1048576)
      by (apply L; divlia).
    divlia.
Qed.

(** Near-uniformity: the draws that give the code [c] are, up to two at
    either end, the [10007999171] or [10007999172] draws from
    [firstDraw c] up to [firstDraw (c + 1)]. *)
Lemma otpNumber_uniform (c : Z) :
  100000 <= c <= 999999 ->
  0 <= firstDraw c /\ firstDraw (c + 1) <= two53
  /\ 10007999171 <= firstDraw (c + 1) - firstDraw c <= 10007999172
  /\ (forall k, firstDraw c <= k < firstDraw (c + 1) - 2 -> otpNumber k = Some c)
  /\ (forall k, 0 <= k < two53 -> otpNumber k = Some c ->
                firstDraw c - 2 <= k < firstDraw (c + 1)).
Proof.
  intros Hc. unfold firstDraw, two53. change (2 ^ 53) with 9007199254740992.
  split; [divlia|]. split; [divlia|]. split; [divlia|]. split.
  - intros k Hk.
    assert (Hk' : 0 <= k < two53) by (unfold two53; change (2 ^ 53) with 9007199254740992; divlia).
    destruct (otpNumber_spec k Hk') as [n [-> [_ [Lo Hi]]]]. f_equal.
    unfold exactOtp, two53 in *. change (2 ^ 53) with 9007199254740992 in *. divlia.
  - intros k Hk E.
    destruct (otpNumber_spec k Hk) as [n [E' [_ [Lo Hi]]]].
    rewrite E in E'. injection E' as <-.
    unfold exactOtp, two53 in *. change (2 ^ 53) with 9007199254740992 in *. divlia.
Qed.

(** Every code is six decimal digits and does not start with a zero. *)
Lemma generateOtp_shape (k : Z) :
  0 <= k < two53 ->
  exists n,
    otpNumber k = Some n
    /\ generateOtp k = toString n
    /\ 100000 <= n <= 999999
    /\ exactOtp k <= n <= exactOtp (k + 2)
    /\ String.length (generateOtp k) = 6%nat
    /\ allDigits (generateOtp k) = true
    /\ (forall rest, generateOtp k <> String "0"%char rest).
Proof.
  intros Hk. destruct (otpNumber_spec k Hk) as [n [E [Hn Hx]]].
  exists n. unfold generateOtp. rewrite E.
  split; [reflexivity|]. split; [reflexivity|]. split; [exact Hn|].
  split; [exact Hx|].
  rewrite (toString_six n Hn). split; [reflexivity|]. split.
  - unfold allDigits. cbn [list_ascii_of_string forallb].
    rewrite !digitChar_isDigit by divlia. reflexivity.
  - intros rest H. injection H as H _.
    revert H. apply digitChar_nonzero. divlia.
Qed.

(** Every number between 100000 and 999999 is the code of some draw. *)
Lemma generateOtp_onto (n : Z) :
  100000 <= n <= 999999 ->
  exists k, 0 <= k < two53 /\ generateOtp k = toString n.
Proof.
  intros Hn.
  destruct (otpNumber_uniform n Hn) as [L [U [D [In_ _]]]].
  exists (firstDraw n). split; [lia|].
  unfold generateOtp. rewrite In_ by lia. reflexivity.
Qed.

(** The row [sendOtp] asks the service to store. *)
Lemma sendOtp_accepted (w : World) (u : User) (phone email : string)
      (type : Channel) :
  user (ui w) = Some u ->
  accepted (outcome (nextReply w)) = true ->
  exists w',
    sendOtp phone email type w = (Resolved true, w')
    /\ otp_verifications (db (svc w'))
       = (otp_verifications (db (svc w))
          ++ [mkOtp (next_id (db (svc w))) (u_id u)
                (match type with Phone => Some phone | Email => None end)
                (match type with Email => Some email | Phone => None end)
                (generateOtp (draw (entropy (env w)))) type
                (clock (env w) + 10 * 60 * 1000) false None
                (clock (env w) + Z.of_N (elapsed (nextReply w)))])%list
    /\ profiles (db (svc w')) = profiles (db (svc w))
    /\ notifications (db (svc w')) = notifications (db (svc w))
    /\ requests (out w') = (requests (out w) ++ [InsertOtp (u_id u) type])%list
    /\ console (out w')
       = (console (out w)
          ++ [LogSending phone email type; LogSendResult None;
              LogOtp type (generateOtp (draw (entropy (env w))))])%list
    /\ timers (out w') = timers (out w)
    /\ ui w' = ui w.
Proof.
  intros Hu Ha. open_world w. run_in Hu. run_in Ha. subst usr.
  unfold sendOtp. run.
  destruct rps as [|[el oc] rps']; [|destruct oc; try discriminate Ha];
    run; eexists; (split; [reflexivity|]); run; rewrite <- ?app_assoc;
    repeat split; reflexivity.
Qed.

(** C3 (as amended). With a user signed in and the insert carried out,
    [sendOtp] resolves to [true]; the code it issued is
    [Math.floor(100000 + Math.random() * 900000)] in decimal: six digits,
    a number between 100000 and 999999, so it never starts with a zero.
    The code is uniform over that range up to rounding: it is the exact
    floor or, for the last draws before the next code begins, one more,
    so that of the [2^53] values of [Math.random()] each code gets all but
    at most two of the 10007999171 or 10007999172 draws from its
    [firstDraw] to the next, and at most two just before; in particular
    every such code is the code of some draw. The one row added to
    [otp_verifications] carries that code, the user, the requested channel
    with its contact value (and no other), an expiry exactly 600000 ms
    after the issuance time, and is unverified; the insert is the only
    request sent, and apart from it the code only reaches the console,
    in the last of the three lines the call logs. *)
Theorem sendOtp_issues_six_digit_code (w : World) (u : User)
        (phone email : string) (type : Channel) :
  user (ui w) = Some u ->
  accepted (outcome (nextReply w)) = true ->
  let k := draw (entropy (env w)) in
  let otp := generateOtp k in
  (exists n, 100000 <= n <= 999999 /\ otp = toString n
             /\ otpNumber k = Some n
             /\ exactOtp k <= n <= exactOtp (k + 2))
  /\ String.length otp = 6%nat
  /\ allDigits otp = true
  /\ (forall rest, otp <> String "0"%char rest)
  /\ (forall c, 100000 <= c <= 999999 ->
        0 <= firstDraw c /\ firstDraw (c + 1) <= two53
        /\ 10007999171 <= firstDraw (c + 1) - firstDraw c <= 10007999172
        /\ (forall j, firstDraw c <= j < firstDraw (c + 1) - 2 ->
                      otpNumber j = Some c)
        /\ (forall j, 0 <= j < two53 -> otpNumber j = Some c ->
                      firstDraw c - 2 <= j < firstDraw (c + 1)))
  /\ (forall n, 100000 <= n <= 999999 ->
        exists j, 0 <= j < two53 /\ generateOtp j = toString n)
  /\ exists w',
       sendOtp phone email type w = (Resolved true, w')
       /\ otp_verifications (db (svc w'))
          = (otp_verifications (db (svc w))
             ++ [mkOtp (next_id (db (svc w))) (u_id u)
                   (match type with Phone => Some phone | Email => None end)
                   (match type with Email => Some email | Phone => None end)
                   otp type
                   (clock (env w) + 10 * 60 * 1000) false None
                   (clock (env w) + Z.of_N (elapsed (nextReply w)))])%list
       /\ profiles (db (svc w')) = profiles (db (svc w))
       /\ notifications (db (svc w')) = notifications (db (svc w))
       /\ requests (out w') = (requests (out w) ++ [InsertOtp (u_id u) type])%list
       /\ console (out w')
          = (console (out w)
             ++ [LogSending phone email type; LogSendResult None;
                 LogOtp type otp])%list
       /\ timers (out w') = timers (out w)
       /\ ui w' = ui w.
Proof.
  intros Hu Ha k otp. subst k otp.
  pose proof (draw_range (entropy (env w))) as Hk.
  destruct (generateOtp_shape _ Hk) as [n [En [Es [Hn [Hx [Hlen [Hdig Hnz]]]]]]].
  split.
  { exists n. repeat split; try assumption; lia. }
  split; [exact Hlen|]. split; [exact Hdig|]. split; [exact Hnz|].
  split; [exact otpNumber_uniform|].
  split; [exact generateOtp_onto|].
  now apply sendOtp_accepted.
Qed.

Lemma sendOtp_issues_six_digit_code_witness :
  let w := sampleWorld (Some alice) emptyStore [] [123456789] in
  String.length (generateOtp (draw (entropy (env w)))) = 6%nat
  /\ exists w',
       sendOtp "+911234567890" "alice@example.com" Phone w = (Resolved true, w')
       /\ map expires_at (otp_verifications (db (svc w'))) = [601000]
       /\ map o_phone (otp_verifications (db (svc w'))) = [Some "+911234567890"]
       /\ map o_email (otp_verifications (db (svc w'))) = [None].
Proof.
  intros w.
  destruct (sendOtp_issues_six_digit_code w alice "+911234567890"
              "alice@example.com" Phone eq_refl eq_refl)
    as [_ [Hlen [_ [_ [_ [_ [w' [Hrun [Hrows _]]]]]]]]].
  split; [exact Hlen|].
  exists w'. split; [exact Hrun|].
  rewrite Hrows. repeat split; reflexivity.
Defined.

(** C3, as stated, at the code "000000": no draw makes [sendOtp] issue a
    six-digit string that starts with a zero. *)
Lemma sendOtp_leading_zero_never_issued :
  ~ exists es : list Z, generateOtp (draw es) = "000000".
Proof.
  intros [es E].
  destruct (generateOtp_shape _ (draw_range es)) as [n [_ [_ [_ [_ [_ [_ Hnz]]]]]]].
  exact (Hnz _ E).
Qed.

(** A draw for which the rounded sum reaches the next integer while the
    exact sum stays below it. *)
Example otpNumber_rounds_up :
  otpNumber 300239975158 = Some 100030 /\ exactOtp 300239975158 = 100029.
Proof. split; vm_compute; reflexivity. Qed.

Example generateOtp_extremes :
  generateOtp 0 = "100000" /\ generateOtp (two53 - 1) = "999999"
  /\ generateOtp (draw [4503599627370496]) = "550000".
Proof. repeat split; vm_compute; reflexivity. Qed.

(** ** The signed-in guard of the profile and one-time-code operations *)

Lemma guard_updateProfile (w : World) (updates : ProfilePatch) :
  user (ui w) = None ->
  updateProfile updates w = (Threw (ErrVal (newError MSG_NO_USER)), w).
Proof. intros H. unfold updateProfile, bind, get. rewrite H. reflexivity. Qed.

Lemma guard_sendOtp (w : World) (phone email : string) (type : Channel) :
  user (ui w) = None ->
  sendOtp phone email type w = (Threw (ErrVal (newError MSG_NO_USER)), w).
Proof. intros H. unfold sendOtp, bind, get. rewrite H. reflexivity. Qed.

Lemma guard_verifyOtp (w : World) (otp : string) (type : Channel) :
  user (ui w) = None ->
  verifyOtp otp type w = (Threw (ErrVal (newError MSG_NO_USER)), w).
Proof. intros H. unfold verifyOtp, bind, get. rewrite H. reflexivity. Qed.

(** Case analysis on whatever the next [match] of the goal is stuck on. *)
Ltac step :=
  match goal with
  | |- context [match ?x with _ => _ end] =>
      lazymatch x with
      | context [match _ with _ => _ end] => fail
      | _ => destruct x eqn:?
      end
  end; run.

Lemma sendOtp_settles (w : World) (u : User) (phone email : string)
      (type : Channel) :
  user (ui w) = Some u ->
  exists b, fst (sendOtp phone email type w) = Resolved b
            /\ b = accepted (outcome (nextReply w)).
Proof.
  intros Hu. open_world w. run_in Hu. subst usr.
  unfold sendOtp. run.
  destruct rps as [|[el oc] rps']; [|destruct oc]; run; eexists; split; reflexivity.
Qed.

Lemma verifyOtp_settles (w : World) (u : User) (otp : string) (type : Channel) :
  user (ui w) = Some u ->
  exists b, fst (verifyOtp otp type w) = Resolved b
            /\ (b = true ->
                accepted (outcome (nextReply w)) = true
                /\ accepted (outcome (nth 1 (replies (env w)) (mkReply 0 Served)))
                   = true).
Proof.
  intros Hu. open_world w. run_in Hu. subst usr.
  unfold verifyOtp. run.
  destruct rps as [|[el oc] rps']; [|destruct oc]; run;
    try (eexists; split; [reflexivity|]; intros; (discriminate || (split; reflexivity)));
    unfold Supabase.single;
    repeat step;
    try (eexists; split; [reflexivity|]; intros; (discriminate || (split; reflexivity))).
Qed.

(** C9. With no user signed in, [updateProfile], [sendOtp] and [verifyOtp]
    reject with the error "No user logged in" and leave the world as it
    was: no request has been sent. With a user signed in, [sendOtp] and
    [verifyOtp] always resolve to a boolean, whatever the service replies
    (failure or rejection included): [sendOtp] resolves to [true] exactly
    when the insert is carried out, and [verifyOtp] resolves to [true] only
    if both its lookup and its update are carried out. *)
Theorem signed_in_guard (w : World) :
  (user (ui w) = None ->
     (forall updates,
        updateProfile updates w = (Threw (ErrVal (newError MSG_NO_USER)), w))
     /\ (forall phone email type,
        sendOtp phone email type w = (Threw (ErrVal (newError MSG_NO_USER)), w))
     /\ (forall otp type,
        verifyOtp otp type w = (Threw (ErrVal (newError MSG_NO_USER)), w)))
  /\ (forall u, user (ui w) = Some u ->
     (forall phone email type,
        exists b, fst (sendOtp phone email type w) = Resolved b
                  /\ b = accepted (outcome (nextReply w)))
     /\ (forall otp type,
        exists b, fst (verifyOtp otp type w) = Resolved b
                  /\ (b = true ->
                      accepted (outcome (nextReply w)) = true
                      /\ accepted (outcome (nth 1 (replies (env w))
                                                (mkReply 0 Served))) = true))).
Proof.
  split.
  - intros H. split; [|split]; intros.
    + now apply guard_updateProfile.
    + now apply guard_sendOtp.
    + now apply guard_verifyOtp.
  - intros u Hu. split; intros.
    + now apply sendOtp_settles with (u := u).
    + now apply verifyOtp_settles with (u := u).
Qed.

Lemma signed_in_guard_witness :
  verifyOtp "123456" Email (sampleWorld None emptyStore [] [])
  = (Threw (ErrVal (newError "No user logged in")),
     sampleWorld None emptyStore [] [])
  /\ exists b,
       fst (sendOtp "" "alice@example.com" Email
              (sampleWorld (Some alice) emptyStore
                 [mkReply 5 (Rejected OtherVal)] []))
       = Resolved b
       /\ b = false.
Proof.
  split.
  - destruct (signed_in_guard (sampleWorld None emptyStore [] [])) as [H _].
    destruct (H eq_refl) as [_ [_ Hv]]. apply Hv.
  - destruct (signed_in_guard
                (sampleWorld (Some alice) emptyStore
                   [mkReply 5 (Rejected OtherVal)] [])) as [_ H].
    destruct (H alice eq_refl) as [Hs _].
    exact (Hs "" "alice@example.com" Email).
Defined.

(** ** Auth-change events *)

(** C10. When the auth-change callback processes an event (the effect is
    still mounted, so the event is not ignored) whose session carries no
    user, it resolves, and afterwards the user, the profile and the error
    are null and loading is false, whatever they were before and whatever
    the event was; no request is sent and the loading guard is cleared. *)
Theorem signed_out_event_clears_state (w : World) (event : AuthEvent)
        (s : option Session) :
  sessionUser s = None ->
  exists w',
    onAuthStateChange true event s w = (Resolved tt, w')
    /\ profile (ui w') = None
    /\ loading (ui w') = false
    /\ error (ui w') = None
    /\ user (ui w') = None
    /\ session (ui w') = s
    /\ svc w' = svc w
    /\ requests (out w') = requests (out w)
    /\ (forall t, In t (timers (out w')) ->
        forall l u, task t <> LoadingTimeout l u).
Proof.
  intros Hs. open_world w. unfold onAuthStateChange, onAuthStateChangeWith.
  destruct s as [[tok [su|]]|]; cbn in Hs; try discriminate Hs; run;
    (eexists; split; [reflexivity|]); run; repeat split;
    intros t Ht l u E; apply filter_In in Ht as [_ Ht];
    unfold isLoadingTimeout in Ht; rewrite E in Ht; discriminate.
Qed.

Lemma signed_out_event_clears_state_witness :
  exists w',
    onAuthStateChange true SIGNED_OUT None
      (mkWorld (mkAuth (Some alice) None None true (Some "Failed to fetch profile"))
               (mkService emptyStore None None "user-2")
               (mkEnv 0 [] [] [] true)
               (mkEffects [] [mkTimer 10000 (LoadingTimeout true None)] []))
    = (Resolved tt, w')
    /\ profile (ui w') = None /\ loading (ui w') = false /\ error (ui w') = None.
Proof.
  destruct (signed_out_event_clears_state
              (mkWorld (mkAuth (Some alice) None None true
                               (Some "Failed to fetch profile"))
                       (mkService emptyStore None None "user-2")
                       (mkEnv 0 [] [] [] true)
                       (mkEffects [] [mkTimer 10000 (LoadingTimeout true None)] []))
              SIGNED_OUT None eq_refl)
    as [w' [Hr [Hp [Hl [He _]]]]].
  exists w'. repeat split; assumption.
Defined.

(** An event that arrives after the effect was torn down is ignored. *)
Lemma unmounted_event_ignored (w : World) (event : AuthEvent) (s : option Session) :
  ui (snd (onAuthStateChange false event s w)) = ui w.
Proof. open_world w. reflexivity. Qed.

(** ** One-time codes: verification *)

Section Lookup.
Import Supabase.

Lemma insertDesc_head (x : OtpVerification) (l : list OtpVerification) :
  hd_error (insertDesc x l)
  = match l with
    | [] => Some x
    | y :: _ => if o_created_at y <? o_created_at x then Some x else Some y
    end.
Proof.
  destruct l as [|y tl]; cbn [insertDesc]; [reflexivity|].
  destruct (o_created_at y <? o_created_at x); reflexivity.
Qed.

Lemma insertDesc_In (x y : OtpVerification) (l : list OtpVerification) :
  In y (insertDesc x l) <-> y = x \/ In y l.
Proof.
  induction l as [|z tl IH]; cbn [insertDesc].
  - cbn. intuition congruence.
  - destruct (o_created_at z <? o_created_at x); cbn [In] in *.
    + intuition congruence.
    + rewrite IH. intuition congruence.
Qed.

Lemma orderDesc_In (y : OtpVerification) (l : list OtpVerification) :
  In y (orderDesc l) <-> In y l.
Proof.
  induction l as [|x tl IH]; cbn [orderDesc fold_right]; [reflexivity|].
  fold (orderDesc tl). rewrite insertDesc_In, IH. cbn. intuition congruence.
Qed.

(** The first row of the ordering is a row of the input that no row of the
    input is younger than. *)
Lemma orderDesc_head (l : list OtpVerification) (r : OtpVerification) :
  hd_error (orderDesc l) = Some r ->
  In r l /\ forall x, In x l -> o_created_at x <= o_created_at r.
Proof.
  revert r. induction l as [|a tl IH]; intros r; cbn [orderDesc fold_right].
  - discriminate.
  - fold (orderDesc tl). rewrite insertDesc_head.
    destruct (orderDesc tl) as [|y rest] eqn:E.
    + intros [= <-]. split; [now left|].
      assert (tl = []) as ->.
      { destruct tl as [|b tl']; [reflexivity|].
        assert (In b (orderDesc (b :: tl'))) by (apply orderDesc_In; now left).
        rewrite E in H. contradiction. }
      intros x [<-|[]]. lia.
    + destruct (IH y eq_refl) as [Hy Hmax].
      destruct (o_created_at y <? o_created_at a) eqn:C; intros [= <-].
      * apply Z.ltb_lt in C. split; [now left|].
        intros x [<-|Hx]; [lia|]. specialize (Hmax x Hx). lia.
      * apply Z.ltb_ge in C. split; [now right|].
        intros x [<-|Hx]; [lia|]. now apply Hmax.
Qed.

Lemma orderDesc_nil (l : list OtpVerification) :
  orderDesc l = [] -> l = [].
Proof.
  destruct l as [|b tl]; [reflexivity|]. intros E.
  assert (In b (orderDesc (b :: tl))) by (apply orderDesc_In; now left).
  rewrite E in H. contradiction.
Qed.

(** What the verification query returns: nothing exactly when no row passes
    the filters, otherwise one row that passes them and is the most recently
    created of those that do. *)
Lemma lookupOtp_spec (userId : string) (type : Channel) (t : Z)
      (table : list OtpVerification) :
  (lookupOtp userId type t table = []
   /\ filter (eligible userId type t) table = [])
  \/ exists r,
       lookupOtp userId type t table = [r]
       /\ In r table
       /\ eligible userId type t r = true
       /\ forall x, In x table -> eligible userId type t x = true ->
                    o_created_at x <= o_created_at r.
Proof.
  unfold lookupOtp.
  destruct (orderDesc (filter (eligible userId type t) table)) as [|r rest] eqn:E.
  - left. split; [reflexivity|]. now apply orderDesc_nil.
  - right. exists r. split; [reflexivity|].
    destruct (orderDesc_head (filter (eligible userId type t) table) r) as [Hin Hmax].
    { rewrite E. reflexivity. }
    apply filter_In in Hin as [Hin Hel]. split; [exact Hin|]. split; [exact Hel|].
    intros x Hx Hxe. apply Hmax. apply filter_In. now split.
Qed.

Lemma single_lookupOtp (userId : string) (type : Channel) (t : Z)
      (table : list OtpVerification) :
  single (lookupOtp userId type t table)
  = match lookupOtp userId type t table with
    | [] => (None, Some PGRST116)
    | r :: _ => (Some r, None)
    end.
Proof.
  unfold lookupOtp.
  destruct (orderDesc (filter (eligible userId type t) table)) as [|r [|r' rest]];
    reflexivity.
Qed.

End Lookup.

Lemma markVerified_hit (r : OtpVerification) (t : Z) :
  is_verified (Supabase.markVerified (o_id r) t r) = true
  /\ verified_at (Supabase.markVerified (o_id r) t r) = Some t
  /\ otp_code (Supabase.markVerified (o_id r) t r) = otp_code r
  /\ o_id (Supabase.markVerified (o_id r) t r) = o_id r.
Proof. unfold Supabase.markVerified. rewrite Nat.eqb_refl. repeat split. Qed.

Lemma markVerified_cases (rowId : nat) (t : Z) (x : OtpVerification) :
  (o_id x = rowId /\ is_verified (Supabase.markVerified rowId t x) = true)
  \/ (o_id x <> rowId /\ Supabase.markVerified rowId t x = x).
Proof.
  unfold Supabase.markVerified. destruct (Nat.eqb_spec (o_id x) rowId).
  - left. split; [assumption | reflexivity].
  - right. split; [assumption | reflexivity].
Qed.

Lemma eligible_verified (userId : string) (type : Channel) (t : Z)
      (x : OtpVerification) :
  is_verified x = true -> Supabase.eligible userId type t x = false.
Proof. intros H. unfold Supabase.eligible. rewrite H. apply andb_false_r. Qed.

Lemma eligible_earlier (userId : string) (type : Channel) (t t2 : Z)
      (x : OtpVerification) :
  t <= t2 ->
  Supabase.eligible userId type t2 x = true ->
  Supabase.eligible userId type t x = true.
Proof.
  unfold Supabase.eligible. intros Ht H.
  apply andb_prop in H as [H Hv]. apply andb_prop in H as [H He].
  rewrite H, Hv. apply Z.ltb_lt in He.
  assert (E : (t <? expires_at x) = true) by (apply Z.ltb_lt; lia).
  rewrite E. reflexivity.
Qed.

(** A successful verification, read backwards. *)
Lemma verifyOtp_true_inv (w w' : World) (u : User) (otp : string)
      (type : Channel) :
  user (ui w) = Some u ->
  verifyOtp otp type w = (Resolved true, w') ->
  exists r,
    Supabase.lookupOtp (u_id u) type (clock (env w))
                       (otp_verifications (db (svc w))) = [r]
    /\ otp_code r = otp
    /\ otp_verifications (db (svc w'))
       = map (Supabase.markVerified (o_id r)
                (clock (env w) + Z.of_N (elapsed (nextReply w))))
             (otp_verifications (db (svc w)))
    /\ profiles (db (svc w')) = profiles (db (svc w))
    /\ notifications (db (svc w')) = notifications (db (svc w))
    /\ ui w' = ui w.
Proof.
  intros Hu. open_world w. run_in Hu. subst usr.
  unfold verifyOtp. run.
  destruct rps as [|[el oc] rps']; [|destruct oc]; run;
    try discriminate;
    rewrite single_lookupOtp;
    (destruct (Supabase.lookupOtp (u_id u) type clk ots) as [|r rest] eqn:L;
     run; [discriminate|]);
    (destruct (String.eqb_spec (otp_code r) otp) as [E|E]; run; [|discriminate]).
  - intros [= <-]. exists r. run.
    pose proof (lookupOtp_spec (u_id u) type clk ots) as [[L0 _]|[r0 [L1 _]]].
    + rewrite L0 in L. discriminate.
    + rewrite L1 in L. injection L as -> <-.
      change (Z.of_N 0) with 0. rewrite !Z.add_0_r.
      repeat split; assumption.
  - destruct rps' as [|[el2 oc2] rps2]; [|destruct oc2]; run; try discriminate;
      intros [= <-]; exists r; run;
      (pose proof (lookupOtp_spec (u_id u) type clk ots) as [[L0 _]|[r0 [L1 _]]];
       [rewrite L0 in L; discriminate
       |rewrite L1 in L; injection L as -> <-;
        repeat split; assumption]).
Qed.

(** Without a matching code on the row the query returns, the
    verification resolves to [false]. *)
Lemma verifyOtp_false (w : World) (u : User) (otp : string) (type : Channel) :
  user (ui w) = Some u ->
  (forall r, Supabase.lookupOtp (u_id u) type (clock (env w))
                                (otp_verifications (db (svc w))) = [r] ->
             otp_code r <> otp) ->
  exists w', verifyOtp otp type w = (Resolved false, w').
Proof.
  intros Hu Hno. open_world w. run_in Hu. run_in Hno. subst usr.
  unfold verifyOtp. run.
  destruct rps as [|[el oc] rps']; [|destruct oc]; run;
    try (eexists; reflexivity);
    rewrite single_lookupOtp;
    pose proof (lookupOtp_spec (u_id u) type clk ots) as [[L0 _]|[r0 [L1 _]]];
    try (rewrite L0; run; eexists; reflexivity);
    rewrite L1; run;
    (destruct (String.eqb_spec (otp_code r0) otp) as [E|E];
     [exfalso; exact (Hno r0 L1 E) | run; eexists; reflexivity]).
Qed.

(** No eligible row: the query error (or the missing row) is turned into
    the error "No valid OTP found", which is caught and logged. *)
Lemma verifyOtp_none_eligible (w : World) (u : User) (otp : string)
      (type : Channel) :
  user (ui w) = Some u ->
  filter (Supabase.eligible (u_id u) type (clock (env w)))
         (otp_verifications (db (svc w))) = [] ->
  (forall v, outcome (nextReply w) <> Rejected v) ->
  exists w' detail,
    verifyOtp otp type w = (Resolved false, w')
    /\ db (svc w') = db (svc w)
    /\ console (out w')
       = (console (out w)
          ++ [LogVerifying otp type;
              LogOtpResult None detail;
              LogError "OTP verification error details:" (option_map ErrVal detail);
              LogError "Error verifying OTP:"
                       (Some (ErrVal (newError MSG_NO_OTP)))])%list
    /\ requests (out w') = (requests (out w) ++ [SelectOtp (u_id u) type])%list.
Proof.
  intros Hu Hnone Hrej. open_world w. run_in Hu. run_in Hnone. run_in Hrej.
  subst usr.
  assert (L : Supabase.lookupOtp (u_id u) type clk ots = [])
    by (unfold Supabase.lookupOtp; rewrite Hnone; reflexivity).
  unfold verifyOtp. run.
  destruct rps as [|[el oc] rps']; [|destruct oc]; run;
    try rewrite L; unfold Supabase.single; run;
    try (do 2 eexists; split; [reflexivity|]; run;
         rewrite <- !app_assoc; repeat split; reflexivity).
  exfalso. exact (Hrej v eq_refl).
Qed.

(** The row the query returns carries the supplied code and the update is
    carried out: the row is marked and the verification succeeds. *)
Lemma verifyOtp_match_succeeds (w : World) (u : User) (otp : string)
      (type : Channel) (r : OtpVerification) :
  user (ui w) = Some u ->
  outcome (nextReply w) = Served ->
  Supabase.lookupOtp (u_id u) type (clock (env w))
                     (otp_verifications (db (svc w))) = [r] ->
  otp_code r = otp ->
  accepted (outcome (nth 1 (replies (env w)) (mkReply 0 Served))) = true ->
  exists w',
    verifyOtp otp type w = (Resolved true, w')
    /\ otp_verifications (db (svc w'))
       = map (Supabase.markVerified (o_id r)
                (clock (env w) + Z.of_N (elapsed (nextReply w))))
             (otp_verifications (db (svc w))).
Proof.
  intros Hu Hs L E Ha. open_world w. run_in Hu. run_in Hs. run_in L. subst usr.
  apply String.eqb_eq in E.
  unfold verifyOtp. run.
  destruct rps as [|[el oc] rps']; run.
  - rewrite L. unfold Supabase.single. run. rewrite E. run.
    eexists; split; reflexivity.
  - run_in Hs. subst oc. run. rewrite L. unfold Supabase.single. run.
    rewrite E. run.
    cbn [nth replies env] in Ha.
    destruct rps' as [|[el2 oc2] rps2]; [|destruct oc2; try discriminate Ha];
      run; eexists; split; reflexivity.
Qed.

(** After a successful verification the same code is refused, unless
    another row that was eligible carries it too. *)
Lemma verifyOtp_again_fails (w w' w2 : World) (u : User) (otp : string)
      (type : Channel) :
  user (ui w) = Some u ->
  verifyOtp otp type w = (Resolved true, w') ->
  user (ui w2) = Some u ->
  otp_verifications (db (svc w2)) = otp_verifications (db (svc w')) ->
  clock (env w) <= clock (env w2) ->
  (forall x y, In x (otp_verifications (db (svc w))) ->
               In y (otp_verifications (db (svc w))) ->
               Supabase.eligible (u_id u) type (clock (env w)) x = true ->
               Supabase.eligible (u_id u) type (clock (env w)) y = true ->
               otp_code x = otp -> otp_code y = otp -> o_id x = o_id y) ->
  exists w3, verifyOtp otp type w2 = (Resolved false, w3).
Proof.
  intros Hu Hrun Hu2 Htab Hclk Huniq.
  destruct (verifyOtp_true_inv w w' u otp type Hu Hrun)
    as [r [L [Hcode [Hmark _]]]].
  pose proof (lookupOtp_spec (u_id u) type (clock (env w))
                (otp_verifications (db (svc w)))) as [[L0 _]|[r0 [L1 [Hin [Hel _]]]]].
  { rewrite L0 in L. discriminate. }
  rewrite L1 in L. injection L as ->.
  apply verifyOtp_false with (u := u); [exact Hu2|].
  intros y Ly Hy.
  pose proof (lookupOtp_spec (u_id u) type (clock (env w2))
                (otp_verifications (db (svc w2)))) as [[L0 _]|[y0 [L2 [Hin2 [Hel2 _]]]]].
  { rewrite L0 in Ly. discriminate. }
  rewrite L2 in Ly. injection Ly as ->.
  rewrite Htab, Hmark in Hin2. apply in_map_iff in Hin2 as [x [Hx Hinx]].
  destruct (markVerified_cases (o_id r)
              (clock (env w) + Z.of_N (elapsed (nextReply w))) x)
    as [[_ Hv]|[Hid Hsame]].
  - rewrite Hx in Hv.
    rewrite (eligible_verified _ _ _ _ Hv) in Hel2. discriminate.
  - rewrite Hsame in Hx. subst x.
    apply Hid. symmetry.
    apply (Huniq r y Hin Hinx Hel
                 (eligible_earlier _ _ _ _ _ Hclk Hel2) Hcode Hy).
Qed.

(** C1 (as amended). For a signed-in user:
    - when no row of [otp_verifications] for that user and channel is
      unexpired and unverified, [verifyOtp] resolves to [false] with the
      error "No valid OTP found" caught and logged (after the supplied code
      and the empty query result), and the store is left as it was;
    - when the query returns a row whose code is the supplied one and the
      update is carried out, [verifyOtp] resolves to [true] and that row is
      marked verified;
    - whenever [verifyOtp] resolves to [true], it did so against a row of
      that user and channel that was unexpired, unverified, no older than
      any other such row and carried the supplied code; that row is now
      verified, with the time of the update as [verified_at]; and a later
      verification with the same code resolves to [false], provided no
      other row that was eligible carried the same code. *)
Theorem verifyOtp_latest_unverified_only (w : World) (u : User) (otp : string)
        (type : Channel) :
  user (ui w) = Some u ->
  let table := otp_verifications (db (svc w)) in
  let t := clock (env w) in
  let t' := clock (env w) + Z.of_N (elapsed (nextReply w)) in
  (filter (Supabase.eligible (u_id u) type t) table = [] ->
   (forall v, outcome (nextReply w) <> Rejected v) ->
   exists w' detail,
     verifyOtp otp type w = (Resolved false, w')
     /\ db (svc w') = db (svc w)
     /\ console (out w')
        = (console (out w)
           ++ [LogVerifying otp type;
               LogOtpResult None detail;
               LogError "OTP verification error details:" (option_map ErrVal detail);
               LogError "Error verifying OTP:"
                        (Some (ErrVal (newError "No valid OTP found")))])%list)
  /\ (forall r,
        outcome (nextReply w) = Served ->
        Supabase.lookupOtp (u_id u) type t table = [r] ->
        otp_code r = otp ->
        accepted (outcome (nth 1 (replies (env w)) (mkReply 0 Served))) = true ->
        exists w',
          verifyOtp otp type w = (Resolved true, w')
          /\ otp_verifications (db (svc w'))
             = map (Supabase.markVerified (o_id r) t') table)
  /\ (forall w',
        verifyOtp otp type w = (Resolved true, w') ->
        exists r,
          In r table
          /\ Supabase.eligible (u_id u) type t r = true
          /\ (forall x, In x table ->
                        Supabase.eligible (u_id u) type t x = true ->
                        o_created_at x <= o_created_at r)
          /\ otp_code r = otp
          /\ otp_verifications (db (svc w'))
             = map (Supabase.markVerified (o_id r) t') table
          /\ In (Supabase.markVerified (o_id r) t' r)
                (otp_verifications (db (svc w')))
          /\ is_verified (Supabase.markVerified (o_id r) t' r) = true
          /\ verified_at (Supabase.markVerified (o_id r) t' r) = Some t'
          /\ (forall w2,
                user (ui w2) = Some u ->
                otp_verifications (db (svc w2)) = otp_verifications (db (svc w')) ->
                t <= clock (env w2) ->
                (forall x y, In x table -> In y table ->
                   Supabase.eligible (u_id u) type t x = true ->
                   Supabase.eligible (u_id u) type t y = true ->
                   otp_code x = otp -> otp_code y = otp -> o_id x = o_id y) ->
                exists w3, verifyOtp otp type w2 = (Resolved false, w3))).
Proof.
  intros Hu table t t'. subst table t t'. split; [|split].
  - intros Hnone Hrej.
    destruct (verifyOtp_none_eligible w u otp type Hu Hnone Hrej)
      as [w' [detail [Hr [Hdb [Hlog _]]]]].
    exists w', detail. repeat split; assumption.
  - intros r Hs L E Ha.
    apply verifyOtp_match_succeeds with (u := u); assumption.
  - intros w' Hrun.
    destruct (verifyOtp_true_inv w w' u otp type Hu Hrun)
      as [r [L [Hcode [Hmark _]]]].
    pose proof (lookupOtp_spec (u_id u) type (clock (env w))
                  (otp_verifications (db (svc w))))
      as [[L0 _]|[r0 [L1 [Hin [Hel Hmax]]]]].
    { rewrite L0 in L. discriminate. }
    rewrite L1 in L. injection L as ->.
    destruct (markVerified_hit r (clock (env w) + Z.of_N (elapsed (nextReply w))))
      as [Hv [Hat _]].
    exists r. repeat split; try assumption.
    + rewrite Hmark. now apply in_map.
    + intros w2 Hu2 Htab Hclk Huniq.
      now apply (verifyOtp_again_fails w w' w2 u otp type).
Qed.

(** One pending code, verified twice in a row: accepted, then refused. *)
Lemma verifyOtp_latest_unverified_only_witness :
  let w := sampleWorld (Some alice) (otpStore [pendingOtp 0 "123456" 900]) [] [] in
  exists w1 w2,
    verifyOtp "123456" Phone w = (Resolved true, w1)
    /\ map is_verified (otp_verifications (db (svc w1))) = [true]
    /\ map verified_at (otp_verifications (db (svc w1))) = [Some 1000]
    /\ verifyOtp "123456" Phone w1 = (Resolved false, w2).
Proof.
  intros w.
  destruct (verifyOtp_latest_unverified_only w alice "123456" Phone eq_refl)
    as [_ [Hfwd Hinv]].
  destruct (Hfwd (pendingOtp 0 "123456" 900) eq_refl eq_refl eq_refl eq_refl)
    as [w1 [Hrun Htab]].
  destruct (Hinv w1 Hrun) as [r [_ [_ [_ [_ [_ [_ [_ [_ Hagain]]]]]]]]].
  assert (Hui : ui w1 = ui w).
  { destruct (verifyOtp_true_inv w w1 alice "123456" Phone eq_refl Hrun)
      as [_ [_ [_ [_ [_ [_ H]]]]]]. exact H. }
  assert (Hclk : clock (env w) <= clock (env w1)).
  { revert Hrun. vm_compute. intros [= <-]. discriminate. }
  destruct (Hagain w1) as [w2 H2].
  - rewrite Hui. reflexivity.
  - reflexivity.
  - exact Hclk.
  - intros x y [<-|[]] [<-|[]] _ _ _ _. reflexivity.
  - exists w1, w2. rewrite Htab. repeat split; try reflexivity; assumption.
Defined.

(** C1, as stated, with two pending codes of the same user and channel that
    happen to be equal: the second verification succeeds too, against the
    older row. *)
Lemma verifyOtp_same_code_accepted_twice :
  let w := sampleWorld (Some alice)
             (otpStore [pendingOtp 0 "123456" 800; pendingOtp 1 "123456" 900])
             [] [] in
  exists w1 w2,
    verifyOtp "123456" Phone w = (Resolved true, w1)
    /\ map is_verified (otp_verifications (db (svc w1))) = [false; true]
    /\ verifyOtp "123456" Phone w1 = (Resolved true, w2)
    /\ map is_verified (otp_verifications (db (svc w2))) = [true; true].
Proof.
  intros w. subst w.
  eexists. eexists.
  split; [vm_compute; reflexivity|].
  split; [vm_compute; reflexivity|].
  split; vm_compute; reflexivity.
Qed.

(** ** Sign-up and the welcome notification *)

(** [sendWelcomeNotification] always resolves; it touches nothing but the
    notifications table and the console, and when it does not add the
    notification it has logged why. *)
Lemma sendWelcomeNotification_swallows (w : World) (userId : string) :
  exists w',
    sendWelcomeNotification userId w = (Resolved tt, w')
    /\ ui w' = ui w
    /\ profiles (db (svc w')) = profiles (db (svc w))
    /\ otp_verifications (db (svc w')) = otp_verifications (db (svc w))
    /\ authSession (svc w') = authSession (svc w)
    /\ authUser (svc w') = authUser (svc w)
    /\ timers (out w') = timers (out w)
    /\ (notifications (db (svc w'))
        = (notifications (db (svc w)) ++ [welcomeNotification userId])%list
        \/ (notifications (db (svc w')) = notifications (db (svc w))
            /\ exists tag v,
                 console (out w') = (console (out w) ++ [LogError tag v])%list)).
Proof.
  open_world w. unfold sendWelcomeNotification. run.
  destruct rps as [|[el oc] rps']; [|destruct oc]; run;
    try (eexists; split; [reflexivity|]; run; repeat split;
         right; split; [reflexivity|]; do 2 eexists; reflexivity);
    (destruct asn as [[tok [su|]]|]; run;
     try (eexists; split; [reflexivity|]; run; repeat split;
          right; split; [reflexivity|]; do 2 eexists; reflexivity));
    try (eexists; split; [reflexivity|]; run; repeat split;
         left; reflexivity);
    (destruct rps' as [|[el2 oc2] rps2]; [|destruct oc2]; run;
     eexists; (split; [reflexivity|]); run; repeat split;
     first [ left; reflexivity
           | right; split; [reflexivity|]; do 2 eexists; reflexivity ]).
Qed.

(** Once the account is created and returned, [signUp] resolves, whatever
    the service replies afterwards. *)
Lemma signUp_resolves (w : World) (email password fullName : string) :
  outcome (nextReply w) = Served ->
  exists w',
    signUp email password fullName w = (Resolved tt, w')
    /\ authUser (svc w') = Some (mkUser (issuing (svc w)) (Some email)).
Proof.
  intros Hs.
  unfold signUp, tryCatch at 1, bind at 1.
  assert (H1 : exists w1,
             Supabase.signUp email password fullName w
             = (Resolved (Some (mkUser (issuing (svc w)) (Some email)), None), w1)
             /\ authUser (svc w1) = Some (mkUser (issuing (svc w)) (Some email))).
  { open_world w. run_in Hs. run.
    destruct rps as [|[el oc] rps']; run; [|run_in Hs; subst oc; run];
      eexists; split; reflexivity. }
  destruct H1 as [w1 [-> Hau]].
  cbv beta iota.
  unfold bind at 1, sleep at 1, modify.
  set (w2 := with_env _ w1).
  assert (Hau2 : authUser (svc w2) = authUser (svc w1)) by reflexivity.
  unfold bind at 1.
  set (rec := tryCatch _ (fun err => log (LogWarn "Error updating profile after signup:" (Some err)))).
  assert (H3 : exists w3, rec w2 = (Resolved tt, w3)
                          /\ authUser (svc w3) = authUser (svc w2)).
  { subst rec. clearbody w2. clear. open_world w2. run.
    destruct rps as [|[el oc] rps']; [|destruct oc]; run;
      try (eexists; split; reflexivity);
      (destruct (Supabase.maybeSingle _) as [[p|] e]; run;
       try (eexists; split; reflexivity));
      (destruct rps' as [|[el2 oc2] rps2]; [|destruct oc2]; run;
       eexists; split; reflexivity). }
  destruct H3 as [w3 [-> Hau3]].
  destruct (sendWelcomeNotification_swallows w3 (issuing (svc w)))
    as [w4 [Hn [_ [_ [_ [_ [Hau4 _]]]]]]].
  cbn [u_id]. unfold tryCatch. rewrite Hn.
  exists w4. split; [reflexivity|]. congruence.
Qed.

(** The profile update made by [signUp] before the notification step is
    still in the store afterwards, whatever happens to the notification. *)
Lemma signUp_keeps_profile_update (w : World) (email password fullName : string)
      (r0 r1 r2 : Reply) (rest : list Reply) (p : Profile) :
  replies (env w) = r0 :: r1 :: r2 :: rest ->
  outcome r0 = Served -> outcome r1 = Served -> accepted (outcome r2) = true ->
  filter (Supabase.ownedBy (issuing (svc w))) (profiles (db (svc w))) = [p] ->
  exists w',
    signUp email password fullName w = (Resolved tt, w')
    /\ profiles (db (svc w'))
       = map (fun q =>
                if Supabase.ownedBy (issuing (svc w)) q
                then Supabase.applyPatch (mkPatch None None None (Some fullName) None None None)
                       (clock (env w) + Z.of_N (elapsed r0) + 1000
                        + Z.of_N (elapsed r1)) q
                else q)
             (profiles (db (svc w))).
Proof.
  intros Hr H0 H1 H2 Hp. open_world w. run_in Hr. run_in Hp. subst rps.
  destruct r0 as [el0 oc0], r1 as [el1 oc1], r2 as [el2 oc2].
  cbn [outcome] in H0, H1, H2. subst oc0 oc1.
  unfold signUp. run. cbn [u_id]. rewrite Hp. unfold Supabase.maybeSingle. run.
  destruct oc2; try discriminate H2; run; cbn [u_id];
    match goal with
    | |- context [sendWelcomeNotification ?i ?W] =>
        destruct (sendWelcomeNotification_swallows W i)
          as [w4 [Hn [_ [Hprof _]]]];
        rewrite Hn; exists w4; split; [reflexivity|];
        exact Hprof
    end.
Qed.

(** C8. [sendWelcomeNotification] never rejects: a session error, a missing
    session user, a failed insert or a rejected request each end in a
    logged error and a resolved promise, and nothing but the notifications
    table and the console changes. Hence every run of [signUp] in which the
    account was created and returned resolves, with the account in place;
    and the profile update made before the notification step is still in
    the store afterwards, whatever the notification step met. *)
Theorem welcome_notification_best_effort (w : World)
        (email password fullName : string) :
  (forall userId,
     exists w',
       sendWelcomeNotification userId w = (Resolved tt, w')
       /\ ui w' = ui w
       /\ profiles (db (svc w')) = profiles (db (svc w))
       /\ otp_verifications (db (svc w')) = otp_verifications (db (svc w))
       /\ authSession (svc w') = authSession (svc w)
       /\ authUser (svc w') = authUser (svc w)
       /\ timers (out w') = timers (out w)
       /\ (notifications (db (svc w'))
           = (notifications (db (svc w)) ++ [welcomeNotification userId])%list
           \/ (notifications (db (svc w')) = notifications (db (svc w))
               /\ exists tag v,
                    console (out w') = (console (out w) ++ [LogError tag v])%list)))
  /\ (outcome (nextReply w) = Served ->
      exists w',
        signUp email password fullName w = (Resolved tt, w')
        /\ authUser (svc w') = Some (mkUser (issuing (svc w)) (Some email)))
  /\ (forall r0 r1 r2 rest p,
        replies (env w) = r0 :: r1 :: r2 :: rest ->
        outcome r0 = Served -> outcome r1 = Served ->
        accepted (outcome r2) = true ->
        filter (Supabase.ownedBy (issuing (svc w))) (profiles (db (svc w))) = [p] ->
        exists w',
          signUp email password fullName w = (Resolved tt, w')
          /\ profiles (db (svc w'))
             = map (fun q =>
                      if Supabase.ownedBy (issuing (svc w)) q
                      then Supabase.applyPatch (mkPatch None None None (Some fullName) None None None)
                             (clock (env w) + Z.of_N (elapsed r0) + 1000
                              + Z.of_N (elapsed r1)) q
                      else q)
                   (profiles (db (svc w)))).
Proof.
  split; [|split].
  - intros userId. apply sendWelcomeNotification_swallows.
  - apply signUp_resolves.
  - intros. eapply signUp_keeps_profile_update; eassumption.
Qed.

(** A sign-up whose profile row exists already and whose notification step
    finds the session request rejected. *)
Lemma welcome_notification_best_effort_witness :
  let w := mkWorld (mkAuth None None None false None)
             (mkService
                (mkStore [mkProfile 0 "user-2" "bob@example.com" None None 10 10]
                         [] [] 1)
                None None "user-2")
             (mkEnv 1000
                [mkReply 1 Served; mkReply 2 Served; mkReply 3 Served;
                 mkReply 4 (Rejected (ErrVal (newError "Failed to fetch")))]
                [] [] true)
             (mkEffects [] [] []) in
  exists w',
    signUp "bob@example.com" "secret" "Bob" w = (Resolved tt, w')
    /\ map p_full_name (profiles (db (svc w'))) = [Some "Bob"]
    /\ map p_updated_at (profiles (db (svc w'))) = [2003].
Proof.
  intros w.
  destruct (welcome_notification_best_effort w "bob@example.com" "secret" "Bob")
    as [_ [_ H]].
  destruct (H (mkReply 1 Served) (mkReply 2 Served) (mkReply 3 Served)
              [mkReply 4 (Rejected (ErrVal (newError "Failed to fetch")))]
              (mkProfile 0 "user-2" "bob@example.com" None None 10 10)
              eq_refl eq_refl eq_refl eq_refl eq_refl)
    as [w' [Hrun Hprof]].
  exists w'. split; [exact Hrun|]. rewrite Hprof. split; reflexivity.
Defined.

(** ** Profile fetch-or-create *)

Lemma orElse_empty (m : string) : Js.orElse m "" = m.
Proof. destruct m; reflexivity. Qed.

Lemma filter_ownedBy_snoc (userId : string) (rows : list Profile) (row : Profile) :
  p_user_id row = userId ->
  filter (Supabase.ownedBy userId) rows = [] ->
  filter (Supabase.ownedBy userId) (rows ++ [row]) = [row].
Proof.
  intros Hid Hnone. rewrite filter_app, Hnone. cbn.
  unfold Supabase.ownedBy. rewrite Hid, String.eqb_refl. reflexivity.
Qed.

(** The user has exactly one row: it is adopted, with a single request. *)
Lemma fetchProfile_existing (w : World) (userId : string) (p : Profile) :
  filter (Supabase.ownedBy userId) (profiles (db (svc w))) = [p] ->
  outcomeAt 0 w = Served ->
  exists w',
    fetchProfile userId w = (Resolved tt, w')
    /\ profile (ui w') = Some p
    /\ loading (ui w') = false
    /\ db (svc w') = db (svc w)
    /\ requests (out w') = (requests (out w) ++ [SelectProfile userId])%list
    /\ replies (env w') = tl (replies (env w)).
Proof.
  intros Hp Hs. open_world w. run_in Hp. cbv [outcomeAt] in Hs. run_in Hs.
  unfold fetchProfile, budget. cbn [fetchProfileN]. run.
  destruct rps as [|[el oc] rps']; cbn [nth outcome] in Hs; [|subst oc]; run;
    rewrite Hp; unfold Supabase.maybeSingle; run;
    eexists; (split; [reflexivity|]); run; repeat split.
Qed.

Lemma nth_tl {A} (i : nat) (l : list A) (d : A) :
  nth i (tl l) d = nth (S i) l d.
Proof. destruct l; [destruct i|]; reflexivity. Qed.

(** C5. For a user who has a profile row and a service that answers the
    two queries, two calls of [fetchProfile] in a row both resolve and
    both adopt that row; the only requests sent are the two selects (no
    insert), so the store is left as it was. *)
Theorem fetchProfile_idempotent_when_present (w : World) (userId : string)
        (p : Profile) :
  filter (Supabase.ownedBy userId) (profiles (db (svc w))) = [p] ->
  outcomeAt 0 w = Served ->
  outcomeAt 1 w = Served ->
  exists w1 w2,
    fetchProfile userId w = (Resolved tt, w1)
    /\ fetchProfile userId w1 = (Resolved tt, w2)
    /\ profile (ui w1) = Some p
    /\ profile (ui w2) = Some p
    /\ db (svc w1) = db (svc w)
    /\ db (svc w2) = db (svc w)
    /\ requests (out w2)
       = (requests (out w) ++ [SelectProfile userId; SelectProfile userId])%list.
Proof.
  intros Hp H0 H1.
  destruct (fetchProfile_existing w userId p Hp H0)
    as [w1 [Hr1 [Hp1 [_ [Hdb1 [Hq1 Hrp1]]]]]].
  assert (Hp' : filter (Supabase.ownedBy userId) (profiles (db (svc w1))) = [p])
    by (rewrite Hdb1; exact Hp).
  assert (H0' : outcomeAt 0 w1 = Served).
  { unfold outcomeAt in *. rewrite Hrp1, nth_tl. exact H1. }
  destruct (fetchProfile_existing w1 userId p Hp' H0')
    as [w2 [Hr2 [Hp2 [_ [Hdb2 [Hq2 _]]]]]].
  exists w1, w2. repeat split; try assumption.
  - congruence.
  - rewrite Hq2, Hq1, <- app_assoc. reflexivity.
Qed.

Lemma fetchProfile_idempotent_when_present_witness :
  let row := mkProfile 0 "user-1" "alice@example.com" (Some "Alice") None 10 20 in
  let w := sampleWorld (Some alice) (mkStore [row] [] [] 1) [] [] in
  exists w1 w2,
    fetchProfile "user-1" w = (Resolved tt, w1)
    /\ fetchProfile "user-1" w1 = (Resolved tt, w2)
    /\ profile (ui w1) = Some row
    /\ profile (ui w2) = Some row
    /\ profiles (db (svc w2)) = [row].
Proof.
  intros row w.
  destruct (fetchProfile_idempotent_when_present w "user-1" row
              eq_refl eq_refl eq_refl)
    as [w1 [w2 [H1 [H2 [Hp1 [Hp2 [_ [Hdb _]]]]]]]].
  exists w1, w2. repeat split; try assumption.
  rewrite Hdb. reflexivity.
Defined.

(** The user has no row and the service carries out the requests: one row
    is inserted and adopted; when the insert answers without the row, one
    more select fetches it. *)
Lemma fetchProfile_absent (w : World) (userId : string) :
  filter (Supabase.ownedBy userId) (profiles (db (svc w))) = [] ->
  outcomeAt 0 w = Served ->
  outcomeAt 1 w = Served ->
  outcomeAt 2 w = Served \/ (outcomeAt 2 w = Quiet /\ outcomeAt 3 w = Served) ->
  let t := clock (env w) + elapsedAt 0 w + elapsedAt 1 w + elapsedAt 2 w in
  let row := mkProfile (next_id (db (svc w))) userId (authEmail w) None None t t in
  exists w',
    fetchProfile userId w = (Resolved tt, w')
    /\ profiles (db (svc w')) = (profiles (db (svc w)) ++ [row])%list
    /\ profile (ui w') = Some row
    /\ loading (ui w') = false
    /\ requests (out w')
       = (requests (out w)
          ++ [SelectProfile userId; AuthGetUser; InsertProfile userId (authEmail w)]
          ++ match outcomeAt 2 w with
             | Quiet => [SelectProfile userId]
             | _ => []
             end)%list.
Proof.
  intros Hnone H0 H1 H2 t row. subst t row.
  assert (Hsnoc : forall i e a b c d,
            filter (Supabase.ownedBy userId)
                   (profiles (db (svc w)) ++ [mkProfile i userId e a b c d])
            = [mkProfile i userId e a b c d])
    by (intros; now apply filter_ownedBy_snoc).
  open_world w. run_in Hnone. run_in Hsnoc.
  unfold outcomeAt, elapsedAt, authEmail in *.
  cbn [replies env svc authUser db next_id clock] in *.
  unfold fetchProfile, budget. cbn [replies env].
  assert (Hmail : forall au : option User,
            match au with
            | Some u => match u_email u with
                        | Some m => Js.orElse m "" | None => "" end
            | None => ""
            end
            = match au with
              | Some u => match u_email u with Some m => m | None => "" end
              | None => ""
              end).
  { intros [[i [m|]]|]; cbn; [apply orElse_empty | reflexivity | reflexivity]. }
  destruct rps as [|[e0 o0] [|[e1 o1] [|[e2 o2] [|[e3 o3] rps']]]];
    cbn [nth outcome elapsed] in *;
    try (subst o0); try (subst o1);
    (destruct H2 as [H2|[H2 H3]];
     [try (subst o2) | try discriminate H2; try (subst o2); try (subst o3)]);
    cbn [List.length fetchProfileN]; unfold createProfileWith; run;
    rewrite Hnone; unfold Supabase.maybeSingle at 1; run; rewrite Hmail;
    try (rewrite Hsnoc; unfold Supabase.maybeSingle; run);
    change (Z.of_N 0) with 0; rewrite ?Z.add_0_r;
    eexists; (split; [reflexivity|]); run;
    rewrite <- ?app_assoc; repeat split; reflexivity.
Qed.

(** The insert answers without the row and the select that follows answers
    without it as well: the creation runs a second time and inserts a
    second row. *)
Lemma fetchProfile_absent_twice (w : World) (userId : string) :
  filter (Supabase.ownedBy userId) (profiles (db (svc w))) = [] ->
  outcomeAt 0 w = Served ->
  outcomeAt 1 w = Served ->
  outcomeAt 2 w = Quiet ->
  outcomeAt 3 w = Quiet ->
  outcomeAt 4 w = Served ->
  outcomeAt 5 w = Served ->
  let t := clock (env w) + elapsedAt 0 w + elapsedAt 1 w + elapsedAt 2 w in
  let t' := t + elapsedAt 3 w + elapsedAt 4 w + elapsedAt 5 w in
  let row := mkProfile (next_id (db (svc w))) userId (authEmail w) None None t t in
  let row' := mkProfile (S (next_id (db (svc w)))) userId (authEmail w)
                        None None t' t' in
  exists w',
    fetchProfile userId w = (Resolved tt, w')
    /\ profiles (db (svc w')) = (profiles (db (svc w)) ++ [row; row'])%list
    /\ profile (ui w') = Some row'
    /\ loading (ui w') = false
    /\ requests (out w')
       = (requests (out w)
          ++ [SelectProfile userId; AuthGetUser; InsertProfile userId (authEmail w);
              SelectProfile userId; AuthGetUser; InsertProfile userId (authEmail w)])%list.
Proof.
  intros Hnone H0 H1 H2 H3 H4 H5 t t' row row'. subst t t' row row'.
  open_world w. run_in Hnone.
  unfold outcomeAt, elapsedAt, authEmail in *.
  cbn [replies env svc authUser db next_id clock] in *.
  unfold fetchProfile, budget. cbn [replies env].
  assert (Hmail : forall au : option User,
            match au with
            | Some u => match u_email u with
                        | Some m => Js.orElse m "" | None => "" end
            | None => ""
            end
            = match au with
              | Some u => match u_email u with Some m => m | None => "" end
              | None => ""
              end).
  { intros [[i [m|]]|]; cbn; [apply orElse_empty | reflexivity | reflexivity]. }
  destruct rps as [|[e0 o0] [|[e1 o1] [|[e2 o2] [|[e3 o3] [|[e4 o4] [|[e5 o5] rps']]]]]];
    cbn [nth outcome elapsed] in *;
    try discriminate H2; try discriminate H3;
    subst;
    cbn [List.length fetchProfileN]; unfold createProfileWith; run;
    rewrite Hnone; unfold Supabase.maybeSingle at 1; run; rewrite ?Hmail;
    cbn [fetchProfileN]; unfold createProfileWith; run; rewrite ?Hmail;
    change (Z.of_N 0) with 0; rewrite ?Z.add_0_r;
    eexists; (split; [reflexivity|]); run;
    rewrite <- ?app_assoc; repeat split; reflexivity.
Qed.

(** C4 (as amended). For a user with no profile row and a service that
    answers the select and [getUser] and carries out the insert,
    [fetchProfile] inserts a row that carries the user's identifier and
    the email the auth service reports for the signed-in account.
    - When the insert returns the row, or returns nothing and the select
      of the [fetchProfile] that [createProfile] then calls finds it, that
      row is the only row of the user and is the profile adopted as
      current state (with loading stopped); the requests sent are the
      select, [getUser] and the insert, followed by exactly one more
      select in the second case.
    - When the insert returns nothing and that select answers without the
      row as well, the creation is run again: [getUser] and the insert are
      sent a second time, the user ends up with two rows, and the second
      is the one adopted. *)
Theorem fetchProfile_creates_one_row (w : World) (userId : string) :
  filter (Supabase.ownedBy userId) (profiles (db (svc w))) = [] ->
  outcomeAt 0 w = Served ->
  outcomeAt 1 w = Served ->
  let t := clock (env w) + elapsedAt 0 w + elapsedAt 1 w + elapsedAt 2 w in
  let row := mkProfile (next_id (db (svc w))) userId (authEmail w) None None t t in
  p_user_id row = userId
  /\ (forall au m, authUser (svc w) = Some au -> u_email au = Some m ->
                   p_email row = m)
  /\ (outcomeAt 2 w = Served \/ (outcomeAt 2 w = Quiet /\ outcomeAt 3 w = Served) ->
      exists w',
        fetchProfile userId w = (Resolved tt, w')
        /\ profiles (db (svc w')) = (profiles (db (svc w)) ++ [row])%list
        /\ filter (Supabase.ownedBy userId) (profiles (db (svc w'))) = [row]
        /\ profile (ui w') = Some row
        /\ loading (ui w') = false
        /\ requests (out w')
           = (requests (out w)
              ++ [SelectProfile userId; AuthGetUser;
                  InsertProfile userId (authEmail w)]
              ++ match outcomeAt 2 w with
                 | Quiet => [SelectProfile userId]
                 | _ => []
                 end)%list)
  /\ (outcomeAt 2 w = Quiet -> outcomeAt 3 w = Quiet ->
      outcomeAt 4 w = Served -> outcomeAt 5 w = Served ->
      exists w' row',
        fetchProfile userId w = (Resolved tt, w')
        /\ profiles (db (svc w')) = (profiles (db (svc w)) ++ [row; row'])%list
        /\ filter (Supabase.ownedBy userId) (profiles (db (svc w'))) = [row; row']
        /\ p_id row' = S (p_id row)
        /\ p_user_id row' = userId
        /\ p_email row' = p_email row
        /\ profile (ui w') = Some row'
        /\ loading (ui w') = false
        /\ requests (out w')
           = (requests (out w)
              ++ [SelectProfile userId; AuthGetUser;
                  InsertProfile userId (authEmail w);
                  SelectProfile userId; AuthGetUser;
                  InsertProfile userId (authEmail w)])%list).
Proof.
  intros Hnone H0 H1 t row.
  split; [reflexivity|]. split.
  { intros au m Hau Hm. subst row. cbn [p_email]. unfold authEmail.
    rewrite Hau, Hm. reflexivity. }
  split.
  - intros H2.
    destruct (fetchProfile_absent w userId Hnone H0 H1 H2)
      as [w' [Hrun [Hrows [Hadopt [Hload Hreq]]]]].
    exists w'. split; [exact Hrun|]. split; [exact Hrows|]. split.
    { rewrite Hrows. now apply filter_ownedBy_snoc. }
    repeat split; assumption.
  - intros H2 H3 H4 H5.
    destruct (fetchProfile_absent_twice w userId Hnone H0 H1 H2 H3 H4 H5)
      as [w' [Hrun [Hrows [Hadopt [Hload Hreq]]]]].
    eexists w', _. split; [exact Hrun|]. split; [exact Hrows|]. split.
    { rewrite Hrows, filter_app, Hnone. cbn [filter app p_user_id].
      unfold Supabase.ownedBy. cbn [p_user_id]. rewrite String.eqb_refl.
      reflexivity. }
    repeat split; assumption.
Qed.

(** A first sign-in whose insert answers without the row. *)
Lemma fetchProfile_creates_one_row_witness :
  let w := sampleWorld (Some alice) emptyStore
             [mkReply 1 Served; mkReply 1 Served; mkReply 1 Quiet] [] in
  let row := mkProfile 0 "user-1" "alice@example.com" None None 1003 1003 in
  exists w',
    fetchProfile "user-1" w = (Resolved tt, w')
    /\ profiles (db (svc w')) = [row]
    /\ profile (ui w') = Some row
    /\ requests (out w')
       = [SelectProfile "user-1"; AuthGetUser;
          InsertProfile "user-1" "alice@example.com"; SelectProfile "user-1"].
Proof.
  intros w row.
  destruct (fetchProfile_creates_one_row w "user-1" eq_refl eq_refl eq_refl)
    as [_ [_ [Hone _]]].
  destruct (Hone (or_intror (conj eq_refl eq_refl)))
    as [w' [Hrun [Hrows [_ [Hadopt [_ Hreq]]]]]].
  exists w'. repeat split; assumption.
Defined.

(** C4, as stated, for a user without a row whose insert and whose next
    select both answer without the row: [fetchProfile] leaves the user with
    two rows, having sent the select, [getUser] and the insert twice. *)
Lemma fetchProfile_inserts_second_row :
  let w := sampleWorld (Some alice) emptyStore
             [mkReply 1 Served; mkReply 1 Served; mkReply 1 Quiet; mkReply 1 Quiet]
             [] in
  filter (Supabase.ownedBy "user-1") (profiles (db (svc w))) = []
  /\ exists w',
       fetchProfile "user-1" w = (Resolved tt, w')
       /\ filter (Supabase.ownedBy "user-1") (profiles (db (svc w')))
          = [mkProfile 0 "user-1" "alice@example.com" None None 1003 1003;
             mkProfile 1 "user-1" "alice@example.com" None None 1004 1004]
       /\ requests (out w')
          = [SelectProfile "user-1"; AuthGetUser;
             InsertProfile "user-1" "alice@example.com";
             SelectProfile "user-1"; AuthGetUser;
             InsertProfile "user-1" "alice@example.com"].
Proof.
  intros w. split; [reflexivity|].
  eexists. split; [vm_compute; reflexivity|]. split; reflexivity.
Qed.

(** ** Session refresh and its retries *)

Lemma countAttempts_snoc (con : list Log) (l : Log) :
  countAttempts (con ++ [l])
  = (countAttempts con
     + match l with LogRefresh _ => 1 | _ => 0 end)%nat.
Proof.
  unfold countAttempts. rewrite filter_app, length_app.
  destruct l; reflexivity.
Qed.

Ltac count_attempts :=
  unfold attemptsLogged in *; cbn [fst snd console out] in *;
  rewrite ?countAttempts_snoc in *; cbn beta iota in *; lia.

Ltac leaf :=
  cbv [settled]; cbn [fst snd]; run;
  repeat split;
  try reflexivity; try discriminate; try congruence;
  try count_attempts;
  try (cbn [List.length] in *; lia);
  try (intros;
       match goal with
       | Hp : _ -> @Pending _ <> Pending |- _ =>
           apply Hp; cbn [List.length] in *; lia
       end).

(** [fetchProfileN] leaves timers, error and attempt count alone; when it
    settles, loading is off; and it settles whenever the fuel exceeds the
    length of the script of replies. *)
Lemma fetchProfileN_frame (fuel : nat) :
  forall (userId : string) (w : World),
    settled w (fetchProfileN fuel userId w)
    /\ (fst (fetchProfileN fuel userId w) <> Pending ->
        loading (ui (snd (fetchProfileN fuel userId w))) = false)
    /\ ((List.length (replies (env w)) < fuel)%nat ->
        fst (fetchProfileN fuel userId w) <> Pending).
Proof.
  induction fuel as [|f IH]; intros userId w.
  - cbn [fetchProfileN]. unfold pending. leaf.
  - cbn [fetchProfileN]. unfold createProfileWith. open_world w. run.
    repeat first
      [ match goal with
        | |- context [fetchProfileN f ?u ?W] =>
            let H := fresh "H" in
            pose proof (IH u W) as H;
            destruct (fetchProfileN f u W) as [c' w2];
            cbn [fst snd] in H; destruct H as [[Ht [He [Ha Hl]]] [Hld Hp]];
            open_world w2; run_in Ht; run_in He; run_in Hl; run_in Hld; run_in Hp;
            cbn [List.length] in Hp;
            destruct c'; run
        end
      | step ];
    leaf.
Qed.

(** With a service that disturbs finitely many requests, [fetchProfile]
    settles. *)
Lemma fetchProfile_frame (userId : string) (w : World) :
  exists c w',
    fetchProfile userId w = (c, w')
    /\ c <> Pending
    /\ timers (out w') = timers (out w)
    /\ error (ui w') = error (ui w)
    /\ attemptsLogged w' = attemptsLogged w
    /\ loading (ui w') = false.
Proof.
  unfold fetchProfile.
  destruct (fetchProfileN_frame (budget w) userId w) as [[Ht [He [Ha _]]] [Hl Hp]].
  destruct (fetchProfileN (budget w) userId w) as [c w'] eqn:E.
  cbn [fst snd] in *.
  assert (Hc : c <> Pending) by (apply Hp; unfold budget; lia).
  exists c, w'. repeat split; auto.
Qed.

(** The reachability probe is advisory: it resolves, and changes nothing
    but the probe script and the console. *)
Lemma checkConnectivity_frame (w : World) :
  exists b pbs' con',
    checkConnectivity w
    = (Resolved b,
       mkWorld (ui w) (svc w)
               (mkEnv (clock (env w)) (replies (env w)) pbs'
                      (entropy (env w)) (onLine (env w)))
               (mkEffects con' (timers (out w)) (requests (out w))))
    /\ countAttempts con' = countAttempts (console (out w)).
Proof.
  open_world w. unfold checkConnectivity. run.
  destruct onl; run; [|do 3 eexists; split; reflexivity].
  destruct pbs as [|[] [|[] [|[] pbs']]]; run;
    do 3 eexists; (split; [reflexivity|]);
    rewrite ?countAttempts_snoc; cbn; lia.
Qed.

Ltac meet_probe :=
  match goal with
  | |- context [checkConnectivity ?W] =>
      let b := fresh "b" in
      let pbs' := fresh "pbs'" in
      let con' := fresh "con'" in
      let E := fresh "E" in
      let Hc := fresh "Hc" in
      destruct (checkConnectivity_frame W) as [b [pbs' [con' [E Hc]]]];
      rewrite E; clear E; run; run_in Hc;
      rewrite ?countAttempts_snoc in Hc; cbn beta iota in Hc
  end.

Ltac meet_fetch :=
  match goal with
  | |- context [fetchProfile ?u ?W] =>
      let c := fresh "c" in
      let w2 := fresh "w2" in
      let E := fresh "E" in
      destruct (fetchProfile_frame u W) as [c [w2 [E [Hnp [Ht [He [Ha Hl]]]]]]];
      rewrite E; clear E; open_world w2;
      run_in Ht; run_in He; run_in Hl;
      unfold attemptsLogged in Ha; cbn [console out] in Ha;
      rewrite ?countAttempts_snoc in Ha; cbn beta iota in Ha;
      destruct c; [| |exfalso; apply Hnp; reflexivity]; run
  end.

(** The [try] block, by the reply to [getSession]. *)
Lemma refreshAttempt_cases (attempt : Z) (w : World) :
  exists c w1,
    refreshAttempt attempt w = (c, w1)
    /\ c <> Pending
    /\ attemptsLogged w1 = S (attemptsLogged w)
    /\ error (ui w1) = None
    /\ match outcome (nextReply w) with
       | Failed e =>
           c = Resolved tt
           /\ if (attempt <? maxRetries) && networkShaped (message e)
              then timers (out w1) = (timers (out w) ++ [retryTimer attempt])%list
              else timers (out w1) = timers (out w)
                   /\ loading (ui w1) = false
                   /\ user (ui w1) = None
                   /\ session (ui w1) = None
                   /\ profile (ui w1) = None
       | Rejected v => c = Threw v /\ timers (out w1) = timers (out w)
       | _ => timers (out w1) = timers (out w) /\ loading (ui w1) = false
       end.
Proof.
  open_world w. unfold refreshAttempt. run. meet_probe.
  destruct rps as [|[el oc] rps']; [|destruct oc]; run.
  all: try (destruct ((attempt <? maxRetries) && networkShaped (message e)); run).
  all: try (destruct asn as [[tok [su|]]|]; run).
  all: try meet_fetch.
  all: do 2 eexists; (split; [reflexivity|]); run; unfold retryTimer;
       repeat split; try discriminate; try reflexivity; try assumption;
       try count_attempts.
Qed.

(** The [catch] block: retry while attempts remain, otherwise stop loading
    and show the formatted error unless it looks network-related. *)
Lemma refreshFailed_cases (attempt : Z) (v : JsValue) (w1 : World) :
  exists w',
    refreshFailed attempt v w1 = (Resolved tt, w')
    /\ attemptsLogged w' = attemptsLogged w1
    /\ if attempt <? maxRetries
       then timers (out w') = (timers (out w1) ++ [retryTimer attempt])%list
       else timers (out w') = timers (out w1)
            /\ loading (ui w') = false
            /\ error (ui w')
               = if looksNetworkRelated (formatNetworkError v)
                 then error (ui w1)
                 else Some (formatNetworkError v).
Proof.
  open_world w1. unfold refreshFailed. run.
  destruct (attempt <? maxRetries); run;
    [|destruct (looksNetworkRelated (formatNetworkError v)); run];
    eexists; (split; [reflexivity|]); run;
    (split; [unfold attemptsLogged; cbn [console out];
             rewrite ?countAttempts_snoc; cbn beta iota; lia|]);
    repeat split; reflexivity.
Qed.

(** One call of [refreshAuthState]: it always resolves, logs one attempt,
    and either sets the retry timer or leaves the timers alone. *)
Lemma refreshAuthState_outcome (attempt : Z) (w : World) :
  exists c w1 w',
    refreshAttempt attempt w = (c, w1)
    /\ refreshAuthState attempt w = (Resolved tt, w')
    /\ attemptsLogged w' = S (attemptsLogged w)
    /\ match c with
       | Resolved _ =>
           error (ui w') = None
           /\ match outcome (nextReply w) with
              | Failed e =>
                  if (attempt <? maxRetries) && networkShaped (message e)
                  then timers (out w') = (timers (out w) ++ [retryTimer attempt])%list
                  else timers (out w') = timers (out w)
                       /\ loading (ui w') = false
                       /\ user (ui w') = None
                       /\ session (ui w') = None
              | Rejected _ => False
              | _ => timers (out w') = timers (out w) /\ loading (ui w') = false
              end
       | Threw v =>
           (forall e, outcome (nextReply w) <> Failed e)
           /\ if attempt <? maxRetries
              then timers (out w') = (timers (out w) ++ [retryTimer attempt])%list
              else timers (out w') = timers (out w)
                   /\ loading (ui w') = false
                   /\ error (ui w')
                      = if looksNetworkRelated (formatNetworkError v) then None
                        else Some (formatNetworkError v)
       | Pending => False
       end.
Proof.
  destruct (refreshAttempt_cases attempt w) as [c [w1 [E [Hnp [Ha [He Hcase]]]]]].
  unfold refreshAuthState, tryCatch. rewrite E.
  destruct c as [[]|v|]; [| |contradiction].
  - exists (Resolved tt), w1, w1. repeat split; try assumption.
    destruct (outcome (nextReply w)); try tauto.
    + destruct Hcase as [_ Hcase].
      destruct ((attempt <? maxRetries) && networkShaped (message e)); tauto.
    + destruct Hcase as [Hcase _]. discriminate Hcase.
  - assert (Ht : timers (out w1) = timers (out w)
                 /\ forall e, outcome (nextReply w) <> Failed e).
    { destruct (outcome (nextReply w)) as [| |e|v'].
      + split; [tauto | discriminate].
      + split; [tauto | discriminate].
      + destruct Hcase as [Hcase _]. discriminate Hcase.
      + split; [tauto | discriminate]. }
    destruct Ht as [Ht Hnf].
    destruct (refreshFailed_cases attempt v w1) as [w' [Hr [Ha' Hf]]].
    rewrite Hr. exists (Threw v), w1, w'.
    split; [reflexivity|]. split; [reflexivity|].
    split; [congruence|]. split; [exact Hnf|].
    destruct (attempt <? maxRetries).
    + congruence.
    + destruct Hf as [Hf1 [Hf2 Hf3]]. rewrite He in Hf3.
      repeat split; [congruence | assumption | exact Hf3].
Qed.

(** One attempt, summarised: a retry is only ever set before the third
    attempt; without a retry loading is off and a visible error does not
    look network-related. *)
Lemma refreshAuthState_step (attempt : Z) (w : World) :
  exists w',
    refreshAuthState attempt w = (Resolved tt, w')
    /\ attemptsLogged w' = S (attemptsLogged w)
    /\ ((attempt < maxRetries
         /\ timers (out w') = (timers (out w) ++ [retryTimer attempt])%list)
        \/ (timers (out w') = timers (out w)
            /\ loading (ui w') = false
            /\ forall m, error (ui w') = Some m -> looksNetworkRelated m = false)).
Proof.
  destruct (refreshAuthState_outcome attempt w) as [c [w1 [w' [_ [Hr [Ha Hc]]]]]].
  exists w'. split; [exact Hr|]. split; [exact Ha|].
  destruct c as [[]|v|]; [| |contradiction].
  - destruct Hc as [He Hc].
    assert (Hnone : forall m, error (ui w') = Some m -> looksNetworkRelated m = false)
      by (intros m Hm; congruence).
    destruct (outcome (nextReply w)); try (right; tauto).
    destruct (attempt <? maxRetries) eqn:Hlt; cbn [andb] in Hc.
    + destruct (networkShaped (message e)).
      * left. apply Z.ltb_lt in Hlt. tauto.
      * right. tauto.
    + right. tauto.
  - destruct Hc as [_ Hc].
    destruct (attempt <? maxRetries) eqn:Hlt.
    + left. apply Z.ltb_lt in Hlt. tauto.
    + right. destruct Hc as [Ht [Hl He]]. split; [exact Ht|]. split; [exact Hl|].
      intros m Hm. rewrite He in Hm.
      destruct (looksNetworkRelated (formatNetworkError v)) eqn:Hn;
        [discriminate | congruence].
Qed.

Lemma settle_idle (n : nat) (w : World) :
  timers (out w) = [] -> settle n w = (Resolved tt, w).
Proof.
  intros H. destruct n; [reflexivity|].
  cbn [settle]. unfold bind, get. rewrite H. reflexivity.
Qed.

(** The world in which a due timer's task starts. *)
Lemma settle_fire (n : nat) (w : World) (t : Timer) (rest : list Timer) :
  timers (out w) = t :: rest ->
  settle (S n) w
  = (runTask (task t) ;;; settle n)
      (with_env (fun e => mkEnv (clock e + delay t) (replies e) (probes e)
                                (entropy e) (onLine e))
         (with_out (fun o => mkEffects (console o) rest (requests o)) w)).
Proof.
  intros H. cbn [settle]. unfold bind at 1, get. rewrite H. reflexivity.
Qed.

(** After attempt [a] has set its retry timer, letting the timers fire
    brings at most [3 - a] further attempts, after which nothing is pending. *)
Lemma settle_chain (n : nat) :
  forall (a : Z) (w : World),
    1 <= a < maxRetries ->
    timers (out w) = [retryTimer a] ->
    exists w',
      settle n w = (Resolved tt, w')
      /\ (attemptsLogged w' + Z.to_nat a <= attemptsLogged w + 3)%nat
      /\ ((Z.to_nat (maxRetries - a) <= n)%nat ->
          timers (out w') = []
          /\ loading (ui w') = false
          /\ forall m, error (ui w') = Some m -> looksNetworkRelated m = false).
Proof.
  unfold maxRetries.
  induction n as [|n IH]; intros a w Ha Ht.
  - exists w. split; [reflexivity|]. split; [lia|]. intros H. lia.
  - rewrite (settle_fire n w _ _ Ht). cbn [task retryTimer runTask].
    set (w0 := with_env _ _).
    assert (Ht0 : timers (out w0) = []) by reflexivity.
    assert (Ha0 : attemptsLogged w0 = attemptsLogged w) by reflexivity.
    destruct (refreshAuthState_step (a + 1) w0) as [w1 [Hr [Hc Hcase]]].
    unfold bind. rewrite Hr.
    rewrite Ht0 in Hcase. cbn [app] in Hcase. unfold maxRetries in Hcase.
    destruct Hcase as [[Hlt Ht1]|[Ht1 [Hl He]]].
    + destruct (IH (a + 1) w1 ltac:(lia) Ht1) as [w' [Hs [Hcount Hend]]].
      exists w'. split; [exact Hs|]. split; [lia|].
      intros Hn. apply Hend. lia.
    + rewrite (settle_idle n w1 Ht1). exists w1.
      split; [reflexivity|]. split; [lia|]. intros _. auto.
Qed.

(** C2 (as amended). [refreshAuthState] always resolves, and whether it
    sets the retry timer is decided as follows.
    - [getSession] answers with an error: the timer is set exactly when
      fewer than 3 attempts were made and the text of the error contains
      one of the four signatures; otherwise nothing is retried, the refresh
      goes on with the absent session, loading stops and no error is shown.
    - The [try] block throws: the timer is set whenever fewer than 3
      attempts were made, whatever the text; on a later attempt loading
      stops and the formatted text is shown unless it looks network-related.
    - Neither: no timer is set, loading stops and no error is shown. *)
Theorem refresh_retry_rule (attempt : Z) (w : World) :
  exists w',
    refreshAuthState attempt w = (Resolved tt, w')
    /\ (forall e, outcome (nextReply w) = Failed e ->
          if (attempt <? maxRetries) && networkShaped (message e)
          then timers (out w') = (timers (out w) ++ [retryTimer attempt])%list
          else timers (out w') = timers (out w)
               /\ loading (ui w') = false
               /\ error (ui w') = None
               /\ session (ui w') = None)
    /\ (forall v w1, refreshAttempt attempt w = (Threw v, w1) ->
          if attempt <? maxRetries
          then timers (out w') = (timers (out w) ++ [retryTimer attempt])%list
          else timers (out w') = timers (out w)
               /\ loading (ui w') = false
               /\ error (ui w')
                  = if looksNetworkRelated (formatNetworkError v) then None
                    else Some (formatNetworkError v))
    /\ (forall w1, refreshAttempt attempt w = (Resolved tt, w1) ->
          (forall e, outcome (nextReply w) <> Failed e) ->
          timers (out w') = timers (out w)
          /\ loading (ui w') = false
          /\ error (ui w') = None).
Proof.
  destruct (refreshAuthState_outcome attempt w) as [c [w1 [w' [Hb [Hr [_ Hc]]]]]].
  exists w'. split; [exact Hr|]. split; [|split].
  - intros e He. rewrite He in Hc.
    destruct c as [[]|v|]; [| |contradiction].
    + destruct Hc as [Herr Hc].
      destruct ((attempt <? maxRetries) && networkShaped (message e)); tauto.
    + destruct Hc as [Hnf _]. exfalso. exact (Hnf e eq_refl).
  - intros v w2 Hthrew. rewrite Hthrew in Hb. injection Hb as <- <-.
    destruct Hc as [_ Hc]. exact Hc.
  - intros w2 Hres Hnf. rewrite Hres in Hb. injection Hb as <- <-.
    destruct Hc as [Herr Hc].
    destruct (outcome (nextReply w)) as [| |e|v]; try tauto.
    exfalso. exact (Hnf e eq_refl).
Qed.

(** A session error that is not network-shaped, on the first attempt. *)
Lemma refresh_retry_rule_witness :
  exists w',
    refreshAuthState 1
      (sampleWorld (Some alice) emptyStore [failing "Invalid API key"] [])
    = (Resolved tt, w')
    /\ timers (out w') = []
    /\ loading (ui w') = false
    /\ error (ui w') = None.
Proof.
  destruct (refresh_retry_rule 1
              (sampleWorld (Some alice) emptyStore [failing "Invalid API key"] []))
    as [w' [Hr [Hs _]]].
  exists w'. split; [exact Hr|].
  specialize (Hs (mkErr "Invalid API key" None false) eq_refl).
  cbn in Hs. tauto.
Defined.

(** C2, as stated, on a first attempt in which the profile query is denied
    by policy: the exception [fetchProfile] throws matches none of the
    signatures, and the retry is scheduled all the same. *)
Lemma refresh_retries_exception_of_any_text :
  let w := sampleWorld (Some alice) emptyStore
             [mkReply 0 Served; failing "406 Not Acceptable"; mkReply 0 Served] [] in
  exists w1 w',
    refreshAttempt 1 w = (Threw (ErrVal (newError MSG_ROW_DENIED)), w1)
    /\ networkShaped MSG_ROW_DENIED = false
    /\ refreshAuthState 1 w = (Resolved tt, w')
    /\ timers (out w') = [mkTimer 2000 (RefreshAuthState 2)].
Proof.
  intros w. subst w. do 2 eexists.
  split; [vm_compute; reflexivity|].
  split; [vm_compute; reflexivity|].
  split; vm_compute; reflexivity.
Qed.

(** C6. From the third attempt on, [refreshAuthState] never sets a retry
    timer: it resolves with loading off, and a visible error is set only to
    a formatted text that does not look network-related. Hence a refresh
    started with no timer pending makes at most three attempts however the
    service fails, and once its retries have fired nothing is pending and
    loading is off. *)
Theorem refresh_gives_up_after_three (w : World) :
  (forall attempt, maxRetries <= attempt ->
     exists w',
       refreshAuthState attempt w = (Resolved tt, w')
       /\ timers (out w') = timers (out w)
       /\ loading (ui w') = false
       /\ (forall m, error (ui w') = Some m -> looksNetworkRelated m = false)
       /\ (forall v w1, refreshAttempt attempt w = (Threw v, w1) ->
             error (ui w')
             = if looksNetworkRelated (formatNetworkError v) then None
               else Some (formatNetworkError v)))
  /\ (timers (out w) = [] ->
      forall n,
        exists w',
          (refreshAuthState 1 ;;; settle n) w = (Resolved tt, w')
          /\ (attemptsLogged w' <= attemptsLogged w + 3)%nat
          /\ ((2 <= n)%nat ->
              timers (out w') = []
              /\ loading (ui w') = false
              /\ forall m, error (ui w') = Some m -> looksNetworkRelated m = false)).
Proof.
  split.
  - intros attempt Hge.
    destruct (refreshAuthState_step attempt w) as [w' [Hr [_ Hcase]]].
    destruct (refreshAuthState_outcome attempt w)
      as [c [w1 [w'' [Hb [Hr' [_ Hc]]]]]].
    rewrite Hr in Hr'. injection Hr' as <-.
    exists w'. split; [exact Hr|].
    destruct Hcase as [[Hlt _]|[Ht [Hl He]]]; [lia|].
    repeat split; try assumption.
    intros v w2 Hv. rewrite Hv in Hb. injection Hb as <- <-.
    assert (Hnlt : (attempt <? maxRetries) = false) by (apply Z.ltb_ge; lia).
    rewrite Hnlt in Hc. tauto.
  - intros Ht n.
    destruct (refreshAuthState_step 1 w) as [w1 [Hr [Hc Hcase]]].
    unfold bind. rewrite Hr. rewrite Ht in Hcase. cbn [app] in Hcase.
    destruct Hcase as [[_ Ht1]|[Ht1 [Hl He]]].
    + destruct (settle_chain n 1 w1 ltac:(unfold maxRetries; lia) Ht1)
        as [w' [Hs [Hcount Hend]]].
      exists w'. split; [exact Hs|]. split; [lia|].
      intros Hn. apply Hend. unfold maxRetries. cbn. lia.
    + rewrite (settle_idle n w1 Ht1). exists w1.
      split; [reflexivity|]. split; [lia|]. intros _. auto.
Qed.

(** Three network-shaped session errors in a row. *)
Lemma refresh_gives_up_after_three_witness :
  exists w',
    (refreshAuthState 1 ;;; settle 2)
      (sampleWorld (Some alice) emptyStore
         [failing "Network request failed"; failing "Failed to fetch";
          failing "connection reset"] [])
    = (Resolved tt, w')
    /\ (attemptsLogged w' <= 3)%nat
    /\ timers (out w') = []
    /\ loading (ui w') = false.
Proof.
  destruct (refresh_gives_up_after_three
              (sampleWorld (Some alice) emptyStore
                 [failing "Network request failed"; failing "Failed to fetch";
                  failing "connection reset"] []))
    as [_ H].
  destruct (H eq_refl 2%nat) as [w' [Hr [Hc Hend]]].
  exists w'. split; [exact Hr|]. split; [exact Hc|].
  destruct (Hend (le_n 2)) as [Ht [Hl _]]. split; assumption.
Defined.

Example three_network_failures_run :
  let r := (refreshAuthState 1 ;;; settle 5)
             (sampleWorld (Some alice) emptyStore
                [failing "Network request failed"; failing "Failed to fetch";
                 failing "connection reset"] []) in
  fst r = Resolved tt
  /\ attemptsLogged (snd r) = 3%nat
  /\ timers (out (snd r)) = []
  /\ loading (ui (snd r)) = false
  /\ error (ui (snd r)) = None
  /\ clock (env (snd r)) = 1000 + 2000 + 4000.
Proof. vm_compute. repeat split. Qed.

Example third_thrown_failure_is_shown :
  let r := refreshAuthState 3
             (sampleWorld (Some alice) emptyStore
                [mkReply 0 (Rejected (ErrVal (newError "Failed to fetch")))] []) in
  timers (out (snd r)) = []
  /\ loading (ui (snd r)) = false
  /\ error (ui (snd r)) = Some "Failed to fetch".
Proof. vm_compute. repeat split. Qed.
(** ** Worked examples *)

Example validate_placeholder_url :
  Config.validateSupabaseConfig
    (Config.mkConfig "https://obbycwigtdzgnyapbdjl.supabase.co" "k")
  = Config.mkResult false [Config.MSG_PLACEHOLDER]
      [Config.MSG_KEY_JWT; Config.MSG_KEY_SHORT].
Proof. reflexivity. Qed.

Example validate_short_key_still_valid :
  Config.validateSupabaseConfig
    (Config.mkConfig "https://Pqcyefbhrstspzdnvpra.supabase.co" "abc")
  = Config.mkResult true [] [Config.MSG_KEY_JWT; Config.MSG_KEY_SHORT].
Proof. reflexivity. Qed.

Example validate_jwt_shape :
  Config.matchesJwt "eyJhbGci.eyJpc3Mi.sig-_9" = true
  /\ Config.matchesJwt "eyJhbGci.eyJpc3Mi." = true
  /\ Config.matchesJwt "eyJhbGci..sig" = false
  /\ Config.matchesJwt "a.b.c.d" = false
  /\ Config.matchesUrl "https://abc.supabase.co/" = false
  /\ Config.matchesUrl "HTTPS://a-1.SUPABASE.co" = true.
Proof. repeat split; reflexivity. Qed.

(** Two codes issued in succession: the older one is refused, and the
    refusal leaves the newer one usable. *)
Example older_code_is_refused :
  let w := sampleWorld (Some alice)
             (otpStore [pendingOtp 0 "111111" 800; pendingOtp 1 "222222" 900])
             [] [] in
  fst (verifyOtp "111111" Phone w) = Resolved false
  /\ otp_verifications (db (svc (snd (verifyOtp "111111" Phone w))))
     = otp_verifications (db (svc w))
  /\ fst (verifyOtp "222222" Phone (snd (verifyOtp "111111" Phone w)))
     = Resolved true.
Proof. vm_compute. repeat split. Qed.

(** An expired code is not eligible. *)
Example expired_code_is_refused :
  let w := mkWorld (mkAuth (Some alice) None None false None)
             (mkService (otpStore [pendingOtp 0 "111111" 800]) None (Some alice) "user-2")
             (mkEnv 600500 [] [] [] true)
             (mkEffects [] [] []) in
  fst (verifyOtp "111111" Phone w) = Resolved false.
Proof. vm_compute. reflexivity. Qed.

Example sendOtp_then_verify :
  let w := sampleWorld (Some alice) emptyStore [] [0] in
  let w1 := snd (sendOtp "+911234567890" "" Phone w) in
  fst (sendOtp "+911234567890" "" Phone w) = Resolved true
  /\ fst (verifyOtp "100000" Phone w1) = Resolved true
  /\ fst (verifyOtp "100000" Email w1) = Resolved false.
Proof. vm_compute. repeat split. Qed.

(* ================================================================== *)
(** * Further properties of the code                                    *)
(* ================================================================== *)

(** ** Error formatting *)

Lemma formatNetworkError_passthrough (m : string) :
  Js.includes "ERR_CONNECTION_CLOSED" m = false ->
  Js.includes "ERR_CONNECTION_REFUSED" m = false ->
  Js.includes "ERR_NETWORK_CHANGED" m = false ->
  Js.includes "timeout" m = false ->
  Js.includes "404" m = false ->
  formatNetworkError (ErrVal (newError m)) = m.
Proof.
  intros H1 H2 H3 H4 H5. unfold formatNetworkError. cbn [newError message].
  rewrite H1, H2, H3, H4, H5. reflexivity.
Qed.

(** X1. Formatting is idempotent: the text [formatNetworkError] returns, thrown
    again as the message of an error, is returned unchanged. *)
Theorem formatNetworkError_idempotent (v : JsValue) :
  formatNetworkError (ErrVal (newError (formatNetworkError v)))
  = formatNetworkError v.
Proof.
  destruct v as [e|]; [|vm_compute; reflexivity].
  unfold formatNetworkError at 2 3.
  destruct (Js.includes "ERR_CONNECTION_CLOSED" (message e)) eqn:H1;
    [vm_compute; reflexivity|].
  destruct (Js.includes "ERR_CONNECTION_REFUSED" (message e)) eqn:H2;
    [vm_compute; reflexivity|].
  destruct (Js.includes "ERR_NETWORK_CHANGED" (message e)) eqn:H3;
    [vm_compute; reflexivity|].
  destruct (Js.includes "timeout" (message e)) eqn:H4;
    [vm_compute; reflexivity|].
  destruct (Js.includes "404" (message e)) eqn:H5;
    [vm_compute; reflexivity|].
  now apply formatNetworkError_passthrough.
Qed.

(** Which formatted texts the final-failure test takes for network-related. *)
Lemma looksNetworkRelated_formatted (e : JsError) :
  looksNetworkRelated (formatNetworkError (ErrVal e))
  = if Js.includes "ERR_CONNECTION_CLOSED" (message e) then false
    else if Js.includes "ERR_CONNECTION_REFUSED" (message e) then false
    else if Js.includes "ERR_NETWORK_CHANGED" (message e) then true
    else if Js.includes "timeout" (message e) then true
    else if Js.includes "404" (message e) then false
    else looksNetworkRelated (message e).
Proof.
  unfold formatNetworkError.
  destruct (Js.includes "ERR_CONNECTION_CLOSED" (message e));
    [vm_compute; reflexivity|].
  destruct (Js.includes "ERR_CONNECTION_REFUSED" (message e));
    [vm_compute; reflexivity|].
  destruct (Js.includes "ERR_NETWORK_CHANGED" (message e));
    [vm_compute; reflexivity|].
  destruct (Js.includes "timeout" (message e));
    [vm_compute; reflexivity|].
  destruct (Js.includes "404" (message e));
    [vm_compute; reflexivity|].
  reflexivity.
Qed.

(** X2. When the last attempt of [refreshAuthState] ends in an exception whose
    message reports a closed or refused connection, the formatted text is
    shown as the error: it carries neither "Network" nor "connection". An
    exception reporting a changed network or a timeout is not shown. *)
Theorem final_failure_visibility (attempt : Z) (w w1 : World) (e : JsError) :
  maxRetries <= attempt ->
  refreshAttempt attempt w = (Threw (ErrVal e), w1) ->
  exists w',
    refreshAuthState attempt w = (Resolved tt, w')
    /\ (Js.includes "ERR_CONNECTION_CLOSED" (message e) = true
        \/ Js.includes "ERR_CONNECTION_REFUSED" (message e) = true ->
        error (ui w') = Some (formatNetworkError (ErrVal e)))
    /\ (Js.includes "ERR_CONNECTION_CLOSED" (message e) = false ->
        Js.includes "ERR_CONNECTION_REFUSED" (message e) = false ->
        Js.includes "ERR_NETWORK_CHANGED" (message e) = true
        \/ Js.includes "timeout" (message e) = true ->
        error (ui w') = None).
Proof.
  intros Hge Hthrew.
  destruct (refreshAuthState_outcome attempt w) as [c [w2 [w' [Hb [Hr [_ Hc]]]]]].
  rewrite Hthrew in Hb. injection Hb as <- <-.
  assert (Hnlt : (attempt <? maxRetries) = false) by (apply Z.ltb_ge; lia).
  rewrite Hnlt in Hc. destruct Hc as [_ [_ [_ Herr]]].
  rewrite looksNetworkRelated_formatted in Herr.
  exists w'. split; [exact Hr|]. split.
  - intros [H|H].
    + rewrite H in Herr. exact Herr.
    + rewrite H in Herr.
      destruct (Js.includes "ERR_CONNECTION_CLOSED" (message e)); exact Herr.
  - intros H1 H2 [H|H]; rewrite H1, H2 in Herr.
    + rewrite H in Herr. exact Herr.
    + rewrite H in Herr.
      destruct (Js.includes "ERR_NETWORK_CHANGED" (message e)); exact Herr.
Qed.

Lemma final_failure_visibility_witness :
  let w := sampleWorld (Some alice) emptyStore
             [mkReply 0 (Rejected (ErrVal (newError "net::ERR_CONNECTION_CLOSED")))] [] in
  exists w',
    refreshAuthState 3 w = (Resolved tt, w')
    /\ error (ui w')
       = Some "Connection was closed unexpectedly. This might be due to network issues or Supabase service problems.".
Proof.
  intros w.
  destruct (final_failure_visibility 3 w
              (snd (refreshAttempt 3 w))
              (newError "net::ERR_CONNECTION_CLOSED")
              ltac:(unfold maxRetries; lia) ltac:(vm_compute; reflexivity))
    as [w' [Hr [Hshown _]]].
  exists w'. split; [exact Hr|].
  rewrite (Hshown (or_introl eq_refl)). vm_compute. reflexivity.
Defined.

(** ** Reachability *)

(** X3. [checkConnectivity] resolves to [false] at once when the browser is
    offline. Online, it resolves to [true] when the first or the second
    endpoint answers OK, and also when the second fetch is aborted and the
    same-origin fetch gets any answer at all; a non-OK answer of the second
    endpoint gives [false]. It sends no request to the service and leaves
    the provider's state alone. *)
Theorem checkConnectivity_verdict (w : World) :
  exists w',
    checkConnectivity w
    = (Resolved (onLine (env w)
                 && (isOk (probeAt 0 w)
                     || isOk (probeAt 1 w)
                     || (isAborted (probeAt 1 w) && negb (isAborted (probeAt 2 w))))),
       w')
    /\ ui w' = ui w
    /\ svc w' = svc w
    /\ requests (out w') = requests (out w)
    /\ timers (out w') = timers (out w)
    /\ (onLine (env w) = false -> w' = w).
Proof.
  open_world w. unfold checkConnectivity, probeAt. run.
  destruct onl; run; [|eexists; split; [reflexivity|]; repeat split].
  destruct pbs as [|[] [|[] [|[] pbs']]]; run;
    (eexists; split; [reflexivity|]); run; repeat split; discriminate.
Qed.

(** X4. [diagnoseNetworkConnectivity] reports the network accessible exactly
    when the browser is online and one of the two endpoints answers OK; it
    carries an error message exactly when it does not. Whenever it reports
    the network accessible, [checkConnectivity] run in the same situation
    resolves to [true]. *)
Theorem diagnosis_agrees_with_probe (w : World) :
  exists d w',
    diagnoseNetworkConnectivity w = (Resolved d, w')
    /\ browserOnline d = onLine (env w)
    /\ supabaseAccessible d
       = onLine (env w) && (isOk (probeAt 0 w) || isOk (probeAt 1 w))
    /\ errorMessage d
       = (if supabaseAccessible d then None
          else if onLine (env w) then Some MSG_DOWN else Some MSG_OFFLINE)
    /\ (supabaseAccessible d = true ->
        fst (checkConnectivity w) = Resolved true)
    /\ svc w' = svc w
    /\ ui w' = ui w.
Proof.
  open_world w. unfold diagnoseNetworkConnectivity, checkConnectivity, probeAt. run.
  destruct onl; run;
    [|do 2 eexists; split; [reflexivity|]; repeat split; discriminate].
  destruct pbs as [|[] [|[] pbs']]; run;
    (do 2 eexists; split; [reflexivity|]); cbn; repeat split;
    try discriminate; try reflexivity.
Qed.

(** The two functions differ when both endpoints fail by abort: the
    diagnosis reports the network down while the probe of the provider,
    which goes on to a same-origin fetch, resolves to [true]. *)
Example probe_more_lenient_than_diagnosis :
  let w := mkWorld (mkAuth None None None true None)
             (mkService emptyStore None None "user-2")
             (mkEnv 0 [] [ProbeAborted; ProbeAborted; ProbeNotOk] [] true)
             (mkEffects [] [] []) in
  fst (checkConnectivity w) = Resolved true
  /\ option_map supabaseAccessible
       (match fst (diagnoseNetworkConnectivity w) with
        | Resolved d => Some d | _ => None end) = Some false.
Proof. vm_compute. split; reflexivity. Qed.

(** ** Initialisation *)



(** X6. How a mounted [initializeAuth] treats an error answer of
    [getSession]: it never asks for the profile and ends with loading off;
    - "404" together with the placeholder URL: the configuration message is
      shown, session and user are left as they were;
    - otherwise a network-shaped text: the run goes on as signed out
      (session and user null) and shows no error of its own;
    - any other text: the error is reformatted with the prefix
      "Failed to get session: " and shown unless that looks
      network-related; session and user are left as they were. *)
Theorem initializeAuth_session_error (supabaseUrl : option string)
        (w : World) (e : JsError) :
  outcome (nextReply w) = Failed e ->
  exists w',
    initializeAuth true supabaseUrl w = (Resolved tt, w')
    /\ loading (ui w') = false
    /\ requests (out w') = (requests (out w) ++ [AuthGetSession])%list
    /\ profile (ui w') = profile (ui w)
    /\ if Js.includes "404" (message e) && urlHasPlaceholder supabaseUrl then
         error (ui w') = Some MSG_INVALID_CONFIG
         /\ user (ui w') = user (ui w)
         /\ session (ui w') = session (ui w)
       else if networkShaped (message e) then
         user (ui w') = None
         /\ session (ui w') = None
         /\ error (ui w') = error (ui w)
       else
         user (ui w') = user (ui w)
         /\ session (ui w') = session (ui w)
         /\ error (ui w')
            = let shownText :=
                formatNetworkError
                  (ErrVal (newError ("Failed to get session: "
                                     ++ formatNetworkError (ErrVal e)))) in
              if looksNetworkRelated shownText then error (ui w)
              else Some shownText.
Proof.
  intros Hf.
  assert (Hcfg : formatNetworkError (ErrVal (newError MSG_INVALID_CONFIG))
                 = MSG_INVALID_CONFIG) by (vm_compute; reflexivity).
  assert (Hnl : looksNetworkRelated MSG_INVALID_CONFIG = false)
    by (vm_compute; reflexivity).
  open_world w. run_in Hf. unfold initializeAuth, initializeAuthWith. run. meet_probe.
  destruct rps as [|[el oc] rps']; run_in Hf; [discriminate Hf|].
  subst oc. run.
  destruct (Js.includes "404" (message e) && urlHasPlaceholder supabaseUrl); run.
  - rewrite Hcfg, Hnl. run.
    eexists; (split; [reflexivity|]); run. repeat split; reflexivity.
  - destruct (networkShaped (message e)); run.
    + eexists; (split; [reflexivity|]); run. repeat split; reflexivity.
    + clear Hcfg Hnl. cbv zeta.
      match goal with
      | |- context [looksNetworkRelated ?x] => destruct (looksNetworkRelated x)
      end; run;
        eexists; (split; [reflexivity|]); run; repeat split; reflexivity.
Qed.

Lemma initializeAuth_session_error_witness :
  exists w',
    initializeAuth true (Some "https://obbycwigtdzgnyapbdjl.supabase.co")
      (sampleWorld None emptyStore [failing "404 page not found"] [])
    = (Resolved tt, w')
    /\ loading (ui w') = false
    /\ error (ui w') = Some MSG_INVALID_CONFIG.
Proof.
  destruct (initializeAuth_session_error
              (Some "https://obbycwigtdzgnyapbdjl.supabase.co")
              (sampleWorld None emptyStore [failing "404 page not found"] [])
              (mkErr "404 page not found" None false) eq_refl)
    as [w' [Hr [Hl [_ [_ Hcase]]]]].
  exists w'. split; [exact Hr|]. split; [exact Hl|].
  cbn in Hcase. tauto.
Defined.

(** ** Profile reads and writes *)

(** Keep the postcondition of an existential goal folded while the run is
    executed symbolically. *)
Ltac protect_post :=
  match goal with
  | |- exists w', ?L = @?R w' /\ @?P w' =>
      set (Post := P); change (exists w', L = R w' /\ Post w')
  end.

(** A patch that carries no [user_id], or the owner's, keeps the row with
    its owner. *)
Lemma applyPatch_owner (userId : string) (u : ProfilePatch) (t : Z) (q : Profile) :
  Supabase.orOld (set_user_id u) userId = userId ->
  Supabase.ownedBy userId q = true ->
  Supabase.ownedBy userId (Supabase.applyPatch u t q) = true.
Proof.
  unfold Supabase.ownedBy, Supabase.applyPatch. cbn [p_user_id].
  destruct (set_user_id u) as [i|]; cbn [Supabase.orOld]; intros H E.
  - subst i. apply String.eqb_refl.
  - exact E.
Qed.

Lemma filter_owned_map (userId : string) (f : Profile -> Profile)
      (rows : list Profile) :
  (forall q, Supabase.ownedBy userId q = true ->
             Supabase.ownedBy userId (f q) = true) ->
  filter (Supabase.ownedBy userId)
         (map (fun q => if Supabase.ownedBy userId q then f q else q) rows)
  = map f (filter (Supabase.ownedBy userId) rows).
Proof.
  intros Hf. induction rows as [|q tl IH]; [reflexivity|].
  cbn [map filter]. destruct (Supabase.ownedBy userId q) eqn:E.
  - rewrite (Hf q E). cbn [map]. now rewrite IH.
  - rewrite E. exact IH.
Qed.

(** X7. A successful [updateProfile] whose patch leaves the owner alone (it
    carries no [user_id], or the user's own): the user's row gets every key
    of the patch, the identifier and the creation time included when the
    patch carries them, and the time of the call as [updated_at], whatever
    [updated_at] the patch carries; rows of other users are untouched; and
    the row as updated is what the provider then holds as profile. *)
Theorem updateProfile_round_trip (w : World) (u : User) (p : Profile)
        (updates : ProfilePatch) :
  user (ui w) = Some u ->
  filter (Supabase.ownedBy (u_id u)) (profiles (db (svc w))) = [p] ->
  accepted (outcomeAt 0 w) = true ->
  outcomeAt 1 w = Served ->
  Supabase.orOld (set_user_id updates) (u_id u) = u_id u ->
  let p' := Supabase.applyPatch updates (clock (env w)) p in
  exists w',
    updateProfile updates w = (Resolved tt, w')
    /\ profile (ui w') = Some p'
    /\ loading (ui w') = false
    /\ filter (Supabase.ownedBy (u_id u)) (profiles (db (svc w'))) = [p']
    /\ p_updated_at p' = clock (env w)
    /\ p_id p' = Supabase.orOld (set_id updates) (p_id p)
    /\ p_user_id p' = u_id u
    /\ p_created_at p' = Supabase.orOld (set_created_at updates) (p_created_at p)
    /\ p_email p' = Supabase.orOld (set_email updates) (p_email p)
    /\ p_full_name p' = Supabase.orKeep (set_full_name updates) (p_full_name p)
    /\ p_phone p' = Supabase.orKeep (set_phone updates) (p_phone p)
    /\ filter (fun q => negb (Supabase.ownedBy (u_id u) q)) (profiles (db (svc w')))
       = filter (fun q => negb (Supabase.ownedBy (u_id u) q)) (profiles (db (svc w)))
    /\ requests (out w')
       = (requests (out w) ++ [UpdateProfile (u_id u); SelectProfile (u_id u)])%list.
Proof.
  intros Hu Hp Ha Hs Hown p'. subst p'.
  assert (Howner : p_user_id (Supabase.applyPatch updates (clock (env w)) p) = u_id u).
  { assert (Hin : In p (filter (Supabase.ownedBy (u_id u)) (profiles (db (svc w)))))
      by (rewrite Hp; left; reflexivity).
    apply filter_In in Hin as [_ Hin].
    apply (applyPatch_owner _ updates (clock (env w))) in Hin; [|exact Hown].
    unfold Supabase.ownedBy in Hin. now apply String.eqb_eq in Hin. }
  open_world w. run_in Hu. run_in Hp. run_in Howner. unfold outcomeAt in *.
  cbn [replies env] in Ha, Hs. subst usr.
  assert (Hrows : filter (Supabase.ownedBy (u_id u))
            (map (fun q => if Supabase.ownedBy (u_id u) q
                           then Supabase.applyPatch updates clk q else q) prs)
          = [Supabase.applyPatch updates clk p]).
  { rewrite filter_owned_map by (intros; now apply applyPatch_owner).
    rewrite Hp. reflexivity. }
  assert (Hothers : filter (fun q => negb (Supabase.ownedBy (u_id u) q))
            (map (fun q => if Supabase.ownedBy (u_id u) q
                           then Supabase.applyPatch updates clk q else q) prs)
          = filter (fun q => negb (Supabase.ownedBy (u_id u) q)) prs).
  { clear - Hown. induction prs as [|q tl IH]; [reflexivity|].
    cbn [map filter]. destruct (Supabase.ownedBy (u_id u) q) eqn:E.
    - rewrite (applyPatch_owner _ updates clk q Hown E). exact IH.
    - rewrite E. cbn [negb]. now rewrite IH. }
  protect_post.
  unfold updateProfile. run.
  destruct rps as [|[e0 o0] rps']; cbn [nth outcome] in Ha, Hs;
    [|destruct o0; try discriminate Ha]; run.
  all: match goal with
       | |- context [fetchProfile ?i ?W] =>
           destruct (fetchProfile_existing W i (Supabase.applyPatch updates clk p))
             as [w' [E [Hprof [Hload [Hdb [Hreq _]]]]]];
           [exact Hrows
           |unfold outcomeAt; cbn [replies env nth];
            first [reflexivity | destruct rps'; exact Hs]
           |rewrite E; exists w'; split; [reflexivity|];
            subst Post; cbv beta;
            rewrite Hdb, Hreq; cbn [db svc profiles out requests];
            rewrite <- app_assoc; repeat split; assumption]
       end.
Qed.

(** A patch that carries a creation time and an [updated_at] of its own:
    the first is written, the second is overridden by the time of the
    call. *)
Lemma updateProfile_round_trip_witness :
  let row := mkProfile 0 "user-1" "alice@example.com" None None 10 20 in
  let w := sampleWorld (Some alice) (mkStore [row] [] [] 1) [] [] in
  exists w',
    updateProfile (mkPatch None None None (Some "Alice") (Some "+911234567890")
                           (Some 7) (Some 8)) w
    = (Resolved tt, w')
    /\ profile (ui w')
       = Some (mkProfile 0 "user-1" "alice@example.com" (Some "Alice")
                         (Some "+911234567890") 7 1000).
Proof.
  intros row w.
  destruct (updateProfile_round_trip w alice row
              (mkPatch None None None (Some "Alice") (Some "+911234567890")
                       (Some 7) (Some 8))
              eq_refl eq_refl eq_refl eq_refl eq_refl)
    as [w' [Hr [Hp _]]].
  exists w'. split; [exact Hr | exact Hp].
Defined.

(** X8. A failed [updateProfile]: when the service does not carry out the
    update, the call rejects with the service's own error, sends nothing
    further, and leaves the store and the provider's state as they were. *)
Theorem updateProfile_failure (w : World) (u : User) (updates : ProfilePatch) :
  user (ui w) = Some u ->
  accepted (outcomeAt 0 w) = false ->
  exists v w',
    updateProfile updates w = (Threw v, w')
    /\ match outcomeAt 0 w with
       | Failed e => v = ErrVal e
       | Rejected r => v = r
       | _ => False
       end
    /\ db (svc w') = db (svc w)
    /\ ui w' = ui w
    /\ requests (out w') = (requests (out w) ++ [UpdateProfile (u_id u)])%list.
Proof.
  intros Hu Ha. open_world w. run_in Hu. unfold outcomeAt in *.
  cbn [replies env] in *. subst usr.
  unfold updateProfile. run.
  destruct rps as [|[e0 o0] rps']; cbn [nth outcome] in *;
    [discriminate Ha | destruct o0; try discriminate Ha]; run;
    do 2 eexists; (split; [reflexivity|]); run; repeat split.
Qed.

Lemma updateProfile_failure_witness :
  exists w',
    updateProfile (mkPatch None None None (Some "Alice") None None None)
      (sampleWorld (Some alice) emptyStore [failing "permission denied"] [])
    = (Threw (ErrVal (mkErr "permission denied" None false)), w')
    /\ ui w' = ui (sampleWorld (Some alice) emptyStore [failing "permission denied"] []).
Proof.
  destruct (updateProfile_failure
              (sampleWorld (Some alice) emptyStore [failing "permission denied"] [])
              alice (mkPatch None None None (Some "Alice") None None None) eq_refl eq_refl)
    as [v [w' [Hr [Hv [_ [Hui _]]]]]].
  cbn in Hv. subst v. exists w'. split; [exact Hr | exact Hui].
Defined.

Lemma filter_owned_map_away (userId : string) (f : Profile -> Profile)
      (rows : list Profile) :
  (forall q, Supabase.ownedBy userId q = true ->
             Supabase.ownedBy userId (f q) = false) ->
  filter (Supabase.ownedBy userId)
         (map (fun q => if Supabase.ownedBy userId q then f q else q) rows)
  = [].
Proof.
  intros Hf. induction rows as [|q tl IH]; [reflexivity|].
  cbn [map filter]. destruct (Supabase.ownedBy userId q) eqn:E.
  - rewrite (Hf q E). exact IH.
  - rewrite E. exact IH.
Qed.

(** X28. [updateProfile] writes every key of the patch, the owner included.
    With a patch that carries another user's identifier the update is
    carried out all the same: the user's row now belongs to that other
    user, and the [fetchProfile] that follows finds no row for the user
    and creates a fresh, empty profile, which is what the provider then
    holds. *)
Theorem updateProfile_gives_row_away (w : World) (u : User) (p : Profile)
        (updates : ProfilePatch) (other : string) :
  user (ui w) = Some u ->
  filter (Supabase.ownedBy (u_id u)) (profiles (db (svc w))) = [p] ->
  set_user_id updates = Some other ->
  other <> u_id u ->
  outcomeAt 0 w = Served -> outcomeAt 1 w = Served ->
  outcomeAt 2 w = Served -> outcomeAt 3 w = Served ->
  let given := Supabase.applyPatch updates (clock (env w)) p in
  let t := clock (env w) + elapsedAt 0 w + elapsedAt 1 w + elapsedAt 2 w
           + elapsedAt 3 w in
  let fresh := mkProfile (next_id (db (svc w))) (u_id u) (authEmail w)
                         None None t t in
  exists w',
    updateProfile updates w = (Resolved tt, w')
    /\ In given (profiles (db (svc w')))
    /\ p_user_id given = other
    /\ filter (Supabase.ownedBy (u_id u)) (profiles (db (svc w'))) = [fresh]
    /\ profile (ui w') = Some fresh
    /\ requests (out w')
       = (requests (out w)
          ++ [UpdateProfile (u_id u); SelectProfile (u_id u); AuthGetUser;
              InsertProfile (u_id u) (authEmail w)])%list.
Proof.
  intros Hu Hp Ho Hne H0 H1 H2 H3 given t fresh. subst given t fresh.
  assert (Hin : In p (profiles (db (svc w)))).
  { assert (Hin : In p (filter (Supabase.ownedBy (u_id u)) (profiles (db (svc w)))))
      by (rewrite Hp; left; reflexivity).
    now apply filter_In in Hin as [Hin _]. }
  assert (Haway : forall t q, Supabase.ownedBy (u_id u) q = true ->
            Supabase.ownedBy (u_id u) (Supabase.applyPatch updates t q) = false).
  { intros t q _. unfold Supabase.ownedBy, Supabase.applyPatch. cbn [p_user_id].
    rewrite Ho. cbn [Supabase.orOld]. now apply String.eqb_neq. }
  open_world w. run_in Hu. run_in Hp. run_in Hin.
  unfold outcomeAt, elapsedAt, authEmail in *.
  cbn [replies env svc authUser db next_id clock] in *. subst usr.
  set (prs' := map (fun q => if Supabase.ownedBy (u_id u) q
                             then Supabase.applyPatch updates clk q else q) prs).
  assert (Hrows : filter (Supabase.ownedBy (u_id u)) prs' = [])
    by (apply filter_owned_map_away; intros; now apply Haway).
  assert (Hgiven : In (Supabase.applyPatch updates clk p) prs').
  { unfold prs'. apply in_map_iff. exists p. split; [|exact Hin].
    assert (E : Supabase.ownedBy (u_id u) p = true).
    { assert (Hf : In p (filter (Supabase.ownedBy (u_id u)) prs))
        by (rewrite Hp; left; reflexivity).
      now apply filter_In in Hf as [_ Hf]. }
    now rewrite E. }
  protect_post.
  unfold updateProfile. run.
  destruct rps as [|[e0 o0] rps']; cbn [nth outcome elapsed] in *;
    [|subst o0]; run; fold prs'.
  all: match goal with
       | |- context [fetchProfile ?i ?W] =>
           destruct (fetchProfile_absent W i) as [w' [E [Hdb [Hprof [_ Hreq]]]]];
           [exact Hrows
           |unfold outcomeAt; cbn [replies env nth];
            first [reflexivity | destruct rps'; assumption]
           |unfold outcomeAt; cbn [replies env nth];
            first [reflexivity | destruct rps' as [|? [|? ?]]; assumption]
           |left; unfold outcomeAt; cbn [replies env nth];
            first [reflexivity | destruct rps' as [|? [|? [|? ?]]]; assumption]
           |]
       end.
  all: rewrite E; exists w'; split; [reflexivity|]; subst Post; cbv beta.
  all: unfold outcomeAt, elapsedAt, authEmail in *.
  all: cbn [replies env svc authUser db next_id clock profiles out requests nth] in *.
  all: rewrite Hdb, Hprof, Hreq.
  all: try rewrite H3.
  all: cbn [nth elapsed outcome Z.of_N]; rewrite ?Z.add_0_r, ?app_nil_r, <- ?app_assoc.
  all: (split; [apply in_or_app; left; exact Hgiven|]);
       (split; [cbn [p_user_id Supabase.applyPatch]; rewrite Ho; reflexivity|]);
       (split; [rewrite filter_app, Hrows; cbn [filter app];
                unfold Supabase.ownedBy; cbn [p_user_id]; rewrite String.eqb_refl;
                reflexivity|]);
       split; reflexivity.
Qed.

Lemma updateProfile_gives_row_away_witness :
  let row := mkProfile 0 "user-1" "alice@example.com" (Some "Alice") None 10 20 in
  let w := sampleWorld (Some alice) (mkStore [row] [] [] 1) [] [] in
  exists w',
    updateProfile (mkPatch None (Some "user-9") None None None None None) w
    = (Resolved tt, w')
    /\ profiles (db (svc w'))
       = [mkProfile 0 "user-9" "alice@example.com" (Some "Alice") None 10 1000;
          mkProfile 1 "user-1" "alice@example.com" None None 1000 1000]
    /\ profile (ui w')
       = Some (mkProfile 1 "user-1" "alice@example.com" None None 1000 1000).
Proof.
  intros row w.
  destruct (updateProfile_gives_row_away w alice row
              (mkPatch None (Some "user-9") None None None None None) "user-9"
              eq_refl eq_refl eq_refl ltac:(discriminate)
              eq_refl eq_refl eq_refl eq_refl)
    as [w' [Hr [_ [_ [_ [Hp _]]]]]].
  exists w'. split; [exact Hr|]. split; [|exact Hp].
  assert (Hw' : w' = snd (updateProfile
                            (mkPatch None (Some "user-9") None None None None None) w))
    by (rewrite Hr; reflexivity).
  rewrite Hw'. vm_compute. reflexivity.
Defined.

(** X9. When the profile query is answered with a "406" / "Not Acceptable"
    error, [fetchProfile] probes the table once and rejects with one of two
    messages: the table cannot be reached (the probe fails too) or access
    to the row is denied (the probe is answered). It never goes on to
    create a profile, and loading is off afterwards. *)
Theorem fetchProfile_policy_rejection (w : World) (userId : string) (e : JsError) :
  outcomeAt 0 w = Failed e ->
  Js.includes "406" (message e) || Js.includes "Not Acceptable" (message e) = true ->
  exists v w',
    fetchProfile userId w = (Threw v, w')
    /\ match outcomeAt 1 w with
       | Failed _ => v = ErrVal (newError MSG_TABLE_UNREACHABLE)
       | Rejected r => v = r
       | _ => v = ErrVal (newError MSG_ROW_DENIED)
       end
    /\ db (svc w') = db (svc w)
    /\ profile (ui w') = profile (ui w)
    /\ loading (ui w') = false
    /\ requests (out w')
       = (requests (out w) ++ [SelectProfile userId; ProbeProfiles])%list.
Proof.
  intros Hf H406. open_world w. unfold outcomeAt in *. cbn [replies env] in *.
  unfold fetchProfile, budget. cbn [fetchProfileN]. run.
  destruct rps as [|[e0 o0] rps']; cbn [nth outcome] in Hf; [discriminate Hf|].
  subst o0. run. rewrite H406. run.
  destruct rps' as [|[e1 o1] rps2]; [|destruct o1]; run;
    do 2 eexists; (split; [reflexivity|]); run;
    rewrite <- ?app_assoc; repeat split; reflexivity.
Qed.

Lemma fetchProfile_policy_rejection_witness :
  exists w',
    fetchProfile "user-1"
      (sampleWorld (Some alice) emptyStore
         [failing "406 Not Acceptable"; failing "permission denied for table profiles"] [])
    = (Threw (ErrVal (newError "Cannot access user profiles. Please check your Supabase table policies.")), w')
    /\ loading (ui w') = false.
Proof.
  destruct (fetchProfile_policy_rejection
              (sampleWorld (Some alice) emptyStore
                 [failing "406 Not Acceptable";
                  failing "permission denied for table profiles"] [])
              "user-1" (mkErr "406 Not Acceptable" None false) eq_refl eq_refl)
    as [v [w' [Hr [Hv [_ [_ [Hl _]]]]]]].
  cbn in Hv. subst v. exists w'. split; [exact Hr | exact Hl].
Defined.

(** X10. Any other error answer of the profile query is rethrown as it is,
    unless its code is PGRST116: that code is read as "no row", and the
    profile is created without the table having been looked at, next to
    whatever rows the user may have. *)
Theorem fetchProfile_query_error (w : World) (userId : string) (e : JsError) :
  outcomeAt 0 w = Failed e ->
  Js.includes "406" (message e) || Js.includes "Not Acceptable" (message e) = false ->
  (isNoRowsCode (code e) = false ->
   exists w',
     fetchProfile userId w = (Threw (ErrVal e), w')
     /\ db (svc w') = db (svc w)
     /\ profile (ui w') = profile (ui w)
     /\ loading (ui w') = false
     /\ requests (out w') = (requests (out w) ++ [SelectProfile userId])%list)
  /\ (isNoRowsCode (code e) = true ->
      outcomeAt 1 w = Served -> outcomeAt 2 w = Served ->
      let t := clock (env w) + elapsedAt 0 w + elapsedAt 1 w + elapsedAt 2 w in
      let row := mkProfile (next_id (db (svc w))) userId (authEmail w)
                           None None t t in
      exists w',
        fetchProfile userId w = (Resolved tt, w')
        /\ profiles (db (svc w')) = (profiles (db (svc w)) ++ [row])%list
        /\ profile (ui w') = Some row
        /\ loading (ui w') = false).
Proof.
  intros Hf H406.
  assert (Hmail : forall au : option User,
            match au with
            | Some u => match u_email u with
                        | Some m => Js.orElse m "" | None => "" end
            | None => ""
            end
            = match au with
              | Some u => match u_email u with Some m => m | None => "" end
              | None => ""
              end).
  { intros [[i [m|]]|]; cbn; [apply orElse_empty | reflexivity | reflexivity]. }
  open_world w. unfold outcomeAt, elapsedAt, authEmail in *.
  cbn [replies env svc authUser db next_id clock] in *.
  destruct rps as [|[e0 o0] rps']; cbn [nth outcome elapsed] in *;
    [discriminate Hf|]. subst o0.
  split.
  - intros Hcode. unfold fetchProfile, budget. cbn [fetchProfileN]. run.
    rewrite H406, Hcode. run.
    eexists; (split; [reflexivity|]); run; repeat split; reflexivity.
  - intros Hcode H1 H2.
    unfold fetchProfile, budget. cbn [replies env List.length fetchProfileN].
    unfold createProfileWith. run. rewrite H406, Hcode. cbn [negb]. run.
    destruct rps' as [|[e1 o1] [|[e2 o2] rps2]];
      cbn [nth outcome elapsed] in *; try (subst o1); try (subst o2);
      run; rewrite Hmail;
      change (Z.of_N 0) with 0; rewrite ?Z.add_0_r;
      eexists; (split; [reflexivity|]); run; repeat split; reflexivity.
Qed.

Lemma fetchProfile_query_error_witness :
  let row := mkProfile 0 "user-1" "alice@example.com" (Some "Alice") None 10 20 in
  let w := sampleWorld (Some alice) (mkStore [row] [] [] 1)
             [mkReply 0 (Failed (mkErr "no rows" (Some "PGRST116") false))] [] in
  exists w',
    fetchProfile "user-1" w = (Resolved tt, w')
    /\ List.length (filter (Supabase.ownedBy "user-1") (profiles (db (svc w')))) = 2%nat.
Proof.
  intros row w.
  destruct (fetchProfile_query_error w "user-1"
              (mkErr "no rows" (Some "PGRST116") false) eq_refl eq_refl)
    as [_ H].
  destruct (H eq_refl eq_refl eq_refl) as [w' [Hr [Hrows _]]].
  exists w'. split; [exact Hr|]. rewrite Hrows. reflexivity.
Defined.

(** X11. [createProfile] fails in two ways: an error answer of [getUser] is
    rethrown as it is and nothing is inserted; an error answer of the
    insert is replaced by an error whose message is
    "Failed to create user profile: " followed by the service's message.
    In both cases the store and the adopted profile are as before and
    loading is off. *)
Theorem createProfile_failures (w : World) (userId : string) (e : JsError) :
  (outcomeAt 0 w = Failed e ->
   exists w',
     createProfile userId w = (Threw (ErrVal e), w')
     /\ db (svc w') = db (svc w)
     /\ profile (ui w') = profile (ui w)
     /\ loading (ui w') = false
     /\ requests (out w') = (requests (out w) ++ [AuthGetUser])%list)
  /\ (outcomeAt 0 w = Served -> outcomeAt 1 w = Failed e ->
      exists w',
        createProfile userId w
        = (Threw (ErrVal (newError ("Failed to create user profile: "
                                    ++ message e))), w')
        /\ db (svc w') = db (svc w)
        /\ profile (ui w') = profile (ui w)
        /\ loading (ui w') = false).
Proof.
  open_world w. unfold outcomeAt. cbn [replies env].
  split.
  - intros Hf. destruct rps as [|[e0 o0] rps']; cbn [nth outcome] in Hf;
      [discriminate Hf|]. subst o0.
    unfold createProfile, createProfileWith. run.
    eexists; (split; [reflexivity|]); run; repeat split; reflexivity.
  - intros H0 H1.
    destruct rps as [|[e0 o0] [|[e1 o1] rps']]; cbn [nth outcome] in H0, H1;
      try discriminate H1. subst o0 o1.
    unfold createProfile, createProfileWith. run.
    eexists; (split; [reflexivity|]); run; repeat split; reflexivity.
Qed.

Lemma createProfile_failures_witness :
  exists w',
    createProfile "user-1"
      (sampleWorld (Some alice) emptyStore
         [mkReply 0 Served; failing "duplicate key value"] [])
    = (Threw (ErrVal (newError "Failed to create user profile: duplicate key value")), w')
    /\ loading (ui w') = false.
Proof.
  destruct (createProfile_failures
              (sampleWorld (Some alice) emptyStore
                 [mkReply 0 Served; failing "duplicate key value"] [])
              "user-1" (mkErr "duplicate key value" None false))
    as [_ H].
  destruct (H eq_refl eq_refl) as [w' [Hr [_ [_ Hl]]]].
  exists w'. split; [exact Hr | exact Hl].
Defined.

(** ** One-time codes: failure, retry and round trip *)



(** X13. A wrong code does not consume the pending record: [verifyOtp] resolves
    to [false] after the single select, with the store and the provider's
    state untouched. What it writes to the console is the supplied code
    and then the record the query returned, the pending code included; no
    error is logged. As long as that record is still the one the query
    returns, the right code is then accepted. *)
Theorem verifyOtp_mismatch_keeps_record (w : World) (u : User) (otp : string)
        (type : Channel) (r : OtpVerification) :
  user (ui w) = Some u ->
  outcome (nextReply w) = Served ->
  Supabase.lookupOtp (u_id u) type (clock (env w))
                     (otp_verifications (db (svc w))) = [r] ->
  otp_code r <> otp ->
  exists w',
    verifyOtp otp type w = (Resolved false, w')
    /\ db (svc w') = db (svc w)
    /\ ui w' = ui w
    /\ console (out w')
       = (console (out w)
          ++ [LogVerifying otp type; LogOtpResult (Some r) None])%list
    /\ requests (out w') = (requests (out w) ++ [SelectOtp (u_id u) type])%list
    /\ forall w2,
         user (ui w2) = Some u ->
         db (svc w2) = db (svc w') ->
         Supabase.lookupOtp (u_id u) type (clock (env w2))
                            (otp_verifications (db (svc w2))) = [r] ->
         outcome (nextReply w2) = Served ->
         accepted (outcomeAt 1 w2) = true ->
         exists w3, verifyOtp (otp_code r) type w2 = (Resolved true, w3).
Proof.
  intros Hu Hs L Hne.
  assert (Hrun : exists w',
             verifyOtp otp type w = (Resolved false, w')
             /\ db (svc w') = db (svc w)
             /\ ui w' = ui w
             /\ console (out w')
                = (console (out w)
                   ++ [LogVerifying otp type; LogOtpResult (Some r) None])%list
             /\ requests (out w') = (requests (out w) ++ [SelectOtp (u_id u) type])%list).
  { open_world w. run_in Hu. run_in Hs. run_in L. subst usr.
    apply String.eqb_neq in Hne.
    unfold verifyOtp. run.
    destruct rps as [|[el oc] rps']; run; [|run_in Hs; subst oc; run];
      rewrite L; unfold Supabase.single; run; rewrite Hne; run;
      eexists; (split; [reflexivity|]); run; rewrite <- ?app_assoc;
      repeat split; reflexivity. }
  destruct Hrun as [w' [Hr [Hdb [Hui [Hcon Hreq]]]]].
  exists w'. repeat split; try assumption.
  intros w2 Hu2 Hdb2 L2 Hs2 Ha2.
  destruct (verifyOtp_match_succeeds w2 u (otp_code r) type r Hu2 Hs2 L2 eq_refl Ha2)
    as [w3 [H3 _]].
  exists w3. exact H3.
Qed.

Lemma verifyOtp_mismatch_keeps_record_witness :
  let w := sampleWorld (Some alice) (otpStore [pendingOtp 0 "123456" 900]) [] [] in
  exists w' w3,
    verifyOtp "000000" Phone w = (Resolved false, w')
    /\ console (out w')
       = [LogVerifying "000000" Phone;
          LogOtpResult (Some (pendingOtp 0 "123456" 900)) None]
    /\ verifyOtp "123456" Phone w' = (Resolved true, w3).
Proof.
  intros w.
  destruct (verifyOtp_mismatch_keeps_record w alice "000000" Phone
              (pendingOtp 0 "123456" 900) eq_refl eq_refl eq_refl
              ltac:(discriminate))
    as [w' [Hr [Hdb [Hui [Hcon [_ Hretry]]]]]].
  assert (Hw' : w' = snd (verifyOtp "000000" Phone w)) by (rewrite Hr; reflexivity).
  destruct (Hretry w') as [w3 H3].
  - rewrite Hui. reflexivity.
  - reflexivity.
  - rewrite Hw'. vm_compute. reflexivity.
  - rewrite Hw'. vm_compute. reflexivity.
  - rewrite Hw'. vm_compute. reflexivity.
  - exists w', w3. split; [exact Hr|]. split; [exact Hcon | exact H3].
Defined.

Lemma eligible_new_row (userId : string) (type : Channel) (t2 : Z)
      (i : nat) (ph em : option string) (c : string) (exp cr : Z) :
  t2 < exp ->
  Supabase.eligible userId type t2 (mkOtp i userId ph em c type exp false None cr)
  = true.
Proof.
  intros H. unfold Supabase.eligible. cbn.
  rewrite String.eqb_refl. apply Z.ltb_lt in H. rewrite H.
  destruct type; reflexivity.
Qed.

(** X14. Round trip: a code issued by [sendOtp] is accepted by [verifyOtp] for
    the same user and channel at any time less than ten minutes after it
    was issued, provided every older record was created before it and the
    service carries out the requests. *)
Theorem sendOtp_verifyOtp_round_trip (w w1 w2 : World) (u : User)
        (phone email : string) (type : Channel) :
  user (ui w) = Some u ->
  accepted (outcome (nextReply w)) = true ->
  (forall x, In x (otp_verifications (db (svc w))) ->
             o_created_at x < clock (env w) + Z.of_N (elapsed (nextReply w))) ->
  sendOtp phone email type w = (Resolved true, w1) ->
  user (ui w2) = Some u ->
  otp_verifications (db (svc w2)) = otp_verifications (db (svc w1)) ->
  clock (env w2) < clock (env w) + 10 * 60 * 1000 ->
  outcome (nextReply w2) = Served ->
  accepted (outcomeAt 1 w2) = true ->
  exists w3,
    verifyOtp (generateOtp (draw (entropy (env w)))) type w2 = (Resolved true, w3).
Proof.
  intros Hu Ha Hold Hsend Hu2 Htab Hclk Hs2 Ha2.
  destruct (sendOtp_accepted w u phone email type Hu Ha)
    as [w1' [Hsend' [Hrows _]]].
  rewrite Hsend in Hsend'. injection Hsend' as <-.
  set (row := mkOtp _ _ _ _ _ _ _ _ _ _) in Hrows.
  assert (Hel : Supabase.eligible (u_id u) type (clock (env w2)) row = true)
    by (apply eligible_new_row; exact Hclk).
  pose proof (lookupOtp_spec (u_id u) type (clock (env w2))
                (otp_verifications (db (svc w2))))
    as [[_ Hnone]|[r [L [Hin [_ Hmax]]]]].
  - exfalso. rewrite Htab, Hrows, filter_app in Hnone.
    apply app_eq_nil in Hnone as [_ Hnone].
    cbn [filter] in Hnone. rewrite Hel in Hnone. discriminate.
  - assert (Hr : r = row).
    { rewrite Htab, Hrows in Hin. apply in_app_iff in Hin as [Hin|[Hin|[]]].
      - exfalso. specialize (Hold r Hin).
        assert (Hrow_in : In row (otp_verifications (db (svc w2))))
          by (rewrite Htab, Hrows; apply in_app_iff; right; now left).
        specialize (Hmax row Hrow_in Hel). subst row. cbn [o_created_at] in Hmax. lia.
      - symmetry. exact Hin. }
    subst r.
    destruct (verifyOtp_match_succeeds w2 u _ type row Hu2 Hs2 L eq_refl Ha2)
      as [w3 [H3 _]].
    exists w3. exact H3.
Qed.

Lemma sendOtp_verifyOtp_round_trip_witness :
  let w := sampleWorld (Some alice) (otpStore [pendingOtp 0 "123456" 900]) [] [0] in
  exists w1 w3,
    sendOtp "+911234567890" "" Phone w = (Resolved true, w1)
    /\ verifyOtp "100000" Phone w1 = (Resolved true, w3).
Proof.
  intros w.
  destruct (sendOtp_accepted w alice "+911234567890" "" Phone eq_refl eq_refl)
    as [w1 [Hsend [_ [_ [_ [_ [_ [_ Hui]]]]]]]].
  assert (Hw1 : w1 = snd (sendOtp "+911234567890" "" Phone w))
    by (rewrite Hsend; reflexivity).
  destruct (sendOtp_verifyOtp_round_trip w w1 w1 alice "+911234567890" "" Phone
              eq_refl eq_refl) as [w3 H3].
  - intros x [<-|[]]. vm_compute. reflexivity.
  - exact Hsend.
  - rewrite Hui. reflexivity.
  - reflexivity.
  - rewrite Hw1. vm_compute. reflexivity.
  - rewrite Hw1. vm_compute. reflexivity.
  - rewrite Hw1. vm_compute. reflexivity.
  - exists w1, w3. split; [exact Hsend|]. exact H3.
Defined.

Lemma NoDup_map_same {A B} (f : A -> B) (l : list A) (x y : A) :
  NoDup (map f l) -> In x l -> In y l -> f x = f y -> x = y.
Proof.
  induction l as [|a tl IH]; intros Hnd Hx Hy Hf; [contradiction|].
  cbn [map] in Hnd. inversion Hnd as [|? ? Hnotin Hnd']; subst.
  destruct Hx as [<-|Hx], Hy as [<-|Hy].
  - reflexivity.
  - exfalso. apply Hnotin. rewrite Hf. now apply in_map.
  - exfalso. apply Hnotin. rewrite <- Hf. now apply in_map.
  - now apply IH.
Qed.

(** X15. With row identifiers unique, a successful verification changes one
    row only: every other record, of whatever user or channel, is in the
    table exactly as before, and the changed row differs from the old one
    in [is_verified] and [verified_at] alone. *)
Theorem verifyOtp_touches_one_row (w w' : World) (u : User) (otp : string)
        (type : Channel) :
  user (ui w) = Some u ->
  NoDup (map o_id (otp_verifications (db (svc w)))) ->
  verifyOtp otp type w = (Resolved true, w') ->
  exists r t',
    In r (otp_verifications (db (svc w)))
    /\ otp_verifications (db (svc w'))
       = map (fun x => if Nat.eqb (o_id x) (o_id r)
                       then mkOtp (o_id r) (o_user_id r) (o_phone r) (o_email r)
                                  (otp_code r) (otp_type r) (expires_at r)
                                  true (Some t') (o_created_at r)
                       else x)
             (otp_verifications (db (svc w)))
    /\ (forall x, In x (otp_verifications (db (svc w))) -> x <> r ->
                  In x (otp_verifications (db (svc w'))))
    /\ List.length (otp_verifications (db (svc w')))
       = List.length (otp_verifications (db (svc w))).
Proof.
  intros Hu Hnd Hrun.
  destruct (verifyOtp_true_inv w w' u otp type Hu Hrun) as [r [L [_ [Hmark _]]]].
  pose proof (lookupOtp_spec (u_id u) type (clock (env w))
                (otp_verifications (db (svc w))))
    as [[L0 _]|[r0 [L1 [Hin _]]]]; [rewrite L0 in L; discriminate|].
  rewrite L1 in L. injection L as ->.
  exists r, (clock (env w) + Z.of_N (elapsed (nextReply w))).
  split; [exact Hin|].
  assert (Hsame : forall x, In x (otp_verifications (db (svc w))) ->
            o_id x = o_id r -> x = r).
  { intros x Hx Hid. exact (NoDup_map_same o_id _ x r Hnd Hx Hin Hid). }
  split; [|split].
  - rewrite Hmark. apply map_ext_in. intros x Hx.
    unfold Supabase.markVerified.
    destruct (Nat.eqb_spec (o_id x) (o_id r)) as [E|E]; [|reflexivity].
    rewrite (Hsame x Hx E). reflexivity.
  - intros x Hx Hne. rewrite Hmark. apply in_map_iff. exists x. split; [|exact Hx].
    unfold Supabase.markVerified.
    destruct (Nat.eqb_spec (o_id x) (o_id r)) as [E|E]; [|reflexivity].
    exfalso. apply Hne. now apply Hsame.
  - rewrite Hmark. apply length_map.
Qed.

Lemma verifyOtp_touches_one_row_witness :
  let w := sampleWorld (Some alice)
             (otpStore [pendingOtp 0 "111111" 800; pendingOtp 1 "222222" 900])
             [] [] in
  In (pendingOtp 0 "111111" 800)
     (otp_verifications (db (svc (snd (verifyOtp "222222" Phone w))))).
Proof.
  intros w.
  destruct (verifyOtp_touches_one_row w (snd (verifyOtp "222222" Phone w)) alice
              "222222" Phone eq_refl)
    as [r [t' [Hin [Htab [Hkeep _]]]]].
  - repeat constructor; cbn; intuition discriminate.
  - vm_compute. reflexivity.
  - apply Hkeep; [now left|].
    intros E. subst r. revert Htab. vm_compute. discriminate.
Defined.

(** ** Sign-in, sign-out and auth-change events *)

(** X16. [signIn] and [signOut] reject exactly when the service does not carry
    out the request, with the service's own error, and never touch the
    provider's state or the tables themselves: the new state only arrives
    with the auth-change event. *)
Theorem signIn_signOut_outcome (w : World) (email password : string) :
  (exists c w',
     signIn email password w = (c, w')
     /\ ui w' = ui w /\ db (svc w') = db (svc w)
     /\ c = match outcome (nextReply w) with
            | Failed e => Threw (ErrVal e)
            | Rejected v => Threw v
            | _ => Resolved tt
            end)
  /\ (exists c w',
        signOut w = (c, w')
        /\ ui w' = ui w /\ db (svc w') = db (svc w)
        /\ c = match outcome (nextReply w) with
               | Failed e => Threw (ErrVal e)
               | Rejected v => Threw v
               | _ => Resolved tt
               end
        /\ authSession (svc w')
           = if accepted (outcome (nextReply w)) then None
             else authSession (svc w)).
Proof.
  open_world w. split.
  - unfold signIn. run.
    destruct rps as [|[el oc] rps']; [|destruct oc]; run;
      do 2 eexists; (split; [reflexivity|]); run; repeat split.
  - unfold signOut. run.
    destruct rps as [|[el oc] rps']; [|destruct oc]; run;
      do 2 eexists; (split; [reflexivity|]); run; repeat split.
Qed.

(** X17. Signing out, end to end: once the service has carried out the
    sign-out and its event (with the now absent session) has been
    processed, user, profile and error are null and loading is off, so the
    shell renders the sign-in form unless a timeout error is on display. *)
Theorem signOut_then_event_shows_form (w : World) :
  accepted (outcome (nextReply w)) = true ->
  exists w1 w2,
    signOut w = (Resolved tt, w1)
    /\ ui w1 = ui w
    /\ onAuthStateChange true SIGNED_OUT (authSession (svc w1)) w1
       = (Resolved tt, w2)
    /\ user (ui w2) = None
    /\ profile (ui w2) = None
    /\ error (ui w2) = None
    /\ loading (ui w2) = false
    /\ App.render (loading (ui w2)) None (error (ui w2))
                  (Documents.isSome (user (ui w2)))
                  None
       = App.AuthFormScreen.
Proof.
  intros Ha. open_world w. run_in Ha.
  unfold signOut, onAuthStateChange, onAuthStateChangeWith. run.
  destruct rps as [|[el oc] rps']; [|destruct oc; try discriminate Ha]; run;
    do 2 eexists; (split; [reflexivity|]); run;
    (split; [reflexivity|]); (split; [reflexivity|]); repeat split.
Qed.

Lemma signOut_then_event_shows_form_witness :
  exists w1 w2,
    signOut (sampleWorld (Some alice) emptyStore [] []) = (Resolved tt, w1)
    /\ onAuthStateChange true SIGNED_OUT (authSession (svc w1)) w1
       = (Resolved tt, w2)
    /\ user (ui w2) = None.
Proof.
  destruct (signOut_then_event_shows_form
              (sampleWorld (Some alice) emptyStore [] []) eq_refl)
    as [w1 [w2 [H1 [_ [H2 [H3 _]]]]]].
  exists w1, w2. repeat split; assumption.
Defined.

(** [fetchProfile] never touches the session or the user it was called for. *)
Lemma fetchProfileN_identity (fuel : nat) :
  forall (userId : string) (w : World),
    user (ui (snd (fetchProfileN fuel userId w))) = user (ui w)
    /\ session (ui (snd (fetchProfileN fuel userId w))) = session (ui w).
Proof.
  induction fuel as [|f IH]; intros userId w.
  - split; reflexivity.
  - cbn [fetchProfileN]. unfold createProfileWith. open_world w. run.
    repeat first
      [ match goal with
        | |- context [fetchProfileN f ?u ?W] =>
            let H := fresh "H" in
            pose proof (IH u W) as H;
            destruct (fetchProfileN f u W) as [c' w2];
            cbn [fst snd] in H; destruct H as [Hu Hs];
            open_world w2; run_in Hu; run_in Hs;
            destruct c'; run
        end
      | step ];
    split; first [reflexivity | assumption].
Qed.


(** X18. An event with a user, processed while mounted, for a profile fetch
    of any depth: the callback never rejects, and it stays pending exactly
    when the fetch does. It takes over the session and the user and clears
    the loading guard; once it has resolved, loading is off. The visible
    error afterwards is decided by the fetch alone: when the fetch rejected,
    it is the text of that rejection (the message of an [Error],
    "Failed to fetch profile" for anything else); otherwise the error is
    as it was before the event, so a previously shown error stays even
    though the profile arrived. Profile and store are as the fetch left
    them. *)
Theorem signed_in_event (fuel : nat) (w : World) (event : AuthEvent)
        (s : option Session) (su : User) :
  sessionUser s = Some su ->
  let r := fetchProfileN fuel (u_id su) (atFetch s w) in
  exists c w',
    onAuthStateChangeWith (fetchProfileN fuel) true event s w = (c, w')
    /\ (forall v, c <> Threw v)
    /\ (c = Pending <-> fst r = Pending)
    /\ ((List.length (replies (env w)) < fuel)%nat -> c = Resolved tt)
    /\ session (ui w') = s
    /\ user (ui w') = Some su
    /\ (c = Resolved tt -> loading (ui w') = false)
    /\ timers (out w') = filter (fun t => negb (isLoadingTimeout t)) (timers (out w))
    /\ error (ui w')
       = match fst r with
         | Threw v => Some (fetchFailureText v)
         | _ => error (ui w)
         end
    /\ profile (ui w') = profile (ui (snd r))
    /\ svc w' = svc (snd r).
Proof.
  intros Hs r. subst r. unfold atFetch. open_world w.
  unfold onAuthStateChangeWith.
  destruct s as [[tok [su'|]]|]; cbn in Hs; try discriminate Hs.
  injection Hs as ->. cbn [negb]. run.
  match goal with
  | |- context [fetchProfileN fuel ?i ?W] =>
      pose proof (fetchProfileN_identity fuel i W) as [Hid1 Hid2];
      pose proof (fetchProfileN_frame fuel i W) as [[Ht [He [_ _]]] [Hl Hp]];
      destruct (fetchProfileN fuel i W) as [c w2]
  end.
  cbn [fst snd ui user session out timers error env replies] in Hid1, Hid2, Ht, He, Hl, Hp.
  open_world w2. run_in Hid1. run_in Hid2. run_in Ht. run_in He. run_in Hl.
  subst usr0 ses0 tms0 err0.
  destruct c as [[]|v|]; run; do 2 eexists; (split; [reflexivity|]); run.
  - repeat split; try discriminate; try reflexivity; intros; apply Hl; discriminate.
  - repeat split; try discriminate; try reflexivity.
    intros _. apply Hl. discriminate.
  - repeat split; try discriminate; try reflexivity.
    intros Hlt. exfalso. exact (Hp Hlt eq_refl).
Qed.

Lemma signed_in_event_witness :
  let row := mkProfile 0 "user-1" "alice@example.com" None None 10 20 in
  let w := mkWorld (mkAuth None None None true (Some "Failed to fetch profile"))
             (mkService (mkStore [row] [] [] 1) None (Some alice) "user-2")
             (mkEnv 0 [] [] [] true)
             (mkEffects [] [] []) in
  exists w',
    onAuthStateChangeWith (fetchProfileN 1) true SIGNED_IN
      (Some (mkSession "token" (Some alice))) w
    = (Resolved tt, w')
    /\ user (ui w') = Some alice
    /\ loading (ui w') = false
    /\ profile (ui w') = Some row
    /\ error (ui w') = Some "Failed to fetch profile".
Proof.
  intros row w.
  destruct (signed_in_event 1 w SIGNED_IN (Some (mkSession "token" (Some alice)))
              alice eq_refl)
    as [c [w' [Hr [_ [_ [Hc [_ [Hu [Hl [_ [He [Hp _]]]]]]]]]]]].
  assert (E : c = Resolved tt) by (apply Hc; cbn; lia).
  subst c. exists w'. split; [exact Hr|]. split; [exact Hu|].
  split; [exact (Hl eq_refl)|]. split; [exact Hp | exact He].
Defined.

(** A stale error survives a successful sign-in event. *)
Example stale_error_survives_sign_in :
  let row := mkProfile 0 "user-1" "alice@example.com" None None 10 20 in
  let w := mkWorld (mkAuth None None None true (Some "Failed to fetch profile"))
             (mkService (mkStore [row] [] [] 1) None (Some alice) "user-2")
             (mkEnv 0 [] [] [] true)
             (mkEffects [] [] []) in
  let w' := snd (onAuthStateChange true SIGNED_IN
                   (Some (mkSession "token" (Some alice))) w) in
  profile (ui w') = Some row /\ error (ui w') = Some "Failed to fetch profile".
Proof. vm_compute. split; reflexivity. Qed.

(** A fetch that the service rejects ends up as the visible error. *)
Example rejected_fetch_is_shown :
  let w := mkWorld (mkAuth None None None true None)
             (mkService emptyStore None (Some alice) "user-2")
             (mkEnv 0 [failing "permission denied for table profiles"] [] [] true)
             (mkEffects [] [] []) in
  let w' := snd (onAuthStateChange true SIGNED_IN
                   (Some (mkSession "token" (Some alice))) w) in
  error (ui w') = Some "Failed to fetch profile" /\ loading (ui w') = false.
Proof. vm_compute. split; reflexivity. Qed.

(** X19. The periodic check decides on the [loading] flag and the user that
    its closure captured when the effect ran, not on the provider's state
    at the time it fires. With a captured [loading] of [true] (its value at
    mount), or after unmount, it does nothing at all, whatever the state
    is by then. Otherwise it asks for the session once, even while the
    provider is loading; and when that request fails, or reports the
    captured user (or none, with none captured), it leaves the provider's
    state, the timers and the store alone. *)
Theorem periodicRefresh_is_silent (isMounted loading : bool)
        (user : option User) (w : World) :
  (loading = true \/ isMounted = false ->
   periodicRefresh isMounted loading user w = (Resolved tt, w))
  /\ (loading = false -> isMounted = true ->
      accepted (outcome (nextReply w)) = false
      \/ (outcome (nextReply w) = Served
          /\ sessionUserId (authSession (svc w)) = option_map u_id user)
      \/ (outcome (nextReply w) = Quiet /\ user = None) ->
      exists w',
        periodicRefresh isMounted loading user w = (Resolved tt, w')
        /\ ui w' = ui w
        /\ timers (out w') = timers (out w)
        /\ db (svc w') = db (svc w)
        /\ requests (out w') = (requests (out w) ++ [AuthGetSession])%list).
Proof.
  split.
  - intros H. unfold periodicRefresh.
    destruct H as [-> | ->]; [reflexivity|]. destruct loading; reflexivity.
  - intros -> -> H. open_world w. unfold periodicRefresh, sessionUserId in *.
    cbn [ui svc env authSession replies] in *.
    unfold nextReply in H. cbn [env replies] in H.
    protect_post. cbn [negb andb]. run.
    destruct rps as [|[el oc] rps']; cbn [hd outcome accepted] in H;
      [|destruct oc]; run.
    + destruct H as [H|[[_ H]|[H _]]]; try discriminate H.
      destruct asn as [[tok [su|]]|]; cbn in H; cbn [option_map];
        rewrite <- H; unfold optionString_eqb; rewrite ?String.eqb_refl;
        cbn [negb]; run;
        eexists; (split; [reflexivity|]); subst Post; cbv beta; repeat split.
    + destruct H as [H|[[_ H]|[H _]]]; try discriminate H.
      destruct asn as [[tok [su|]]|]; cbn in H; cbn [option_map];
        rewrite <- H; unfold optionString_eqb; rewrite ?String.eqb_refl;
        cbn [negb]; run;
        eexists; (split; [reflexivity|]); subst Post; cbv beta; repeat split.
    + destruct H as [H|[[H _]|[_ H]]]; try discriminate H.
      subst user. cbn. run.
      eexists; (split; [reflexivity|]); subst Post; cbv beta; repeat split.
    + eexists; (split; [reflexivity|]); subst Post; cbv beta; repeat split.
    + eexists; (split; [reflexivity|]); subst Post; cbv beta; repeat split.
Qed.

(** The interval set up at mount captured [loading = true]: it stays
    silent although loading has ended and the session has changed. *)
Lemma periodicRefresh_is_silent_witness :
  let w := mkWorld (mkAuth (Some alice) None None false None)
             (mkService emptyStore None None "user-2")
             (mkEnv 0 [] [] [] true)
             (mkEffects [] [] []) in
  periodicRefresh true true None w = (Resolved tt, w)
  /\ exists w',
       periodicRefresh true false (Some alice)
         (mkWorld (mkAuth (Some alice) None None true None)
                  (mkService emptyStore None None "user-2")
                  (mkEnv 0 [failing "Failed to fetch"] [] [] true)
                  (mkEffects [] [] []))
       = (Resolved tt, w')
       /\ ui w' = mkAuth (Some alice) None None true None
       /\ requests (out w') = [AuthGetSession].
Proof.
  intros w. split.
  - exact (proj1 (periodicRefresh_is_silent true true None w) (or_introl eq_refl)).
  - destruct (proj2 (periodicRefresh_is_silent true false (Some alice)
              (mkWorld (mkAuth (Some alice) None None true None)
                       (mkService emptyStore None None "user-2")
                       (mkEnv 0 [failing "Failed to fetch"] [] [] true)
                       (mkEffects [] [] []))) eq_refl eq_refl (or_introl eq_refl))
      as [w' [Hr [Hui [_ [_ Hq]]]]].
    exists w'. split; [exact Hr|]. split; [exact Hui | exact Hq].
Defined.

(** ** The document step *)

Section DocumentFacts.
Import Documents.

Lemma lookup_assign_same (k : string) (d : Document) (docs : Docs) :
  lookup k (assign k d docs) = Some d.
Proof.
  induction docs as [|[k0 d0] tl IH]; cbn [assign lookup].
  - now rewrite String.eqb_refl.
  - destruct (String.eqb k0 k) eqn:E; cbn [lookup]; rewrite E; [reflexivity|exact IH].
Qed.

Lemma lookup_assign_other (k k' : string) (d : Document) (docs : Docs) :
  k' <> k -> lookup k' (assign k d docs) = lookup k' docs.
Proof.
  intros Hne. induction docs as [|[k0 d0] tl IH]; cbn [assign lookup].
  - apply String.eqb_neq in Hne. rewrite String.eqb_sym, Hne. reflexivity.
  - destruct (String.eqb k0 k) eqn:E; cbn [lookup].
    + apply String.eqb_eq in E. subst k0.
      assert (E' : String.eqb k k' = false)
        by (apply String.eqb_neq; congruence).
      rewrite E'. reflexivity.
    + destruct (String.eqb k0 k'); [reflexivity|exact IH].
Qed.

Lemma lookup_remove_same (k : string) (docs : Docs) :
  lookup k (remove k docs) = None.
Proof.
  unfold remove. induction docs as [|[k0 d0] tl IH]; cbn [filter lookup fst];
    [reflexivity|].
  destruct (String.eqb k0 k) eqn:E; cbn [negb lookup]; [exact IH|].
  rewrite E. exact IH.
Qed.

Lemma lookup_remove_other (k k' : string) (docs : Docs) :
  k' <> k -> lookup k' (remove k docs) = lookup k' docs.
Proof.
  intros Hne. unfold remove.
  induction docs as [|[k0 d0] tl IH]; cbn [filter lookup fst]; [reflexivity|].
  destruct (String.eqb k0 k) eqn:E; cbn [negb lookup].
  - apply String.eqb_eq in E. subst k0.
    assert (E' : String.eqb k k' = false) by (apply String.eqb_neq; congruence).
    rewrite E'. exact IH.
  - destruct (String.eqb k0 k'); [reflexivity|exact IH].
Qed.

Lemma required_unfolded (fd : FormData) :
  isRequiredDocumentsUploaded fd
  = isSome (lookup "id_verification" (documents fd))
    && isSome (lookup "proof_of_address" (documents fd)).
Proof.
  unfold isRequiredDocumentsUploaded. cbn [documentTypes filter required forallb dt_id].
  now rewrite andb_true_r.
Qed.

End DocumentFacts.

(** X20. Uploading and removing behave as writes to a map keyed by document
    type: a document uploaded under a type is the one found there (a second
    upload replaces the first), removing it leaves nothing there, neither
    touches what is stored under the other types, and the agreement flag
    is kept. *)
Theorem document_upload_remove (fd : Documents.FormData) (k k' : string)
        (file : Documents.Document) :
  In k documentIds -> In k' documentIds ->
  Documents.lookup k (Documents.documents (Documents.handleDocumentUpload k file fd))
  = Some file
  /\ Documents.lookup k (Documents.documents (Documents.removeDocument k fd)) = None
  /\ Documents.lookup k
       (Documents.documents
          (Documents.removeDocument k (Documents.handleDocumentUpload k file fd)))
     = None
  /\ (k' <> k ->
      Documents.lookup k'
        (Documents.documents (Documents.handleDocumentUpload k file fd))
      = Documents.lookup k' (Documents.documents fd)
      /\ Documents.lookup k' (Documents.documents (Documents.removeDocument k fd))
         = Documents.lookup k' (Documents.documents fd))
  /\ Documents.agreementAccepted (Documents.handleDocumentUpload k file fd)
     = Documents.agreementAccepted fd
  /\ Documents.agreementAccepted (Documents.removeDocument k fd)
     = Documents.agreementAccepted fd.
Proof.
  intros _ _. unfold Documents.handleDocumentUpload, Documents.removeDocument.
  cbn [Documents.documents Documents.agreementAccepted].
  destruct file as [n s t]. cbn [Documents.doc_name Documents.doc_size Documents.doc_type].
  split; [apply lookup_assign_same|].
  split; [apply lookup_remove_same|].
  split; [apply lookup_remove_same|].
  split; [|split; reflexivity].
  intros Hne. split; [now apply lookup_assign_other | now apply lookup_remove_other].
Qed.

Lemma document_upload_remove_witness :
  Documents.lookup "tax_document"
    (Documents.documents
       (Documents.handleDocumentUpload "tax_document"
          (Documents.mkDocument "itr.pdf" 2048 "application/pdf")
          (Documents.mkFormData [] false)))
  = Some (Documents.mkDocument "itr.pdf" 2048 "application/pdf").
Proof.
  destruct (document_upload_remove (Documents.mkFormData [] false)
              "tax_document" "id_verification"
              (Documents.mkDocument "itr.pdf" 2048 "application/pdf"))
    as [H _].
  - cbn. tauto.
  - cbn. tauto.
  - exact H.
Defined.

(** X21. The submit gate of the document step: it is open exactly when both the
    government ID and the proof of address are present. Uploading anything
    never closes it, removing either required document closes it, and the
    two optional documents have no influence on it. *)
Theorem required_documents_gate (fd : Documents.FormData) :
  (Documents.isRequiredDocumentsUploaded fd = true <->
   Documents.lookup "id_verification" (Documents.documents fd) <> None
   /\ Documents.lookup "proof_of_address" (Documents.documents fd) <> None)
  /\ (forall k file,
        Documents.isRequiredDocumentsUploaded fd = true ->
        Documents.isRequiredDocumentsUploaded
          (Documents.handleDocumentUpload k file fd) = true)
  /\ (forall f1 f2,
        Documents.isRequiredDocumentsUploaded
          (Documents.handleDocumentUpload "id_verification" f1
             (Documents.handleDocumentUpload "proof_of_address" f2 fd)) = true)
  /\ (forall k, k = "id_verification" \/ k = "proof_of_address" ->
        Documents.isRequiredDocumentsUploaded (Documents.removeDocument k fd) = false)
  /\ (forall k file, k = "business_license" \/ k = "tax_document" ->
        Documents.isRequiredDocumentsUploaded (Documents.removeDocument k fd)
        = Documents.isRequiredDocumentsUploaded fd
        /\ Documents.isRequiredDocumentsUploaded
             (Documents.handleDocumentUpload k file fd)
           = Documents.isRequiredDocumentsUploaded fd).
Proof.
  split; [|split; [|split; [|split]]].
  - rewrite required_unfolded.
    destruct (Documents.lookup "id_verification" (Documents.documents fd)),
             (Documents.lookup "proof_of_address" (Documents.documents fd));
      cbn; split; intros H; try discriminate; try reflexivity;
      try (destruct H; congruence); split; discriminate.
  - intros k file. rewrite !required_unfolded.
    unfold Documents.handleDocumentUpload. cbn [Documents.documents].
    intros H. apply andb_prop in H as [H1 H2].
    destruct (string_dec "id_verification" k) as [E1|N1];
      destruct (string_dec "proof_of_address" k) as [E2|N2];
      try (subst k; discriminate E2).
    + subst k. rewrite lookup_assign_same, lookup_assign_other by discriminate.
      rewrite H2. reflexivity.
    + subst k. rewrite lookup_assign_same, lookup_assign_other by discriminate.
      rewrite H1. reflexivity.
    + rewrite !lookup_assign_other by assumption. rewrite H1, H2. reflexivity.
  - intros f1 f2. rewrite required_unfolded.
    unfold Documents.handleDocumentUpload. cbn [Documents.documents].
    rewrite lookup_assign_same, lookup_assign_other by discriminate.
    rewrite lookup_assign_same. reflexivity.
  - intros k [-> | ->]; rewrite required_unfolded;
      unfold Documents.removeDocument; cbn [Documents.documents];
      rewrite lookup_remove_same; cbn; [reflexivity | apply andb_false_r].
  - intros k file [-> | ->]; rewrite !required_unfolded;
      unfold Documents.removeDocument, Documents.handleDocumentUpload;
      cbn [Documents.documents];
      rewrite !lookup_remove_other, !lookup_assign_other by discriminate;
      split; reflexivity.
Qed.

(** ** The application shell *)

(** X22. What the shell renders: the loading screen whenever loading is on,
    whatever else is set; the dashboard only when loading is off, neither
    a timeout error nor an error is shown, a user is present and the
    profile says onboarding is complete; and an error screen carries the
    troubleshooting hints exactly when the text passes the network test. *)
Theorem render_priorities (loading : bool) (timeoutError error : option string)
        (userPresent : bool) (onboardingCompleted : option bool) :
  (loading = true ->
   App.render loading timeoutError error userPresent onboardingCompleted
   = App.LoadingScreen)
  /\ (App.render loading timeoutError error userPresent onboardingCompleted
      = App.DashboardScreen
      <-> loading = false /\ App.shown timeoutError = None
          /\ App.shown error = None /\ userPresent = true
          /\ onboardingCompleted = Some true)
  /\ (forall msg hints,
        App.render loading timeoutError error userPresent onboardingCompleted
        = App.ErrorScreen msg hints ->
        loading = false /\ App.shown timeoutError = None
        /\ error = Some msg /\ hints = App.isNetworkError msg)
  /\ (loading = false -> App.shown timeoutError = None ->
      App.shown error = None -> userPresent = false ->
      App.render loading timeoutError error userPresent onboardingCompleted
      = App.AuthFormScreen).
Proof.
  unfold App.render. split; [intros ->; reflexivity|]. split; [|split].
  - destruct loading; [split; [discriminate | intros [H _]; discriminate]|].
    destruct (App.shown timeoutError) as [t|];
      [split; [discriminate | intros [_ [H _]]; discriminate]|].
    destruct (App.shown error) as [e|];
      [split; [discriminate | intros [_ [_ [H _]]]; discriminate]|].
    destruct userPresent; cbn [negb];
      [|split; [discriminate | intros [_ [_ [_ [H _]]]]; discriminate]].
    destruct onboardingCompleted as [[|]|]; split; intros H;
      try discriminate; try tauto;
      destruct H as [_ [_ [_ [_ H]]]]; discriminate.
  - intros msg hints. destruct loading; [discriminate|].
    destruct (App.shown timeoutError) as [t|]; [discriminate|].
    unfold App.shown.
    destruct error as [e|].
    + destruct (Js.truthy e).
      * intros [= -> <-]. repeat split.
      * destruct userPresent, onboardingCompleted as [[|]|]; discriminate.
    + destruct userPresent, onboardingCompleted as [[|]|]; discriminate.
  - intros -> -> -> ->. reflexivity.
Qed.

Lemma retryable_is_network (e : string) :
  App.retryable e = true -> App.isNetworkError e = true.
Proof.
  unfold App.retryable, App.isNetworkError.
  destruct (Js.includes "Network" e), (Js.includes "connection" e),
           (Js.includes "timeout" e), (Js.includes "Supabase" e),
           (Js.includes "ERR_CONNECTION_CLOSED" e); cbn; congruence.
Qed.

(** X23. The auto-retry of the shell is armed only below three retries and only
    for an error that the error screen also classifies as a network issue;
    and every text [formatNetworkError] substitutes for a recognised
    signature is one it is armed for. *)
Theorem auto_retry_scope (error : option string) (retryCount : Z) :
  (App.autoRetryArmed error retryCount = true ->
   retryCount < 3
   /\ exists m, error = Some m /\ App.isNetworkError m = true)
  /\ (3 <= retryCount -> App.autoRetryArmed error retryCount = false)
  /\ (forall e,
        Js.includes "ERR_CONNECTION_CLOSED" (message e) = true
        \/ Js.includes "ERR_CONNECTION_REFUSED" (message e) = true
        \/ Js.includes "ERR_NETWORK_CHANGED" (message e) = true
        \/ Js.includes "timeout" (message e) = true
        \/ Js.includes "404" (message e) = true ->
        retryCount < 3 ->
        App.autoRetryArmed (Some (formatNetworkError (ErrVal e))) retryCount = true).
Proof.
  split; [|split].
  - unfold App.autoRetryArmed. destruct error as [m|]; [|discriminate].
    intros H. apply andb_prop in H as [H Hr]. apply andb_prop in H as [_ Hn].
    apply Z.ltb_lt in Hn. split; [exact Hn|].
    exists m. split; [reflexivity|]. now apply retryable_is_network.
  - intros Hge. unfold App.autoRetryArmed. destruct error as [m|]; [|reflexivity].
    assert (E : (retryCount <? 3) = false) by (apply Z.ltb_ge; exact Hge).
    rewrite E, andb_false_r. reflexivity.
  - intros e Hsig Hlt. apply Z.ltb_lt in Hlt.
    unfold App.autoRetryArmed, formatNetworkError.
    destruct (Js.includes "ERR_CONNECTION_CLOSED" (message e));
      [rewrite Hlt; vm_compute; reflexivity|].
    destruct (Js.includes "ERR_CONNECTION_REFUSED" (message e));
      [rewrite Hlt; vm_compute; reflexivity|].
    destruct (Js.includes "ERR_NETWORK_CHANGED" (message e));
      [rewrite Hlt; vm_compute; reflexivity|].
    destruct (Js.includes "timeout" (message e));
      [rewrite Hlt; vm_compute; reflexivity|].
    destruct (Js.includes "404" (message e));
      [rewrite Hlt; vm_compute; reflexivity|].
    destruct Hsig as [H|[H|[H|[H|H]]]]; discriminate H.
Qed.

(** X24. The two retry layers compose: when the provider gives up on an
    exception that reports a closed or refused connection, the text it
    leaves as the visible error is one the shell arms its own retry for. *)
Theorem shell_retries_after_provider_gave_up (attempt retryCount : Z)
        (w w1 : World) (e : JsError) :
  maxRetries <= attempt ->
  refreshAttempt attempt w = (Threw (ErrVal e), w1) ->
  Js.includes "ERR_CONNECTION_CLOSED" (message e) = true
  \/ Js.includes "ERR_CONNECTION_REFUSED" (message e) = true ->
  retryCount < 3 ->
  exists w',
    refreshAuthState attempt w = (Resolved tt, w')
    /\ timers (out w') = timers (out w)
    /\ App.autoRetryArmed (error (ui w')) retryCount = true.
Proof.
  intros Hge Hthrew Hsig Hlt.
  destruct (refreshAuthState_outcome attempt w) as [c [w2 [w' [Hb [Hr [_ Hc]]]]]].
  rewrite Hthrew in Hb. injection Hb as <- <-.
  assert (Hnlt : (attempt <? maxRetries) = false) by (apply Z.ltb_ge; lia).
  rewrite Hnlt in Hc. destruct Hc as [_ [Ht [_ Herr]]].
  rewrite looksNetworkRelated_formatted in Herr.
  assert (Hshown : error (ui w') = Some (formatNetworkError (ErrVal e))).
  { destruct Hsig as [H|H]; rewrite H in Herr; [exact Herr|].
    destruct (Js.includes "ERR_CONNECTION_CLOSED" (message e)); exact Herr. }
  exists w'. split; [exact Hr|]. split; [exact Ht|].
  rewrite Hshown.
  apply Z.ltb_lt in Hlt.
  unfold App.autoRetryArmed, formatNetworkError.
  destruct (Js.includes "ERR_CONNECTION_CLOSED" (message e));
    [rewrite Hlt; vm_compute; reflexivity|].
  destruct (Js.includes "ERR_CONNECTION_REFUSED" (message e));
    [rewrite Hlt; vm_compute; reflexivity|].
  destruct Hsig as [H|H]; discriminate H.
Qed.

Lemma shell_retries_after_provider_gave_up_witness :
  let w := sampleWorld (Some alice) emptyStore
             [mkReply 0 (Rejected (ErrVal (newError "net::ERR_CONNECTION_REFUSED")))] [] in
  exists w',
    refreshAuthState 3 w = (Resolved tt, w')
    /\ App.autoRetryArmed (error (ui w')) 0 = true.
Proof.
  intros w.
  destruct (shell_retries_after_provider_gave_up 3 0 w
              (snd (refreshAttempt 3 w))
              (newError "net::ERR_CONNECTION_REFUSED")
              ltac:(unfold maxRetries; lia) ltac:(vm_compute; reflexivity)
              (or_intror eq_refl) ltac:(lia))
    as [w' [Hr [_ Harm]]].
  exists w'. split; assumption.
Defined.

(** X29. The loading guard acts on the state its closure captured at mount
    ([loading] true, no user), not on the state when it fires. After a
    signed-out start in which [initializeAuth] has ended loading without
    an error, the shell shows the sign-in form; if no auth-change event
    has cleared the guard by the time it fires, it sets the timeout error
    all the same: the shell then shows the error screen with the network
    hints and arms its automatic retry. *)
Theorem guard_fires_after_finished_start (supabaseUrl : option string)
        (w : World) (rest : list Timer) :
  timers (out w) = mkTimer 10000 (LoadingTimeout true None) :: rest ->
  error (ui w) = None ->
  outcome (nextReply w) = Served ->
  authSession (svc w) = None ->
  exists w1 w2,
    initializeAuth true supabaseUrl w = (Resolved tt, w1)
    /\ loading (ui w1) = false
    /\ user (ui w1) = None
    /\ error (ui w1) = None
    /\ App.render (loading (ui w1)) None (error (ui w1)) false None
       = App.AuthFormScreen
    /\ settle 1 w1 = (Resolved tt, w2)
    /\ timers (out w2) = rest
    /\ user (ui w2) = None
    /\ loading (ui w2) = false
    /\ error (ui w2) = Some MSG_AUTH_TIMEOUT
    /\ App.render (loading (ui w2)) None (error (ui w2)) false None
       = App.ErrorScreen MSG_AUTH_TIMEOUT true
    /\ App.autoRetryArmed (error (ui w2)) 0 = true
    /\ requests (out w2) = (requests (out w) ++ [AuthGetSession])%list.
Proof.
  intros Ht He Hs Hn. open_world w. run_in Ht. run_in He. run_in Hs. run_in Hn.
  subst tms err asn.
  unfold initializeAuth, initializeAuthWith. run. meet_probe.
  destruct rps as [|[el oc] rps']; run_in Hs; [|subst oc]; run.
  all: do 2 eexists; (split; [reflexivity|]); run.
  all: repeat split.
Qed.

Lemma guard_fires_after_finished_start_witness :
  let w := mkWorld (mkAuth None None None true None)
             (mkService emptyStore None None "user-2")
             (mkEnv 0 [] [] [] true)
             (mkEffects [] [mkTimer 10000 (LoadingTimeout true None)] []) in
  exists w1 w2,
    initializeAuth true None w = (Resolved tt, w1)
    /\ settle 1 w1 = (Resolved tt, w2)
    /\ error (ui w1) = None
    /\ error (ui w2) = Some MSG_AUTH_TIMEOUT.
Proof.
  intros w.
  destruct (guard_fires_after_finished_start None w [] eq_refl eq_refl eq_refl eq_refl)
    as [w1 [w2 [H1 [_ [_ [E1 [_ [H2 [_ [_ [_ [E2 _]]]]]]]]]]]].
  exists w1, w2. repeat split; assumption.
Defined.

(** ** More on the configuration gate *)

Section MoreConfigFacts.
Import Config.

Lemma stripPrefix_ci_app (p s r x : string) :
  Js.stripPrefix_ci p s = Some r -> Js.stripPrefix_ci p (s ++ x) = Some (r ++ x).
Proof.
  revert s. induction p as [|a p IH]; intros s H.
  - destruct s; cbn in *; injection H as <-; reflexivity.
  - destruct s as [|b s]; [discriminate H|]. cbn [Js.stripPrefix_ci append] in *.
    destruct (Js.eqb_ci a b); [now apply IH | discriminate H].
Qed.

Lemma span_app_stop (cls : ascii -> bool) (s a t x : string) (c : ascii) :
  Js.span cls s = (a, String c t) ->
  Js.span cls (s ++ x) = (a, String c t ++ x).
Proof.
  revert a. induction s as [|b s IH]; intros a H; [discriminate H|].
  cbn [Js.span append] in *. destruct (cls b).
  - destruct (Js.span cls s) as [run rest] eqn:E.
    injection H as <- ->. now rewrite (IH run eq_refl).
  - injection H as <- <- <-. reflexivity.
Qed.

Lemma equal_ci_length (p s : string) :
  Js.equal_ci p s = true -> String.length p = String.length s.
Proof.
  revert s. induction p as [|a p IH]; intros [|b s] H; try discriminate H;
    [reflexivity|].
  cbn in *. apply andb_prop in H as [_ H]. f_equal. now apply IH.
Qed.

Lemma length_append (s x : string) :
  String.length (s ++ x) = (String.length s + String.length x)%nat.
Proof. induction s as [|a s IH]; cbn; [reflexivity | now rewrite IH]. Qed.

Lemma matchesUrl_no_suffix (s x : string) :
  matchesUrl s = true -> x <> "" -> matchesUrl (s ++ x) = false.
Proof.
  unfold matchesUrl. intros H Hx.
  destruct (Js.stripPrefix_ci "https://" s) as [rest|] eqn:P; [|discriminate H].
  rewrite (stripPrefix_ci_app _ _ _ x P).
  destruct (Js.span hostChar rest) as [sub tail] eqn:S.
  apply andb_prop in H as [Hsub Htail].
  destruct tail as [|c t]; [discriminate Htail|].
  rewrite (span_app_stop _ _ _ _ x _ S). rewrite Hsub. cbn [andb].
  destruct (Js.equal_ci ".supabase.co" (String c t ++ x)) eqn:E; [|reflexivity].
  exfalso. apply equal_ci_length in E. apply equal_ci_length in Htail.
  rewrite length_append in E. destruct x; [now apply Hx|]. cbn in E, Htail. lia.
Qed.

End MoreConfigFacts.

(** X25. The verdict and the error list agree: a configuration is valid exactly
    when no error was recorded. When it is valid the client is constructed
    with the very URL and key that were validated, and the warnings are
    handed on. *)
Theorem valid_iff_no_errors (cfg : Config.SupabaseConfig) :
  (Config.isValid (Config.validateSupabaseConfig cfg) = true
   <-> Config.errors (Config.validateSupabaseConfig cfg) = [])
  /\ (Config.isValid (Config.validateSupabaseConfig cfg) = true ->
      Config.initSupabase cfg
      = Config.ClientCreated (Config.url cfg) (Config.anonKey cfg)
          (Config.warnings (Config.validateSupabaseConfig cfg))).
Proof.
  split.
  - rewrite isValid_characterised, errors_characterised.
    destruct (Js.truthy (Config.url cfg)), (Js.truthy (Config.anonKey cfg)),
             (Config.matchesUrl (Config.url cfg)),
             (Js.includes Config.placeholder (Config.url cfg));
      cbn; split; intros H; try discriminate H; reflexivity.
  - intros H. unfold Config.initSupabase. rewrite H. reflexivity.
Qed.

(** X26. Nothing may follow the host: a URL that passes the format check stops
    passing it as soon as anything is appended (a trailing slash, a path, a
    port), and validation then fails with the format error. *)
Theorem url_with_suffix_rejected (u x key : string) :
  Config.matchesUrl u = true ->
  x <> "" ->
  Config.matchesUrl (u ++ x) = false
  /\ Config.isValid (Config.validateSupabaseConfig (Config.mkConfig (u ++ x) key))
     = false
  /\ In Config.MSG_URL_FORMAT
        (Config.errors (Config.validateSupabaseConfig (Config.mkConfig (u ++ x) key)))
  /\ Config.clientConstructed (Config.initSupabase (Config.mkConfig (u ++ x) key))
     = false.
Proof.
  intros Hu Hx.
  pose proof (matchesUrl_no_suffix u x Hu Hx) as Hno.
  assert (Hv : Config.isValid
                 (Config.validateSupabaseConfig (Config.mkConfig (u ++ x) key))
               = false).
  { rewrite isValid_characterised. cbn [Config.url]. rewrite Hno.
    rewrite andb_false_r. reflexivity. }
  assert (Ht : Js.truthy (u ++ x) = true).
  { destruct u; [discriminate Hu | reflexivity]. }
  split; [exact Hno|]. split; [exact Hv|]. split.
  - rewrite errors_characterised. cbn [Config.url Config.anonKey].
    rewrite Hno, Ht. cbn [negb andb]. rewrite !in_app_iff.
    right. right. left. now left.
  - rewrite (invalid_never_constructs _ Hv). reflexivity.
Qed.

Lemma url_with_suffix_rejected_witness :
  Config.isValid
    (Config.validateSupabaseConfig
       (Config.mkConfig "https://pqcyefbhrstspzdnvpra.supabase.co/" "key"))
  = false.
Proof.
  destruct (url_with_suffix_rejected "https://pqcyefbhrstspzdnvpra.supabase.co"
              "/" "key" eq_refl ltac:(discriminate))
    as [_ [H _]].
  exact H.
Defined.

Lemma span_whole_run (cls : ascii -> bool) (sub t : string) (c : ascii) :
  stringList_forallb cls sub = true ->
  cls c = false ->
  Js.span cls (sub ++ String c t) = (sub, String c t).
Proof.
  unfold stringList_forallb. intros Hall Hc.
  induction sub as [|a sub IH]; cbn [append Js.span].
  - rewrite Hc. reflexivity.
  - cbn [list_ascii_of_string forallb] in Hall.
    apply andb_prop in Hall as [Ha Hall]. rewrite Ha, (IH Hall). reflexivity.
Qed.

(** X27. Every project URL of the documented shape is accepted: "https://", a
    non-empty run of letters, digits and hyphens, ".supabase.co". With such
    a URL that does not carry the placeholder and any non-empty key, no
    error is recorded and the client is constructed. *)
Theorem project_url_accepted (sub key : string) :
  sub <> "" ->
  stringList_forallb Config.hostChar sub = true ->
  Js.includes Config.placeholder ("https://" ++ sub ++ ".supabase.co") = false ->
  key <> "" ->
  let u := "https://" ++ sub ++ ".supabase.co" in
  Config.matchesUrl u = true
  /\ Config.errors (Config.validateSupabaseConfig (Config.mkConfig u key)) = []
  /\ Config.initSupabase (Config.mkConfig u key)
     = Config.ClientCreated u key
         (Config.warnings (Config.validateSupabaseConfig (Config.mkConfig u key))).
Proof.
  intros Hsub Hall Hph Hkey u.
  assert (Hm : Config.matchesUrl u = true).
  { subst u. unfold Config.matchesUrl.
    change (Js.stripPrefix_ci "https://" ("https://" ++ sub ++ ".supabase.co"))
      with (Some (sub ++ ".supabase.co")).
    cbv beta iota.
    rewrite (span_whole_run Config.hostChar sub "supabase.co" "."%char Hall eq_refl).
    destruct sub; [contradiction|]. reflexivity. }
  assert (Hv : Config.isValid (Config.validateSupabaseConfig (Config.mkConfig u key))
               = true).
  { rewrite isValid_characterised. cbn [Config.url Config.anonKey].
    rewrite Hm. fold u in Hph. rewrite Hph.
    destruct key; [contradiction|]. reflexivity. }
  split; [exact Hm|]. split.
  - rewrite errors_characterised. cbn [Config.url Config.anonKey].
    rewrite Hm. fold u in Hph. rewrite Hph.
    destruct key; [contradiction|]. reflexivity.
  - unfold Config.initSupabase. rewrite Hv. reflexivity.
Qed.

Lemma project_url_accepted_witness :
  Config.clientConstructed
    (Config.initSupabase
       (Config.mkConfig "https://pqcyefbhrstspzdnvpra.supabase.co" "anon-key"))
  = true.
Proof.
  destruct (project_url_accepted "pqcyefbhrstspzdnvpra" "anon-key"
              ltac:(discriminate) eq_refl eq_refl ltac:(discriminate))
    as [_ [_ H]].
  cbv zeta in H. change ("https://" ++ "pqcyefbhrstspzdnvpra" ++ ".supabase.co")
    with "https://pqcyefbhrstspzdnvpra.supabase.co" in H.
  rewrite H. reflexivity.
Defined.
